(** * elcaBonsai: the IFC library creator and the eLCA load operators

    A shallow embedding of [ifc_library_creator.py] and of the operators of
    [__init__.py] that the specification speaks about.

    - Python [str] values are Rocq strings; a character is a code point
      below 256 (the Latin-1 range), which is where [str.split],
      [str.lower] and [float] are modelled.
    - Python [float] values are IEEE binary64 numbers, [spec_float] with
      53 bits of precision; decimal literals are rounded to nearest, ties
      to even, as CPython's [float()] does.
    - A component is a [dict] read only through [.get]; it is a record of
      optional fields, [None] standing for a missing key.
    - [ifcopenshell] is an external library: a file is the list of its
      entity instances, and whether the library accepts an entity is an
      oracle of the development. *)

From Stdlib Require Import ZArith String Ascii List Bool Lia.
From Stdlib Require Import SpecFloat.
From stdpp Require Import gmap strings pretty.

Local Open Scope string_scope.
Local Open Scope list_scope.
Local Open Scope Z_scope.

(** ** Python strings *)

Module PyStr.

Definition code (c : ascii) : N := N_of_ascii c.

(** [str.isspace] on one character. *)
Definition isspace (c : ascii) : bool :=
  let n := code c in
  ((9 <=? n) && (n <=? 13) || (28 <=? n) && (n <=? 32)
   || (n =? 133) || (n =? 160))%N.

Definition isdigit (c : ascii) : bool :=
  let n := code c in ((48 <=? n) && (n <=? 57))%N.

Definition digit_value (c : ascii) : Z := Z.of_N (code c - 48).

(** [str.lower] on one character. *)
Definition lower_char (c : ascii) : ascii :=
  let n := code c in
  if ((65 <=? n) && (n <=? 90) || (192 <=? n) && (n <=? 214)
      || (216 <=? n) && (n <=? 222))%N
  then ascii_of_N (n + 32) else c.

Fixpoint map_chars (f : ascii -> ascii) (s : string) : string :=
  match s with
  | EmptyString => EmptyString
  | String c r => String (f c) (map_chars f r)
  end.

Definition lower (s : string) : string := map_chars lower_char s.

(** [s.replace(a, b)] for one-character [a] and [b]. *)
Definition replace (a b : ascii) (s : string) : string :=
  map_chars (fun c => if Ascii.eqb c a then b else c) s.

Definition is_empty (s : string) : bool :=
  match s with EmptyString => true | _ => false end.

(** [s.split()]: the maximal runs of characters that are not white
    space, in order; [tok] is the run being read. *)
Fixpoint split_from (tok s : string) : list string :=
  match s with
  | EmptyString => if is_empty tok then [] else [tok]
  | String c r =>
      if isspace c
      then (if is_empty tok then split_from EmptyString r
            else tok :: split_from EmptyString r)
      else split_from (tok +:+ String c EmptyString) r
  end.

Definition split (s : string) : list string := split_from EmptyString s.

Fixpoint lstrip (s : string) : string :=
  match s with
  | String c r => if isspace c then lstrip r else s
  | EmptyString => EmptyString
  end.

Fixpoint rstrip (s : string) : string :=
  match s with
  | EmptyString => EmptyString
  | String c r =>
      let r' := rstrip r in
      if is_empty r' && isspace c then EmptyString else String c r'
  end.

Definition strip (s : string) : string := rstrip (lstrip s).

End PyStr.

(** ** Python floats *)

Module PyFloat.

Definition float : Type := spec_float.

Definition prec : Z := 53.
Definition emax : Z := 1024.

(** The binary64 number nearest to [(-1)^neg * m * 10^e], for [0 <= m]. *)
Definition of_decimal (neg : bool) (m e : Z) : float :=
  if m =? 0 then S754_zero neg
  else if 0 <=? e
  then binary_normalize prec emax (cond_Zopp neg (m * 10 ^ e)) 0 neg
  else let '(q, e', l) := SFdiv_core_binary prec emax m 0 (10 ^ (- e)) 0 in
       binary_round_aux prec emax neg q e' l.

(** [x / y] for a non-zero [y]. *)
Definition div (x y : float) : float := SFdiv prec emax x y.

(** [0 <= x]; false on NaN. *)
Definition nonneg (x : float) : bool := SFleb (S754_zero false) x.

(** The literals of the source. *)
Definition f0_0 : float := S754_zero false.
Definition f0_01 : float := of_decimal false 1 (-2).
Definition f100_0 : float := of_decimal false 100 0.
Definition f1000_0 : float := of_decimal false 1000 0.

(** *** [float(s)] on a string

    CPython strips white space, then drops underscores that stand
    between two digits, then reads an optional sign followed by [inf],
    [infinity], [nan] or a decimal number with an optional exponent.
    [None] is [ValueError]. *)

(** Underscores are allowed only after a digit and before a digit;
    [prev] is the previous character when there is one. *)
Fixpoint drop_underscores (prev : option ascii) (s : string) : option string :=
  match s with
  | EmptyString =>
      match prev with
      | Some "_"%char => None
      | _ => Some EmptyString
      end
  | String c r =>
      if Ascii.eqb c "_" then
        match prev with
        | Some p => if PyStr.isdigit p then drop_underscores (Some c) r else None
        | None => None
        end
      else
        match prev with
        | Some "_"%char =>
            if PyStr.isdigit c
            then option_map (String c) (drop_underscores (Some c) r)
            else None
        | _ => option_map (String c) (drop_underscores (Some c) r)
        end
  end.

Definition read_sign (s : string) : bool * string :=
  match s with
  | String "-" r => (true, r)
  | String "+" r => (false, r)
  | _ => (false, s)
  end.

(** Reads a run of digits: the value of [acc] followed by the digits,
    how many digits were read on top of [n], and the rest. *)
Fixpoint read_digits (acc n : Z) (s : string) : Z * Z * string :=
  match s with
  | String c r =>
      if PyStr.isdigit c
      then read_digits (10 * acc + PyStr.digit_value c) (n + 1) r
      else (acc, n, s)
  | EmptyString => (acc, n, s)
  end.

(** A decimal number as mantissa and power of ten. *)
Definition read_decimal (s : string) : option (Z * Z) :=
  let '(ip, ni, r1) := read_digits 0 0 s in
  let '(m, nf, r2) :=
    match r1 with
    | String "." r => read_digits ip 0 r
    | _ => (ip, 0, r1)
    end in
  if ni + nf =? 0 then None
  else match r2 with
       | EmptyString => Some (m, - nf)
       | String c r3 =>
           if Ascii.eqb c "e" || Ascii.eqb c "E" then
             let '(eneg, r4) := read_sign r3 in
             let '(ev, ne, r5) := read_digits 0 0 r4 in
             if (ne =? 0) || negb (PyStr.is_empty r5) then None
             else Some (m, (if eneg then - ev else ev) - nf)
           else None
       end.

Definition of_string (s : string) : option float :=
  match drop_underscores None (PyStr.strip s) with
  | None => None
  | Some t =>
      let '(neg, body) := read_sign t in
      let w := PyStr.lower body in
      if String.eqb w "inf" || String.eqb w "infinity"
      then Some (S754_infinity neg)
      else if String.eqb w "nan" then Some S754_nan
      else match read_decimal body with
           | Some (m, e) => Some (of_decimal neg m e)
           | None => None
           end
  end.

End PyFloat.

(** ** The extracted data: building elements and their components *)

(** One entry of a component's ['lifecycle_processes'] list: a [dict] with
    the keys ['uuid'] and ['process_name']. *)
Record LifecycleProcess := {
  p_uuid : option string;
  p_process_name : option string;
}.

(** A component: a [dict] with the keys ['name'], ['quantity'],
    ['layer_thickness'] and ['lifecycle_processes']. *)
Record Component := {
  c_name : option string;
  c_quantity : option string;
  c_layer_thickness : option PyFloat.float;
  c_lifecycle_processes : option (list LifecycleProcess);
}.

(** A [BauteilElement] object. *)
Record BauteilElement := {
  category_code : string;
  name : string;
  components : list Component;
}.

(** [d.get(key, default)] on an optional field. *)
Definition get {A} (field : option A) (default : A) : A :=
  match field with
  | Some v => v
  | None => default
  end.

(** ** Resolving a layer thickness from a quantity string
    ([create_ifc_library_from_bauteil_elements], the [try] block) *)

Inductive exn :=
| ValueError
| IndexError
| AttributeError
| TypeError
| OSError
| RuntimeError.

Module Thickness.

(** The body of the [try]: it raises [IndexError] when [split()] gives no
    token and [ValueError] when [float] rejects the first one. *)
Definition parse (quantity_text : string) : exn + PyFloat.float :=
  match PyStr.split quantity_text with
  | [] => inl IndexError
  | first :: rest =>
      let numeric_part := PyStr.replace "," "." first in
      let unit_part :=
        match rest with
        | second :: _ => second
        | [] => "mm"
        end in
      match PyFloat.of_string numeric_part with
      | None => inl ValueError
      | Some thickness_value =>
          let u := PyStr.lower unit_part in
          inr (if String.eqb u "mm" then PyFloat.div thickness_value PyFloat.f1000_0
               else if String.eqb u "cm" then PyFloat.div thickness_value PyFloat.f100_0
               else if String.eqb u "m" then thickness_value
               else PyFloat.div thickness_value PyFloat.f1000_0)
      end
  end.

(** [thickness] as it stands when the material layer is created: 0.0
    for an empty string, what the [try] block computes, or 0.01 after
    [except (ValueError, IndexError)]; [parse] raises nothing else. *)
Definition of_quantity (quantity_text : string) : PyFloat.float :=
  if PyStr.is_empty quantity_text then PyFloat.f0_0
  else match parse quantity_text with
       | inr thickness => thickness
       | inl _ => PyFloat.f0_01
       end.

Definition of_component (component : Component) : PyFloat.float :=
  of_quantity (get (c_quantity component) EmptyString).

End Thickness.

(** ** The part of [ifcopenshell] the module uses *)

Module Ifc.

(** An attribute value. *)
Inductive value :=
| VNone
| VStr (s : string)
| VInt (n : Z)
| VFloat (x : PyFloat.float)
| VRef (id : nat)
| VTyped (type_name text : string)
| VRefs (ids : list nat).

(** An entity instance: its type and the attributes that were given. *)
Record entity := {
  is_a : string;
  attributes : list (string * value);
}.

(** A file in memory or on disk: instance [#id] is at position [id - 1]. *)
Definition file : Type := list entity.

Fixpoint assoc (key : string) (kvs : list (string * value)) : value :=
  match kvs with
  | [] => VNone
  | (k, v) :: rest => if String.eqb k key then v else assoc key rest
  end.

(** [instance.Attribute]; an attribute that was not given reads [None]. *)
Definition attr (e : entity) (key : string) : value :=
  assoc key (attributes e).

Fixpoint assoc_set (key : string) (v : value) (kvs : list (string * value))
  : list (string * value) :=
  match kvs with
  | [] => [(key, v)]
  | (k, old) :: rest =>
      if String.eqb k key then (k, v) :: rest
      else (k, old) :: assoc_set key v rest
  end.

(** The instance after [instance.Attribute = v]. *)
Definition with_attr (e : entity) (key : string) (v : value) : entity :=
  {| is_a := is_a e; attributes := assoc_set key v (attributes e) |}.

Definition by_id (f : file) (id : nat) : option entity :=
  match id with
  | O => None
  | S i => f !! i
  end.

Fixpoint by_type_from (id : nat) (f : file) (type_name : string)
  : list (nat * entity) :=
  match f with
  | [] => []
  | e :: rest =>
      if String.eqb (is_a e) type_name
      then (id, e) :: by_type_from (S id) rest type_name
      else by_type_from (S id) rest type_name
  end.

(** [file.by_type(type_name)]: the instances with their ids. *)
Definition by_type (f : file) (type_name : string) : list (nat * entity) :=
  by_type_from 1 f type_name.

(** How many instances of a type a file holds. *)
Definition count (type_name : string) (f : file) : nat :=
  List.length (by_type f type_name).

(** The [LayerThickness] of every [IfcMaterialLayer], in file order. *)
Definition layer_thicknesses (f : file) : list value :=
  map (fun ie => attr (snd ie) "LayerThickness") (by_type f "IfcMaterialLayer").

End Ifc.

Import Ifc.

(** ** The world the functions run in *)

(** What a call can observe and change: the list object behind the
    argument [bauteil_elements] (the caller keeps a reference to it), the
    file object under construction, the files on disk, how many GUIDs were
    drawn, and the clock. *)
Record world := {
  bauteil_elements : list BauteilElement;
  ifc_file : Ifc.file;
  disk : gmap string Ifc.file;
  guids : nat;
  clock : Z;
}.

Definition with_ifc_file (f : Ifc.file) (w : world) : world :=
  {| bauteil_elements := bauteil_elements w; ifc_file := f; disk := disk w;
     guids := guids w; clock := clock w |}.

Definition with_disk (d : gmap string Ifc.file) (w : world) : world :=
  {| bauteil_elements := bauteil_elements w; ifc_file := ifc_file w; disk := d;
     guids := guids w; clock := clock w |}.

Definition with_guids (n : nat) (w : world) : world :=
  {| bauteil_elements := bauteil_elements w; ifc_file := ifc_file w;
     disk := disk w; guids := n; clock := clock w |}.

Definition with_bauteil_elements (l : list BauteilElement) (w : world) : world :=
  {| bauteil_elements := l; ifc_file := ifc_file w; disk := disk w;
     guids := guids w; clock := clock w |}.

(** A call returns a value or raises, and leaves a world either way. *)
Inductive outcome (A : Type) :=
| Returns (a : A)
| Raises (e : exn).
Arguments Returns {A} a.
Arguments Raises {A} e.

Definition M (A : Type) : Type := world -> outcome A * world.

#[global] Instance M_ret : MRet M := fun A a w => (Returns a, w).

#[global] Instance M_bind : MBind M := fun A B k m w =>
  match m w with
  | (Returns a, w') => k a w'
  | (Raises e, w') => (Raises e, w')
  end.

#[global] Instance M_fmap : FMap M := fun A B g m => a ← m; mret (g a).

Definition raise {A} (e : exn) : M A := fun w => (Raises e, w).

(** [try: body / except Exception: handler]. *)
Definition try_except {A} (body : M A) (handler : exn -> M A) : M A :=
  fun w =>
    match body w with
    | (Returns a, w') => (Returns a, w')
    | (Raises e, w') => handler e w'
    end.

(** A [for] loop that carries the variables it updates in [acc]. *)
Fixpoint for_fold {A S} (l : list A) (acc : S) (body : S -> A -> M S) : M S :=
  match l with
  | [] => mret acc
  | x :: rest => acc' ← body acc x; for_fold rest acc' body
  end.

Definition for_each {A} (l : list A) (body : A -> M unit) : M unit :=
  for_fold l tt (fun _ x => body x).

(** [enumerate(l)]. *)
Definition enumerate {A} (l : list A) : list (nat * A) :=
  imap (fun i x => (i, x)) l.

(** ** [ifc_library_creator.py] *)

Section Creator.

(** Whether [ifcopenshell] takes an instance (schema and type checks);
    it raises otherwise. *)
Variable accepts : Ifc.entity -> bool.

(** [ifcopenshell.guid.compress(uuid.uuid4().hex)] at the n-th draw. *)
Variable compressed_uuid4 : nat -> string.

(** [ifc_file = ifcopenshell.file()]. *)
Definition new_file : M unit := fun w => (Returns tt, with_ifc_file [] w).

Definition current_file : M Ifc.file := fun w => (Returns (ifc_file w), w).

(** [file.create_entity(type_name, **attributes)]: the new instance is
    appended and its id returned. *)
Definition create_entity (type_name : string)
    (attributes : list (string * Ifc.value)) : M nat :=
  fun w =>
    let e := {| is_a := type_name; attributes := attributes |} in
    if accepts e
    then (Returns (S (List.length (ifc_file w))),
          with_ifc_file (ifc_file w ++ [e]) w)
    else (Raises RuntimeError, w).

(** [instance.key = v] on the instance [#id]. *)
Definition assign (id : nat) (key : string) (v : Ifc.value) : M unit :=
  fun w =>
    match Ifc.by_id (ifc_file w) id with
    | None => (Raises RuntimeError, w)
    | Some e =>
        let e' := Ifc.with_attr e key v in
        if accepts e'
        then (Returns tt, with_ifc_file (<[pred id := e']> (ifc_file w)) w)
        else (Raises RuntimeError, w)
    end.

Definition create_guid : M string :=
  fun w => (Returns (compressed_uuid4 (guids w)), with_guids (S (guids w)) w).

(** [int(datetime.datetime.now().timestamp())]. *)
Definition timestamp : M Z := fun w => (Returns (clock w), w).

(** [file.write(path)]. *)
Definition write (path : string) : M unit :=
  fun w => (Returns tt, with_disk (<[path := ifc_file w]> (disk w)) w).

(** Reading the list behind the argument [bauteil_elements]. *)
Definition read_bauteil_elements : M (list BauteilElement) :=
  fun w => (Returns (bauteil_elements w), w).

(** The owner history: person, organization, application
    (lines 28-45 and 235-243). *)
Definition create_owner_history : M (nat * nat) :=
  person ← create_entity "IfcPerson"
    [("FamilyName", VStr "User"); ("GivenName", VStr "Default")];
  organization ← create_entity "IfcOrganization"
    [("Name", VStr "eLCA Material Library Creator")];
  person_and_org ← create_entity "IfcPersonAndOrganization"
    [("ThePerson", VRef person); ("TheOrganization", VRef organization)];
  application ← create_entity "IfcApplication"
    [("ApplicationDeveloper", VRef organization);
     ("Version", VStr "1.0");
     ("ApplicationFullName", VStr "eLCA Material Library Creator");
     ("ApplicationIdentifier", VStr "eLCA_Creator")];
  now ← timestamp;
  owner_history ← create_entity "IfcOwnerHistory"
    [("OwningUser", VRef person_and_org);
     ("OwningApplication", VRef application);
     ("ChangeAction", VStr "ADDED");
     ("CreationDate", VInt now)];
  mret (organization, owner_history).

(** The body of [for process in lifecycle_processes] (lines 116-134). *)
Definition emit_process (material : nat) (process : LifecycleProcess) : M unit :=
  match p_uuid process with
  | None => mret tt
  | Some process_uuid =>
      if PyStr.is_empty process_uuid then mret tt
      else
        let uuid_value := VTyped "IfcIdentifier" process_uuid in
        uuid_property ← create_entity "IfcPropertySingleValue"
          [("Name", VStr "uuid");
           ("Description", VStr "Uuid form Oekobaudat");
           ("NominalValue", uuid_value)];
        let extref_value := VTyped "IfcURIReference"
          ("https://oekobaudat.de/OEKOBAU.DAT/datasetdetail/" +:+ process_uuid) in
        extref_property ← create_entity "IfcPropertySingleValue"
          [("Name", VStr (get (p_process_name process) "Unknown"));
           ("Description", VStr "Link to Oekobaudat");
           ("NominalValue", extref_value)];
        _ ← create_entity "IfcMaterialProperties"
          [("Name", VStr "pset_oekobaudat");
           ("Material", VRef material);
           ("Properties", VRefs [uuid_property; extref_property])];
        mret tt
  end.

(** The body of [for idx, component in enumerate(element.components)]
    (lines 83-144); [material_layers] is the list being appended to. *)
Definition emit_component (material_layers : list nat)
    (ic : nat * Component) : M (list nat) :=
  let '(idx, component) := ic in
  let component_name :=
    get (c_name component) ("Component_" +:+ pretty idx) in
  let thickness := Thickness.of_component component in
  material ← create_entity "IfcMaterial" [("Name", VStr component_name)];
  let lifecycle_processes := get (c_lifecycle_processes component) [] in
  for_each lifecycle_processes (emit_process material);;
  material_layer ← create_entity "IfcMaterialLayer"
    [("Material", VRef material);
     ("LayerThickness", VFloat thickness);
     ("Name", VStr component_name)];
  mret (material_layers ++ [material_layer]).

(** The body of [for element in bauteil_elements] (lines 70-184). *)
Definition emit_element (owner_history library : nat)
    (element : BauteilElement) : M unit :=
  match components element with
  | [] => mret tt
  | _ :: _ =>
      let layer_set_name := category_code element +:+ " " +:+ name element in
      material_layer_set ← create_entity "IfcMaterialLayerSet"
        [("LayerSetName", VStr layer_set_name)];
      material_layers ←
        for_fold (enumerate (components element)) [] emit_component;
      match material_layers with
      | [] => mret tt
      | _ :: _ =>
          assign material_layer_set "MaterialLayers" (VRefs material_layers);;
          let wall_type_name := category_code element +:+ " " +:+ name element in
          guid ← create_guid;
          wall_type ← create_entity "IfcWallType"
            [("GlobalId", VStr guid);
             ("OwnerHistory", VRef owner_history);
             ("Name", VStr wall_type_name);
             ("Description", VStr ("Wall type for " +:+ name element));
             ("ApplicableOccurrence", VStr EmptyString);
             ("HasPropertySets", VRefs []);
             ("RepresentationMaps", VRefs []);
             ("Tag", VStr EmptyString);
             ("ElementType", VStr wall_type_name);
             ("PredefinedType", VStr "STANDARD")];
          guid ← create_guid;
          _ ← create_entity "IfcRelAssociatesMaterial"
            [("GlobalId", VStr guid);
             ("OwnerHistory", VRef owner_history);
             ("RelatedObjects", VRefs [wall_type]);
             ("RelatingMaterial", VRef material_layer_set)];
          guid ← create_guid;
          _ ← create_entity "IfcRelAssociatesLibrary"
            [("GlobalId", VStr guid);
             ("OwnerHistory", VRef owner_history);
             ("Name", VStr ("Association " +:+ name element));
             ("Description",
              VStr ("Association to library for " +:+ name element));
             ("RelatedObjects", VRefs [wall_type]);
             ("RelatingLibrary", VRef library)];
          mret tt
      end
  end.

(** Lines 24-67: the file, the owner history, the units, the project
    and the library information. *)
Definition create_header : M (nat * nat) :=
  new_file;;
  '(organization, owner_history) ← create_owner_history;
  unit_assignment ← create_entity "IfcUnitAssignment" [];
  length_unit ← create_entity "IfcSIUnit"
    [("UnitType", VStr "LENGTHUNIT"); ("Name", VStr "METRE")];
  assign unit_assignment "Units" (VRefs [length_unit]);;
  guid ← create_guid;
  _ ← create_entity "IfcProject"
    [("GlobalId", VStr guid);
     ("Name", VStr "eLCA Material Library");
     ("OwnerHistory", VRef owner_history);
     ("UnitsInContext", VRef unit_assignment)];
  library ← create_entity "IfcLibraryInformation"
    [("Name", VStr "eLCA_Material_Library");
     ("Version", VStr "1.0");
     ("Publisher", VRef organization)];
  mret (owner_history, library).

(** Everything before [ifc_file.write(output_path)]. *)
Definition build_library : M unit :=
  '(owner_history, library) ← create_header;
  elements ← read_bauteil_elements;
  for_each elements (emit_element owner_history library).

Definition create_ifc_library_from_bauteil_elements
    (output_path : string) : M Ifc.file :=
  build_library;;
  write output_path;;
  current_file.

(** *** [attach_library_to_project] *)

(** [ifcopenshell.open(path)]; a missing file raises. *)
Definition open_file (path : string) : M Ifc.file :=
  fun w =>
    match disk w !! path with
    | Some f => (Returns f, w)
    | None => (Raises OSError, w)
    end.

(** [project_file = ifcopenshell.open(path)]: the file that is then
    extended and written back. *)
Definition open_project (path : string) : M unit :=
  fun w =>
    match disk w !! path with
    | Some f => (Returns tt, with_ifc_file f w)
    | None => (Raises OSError, w)
    end.

(** The instance behind an attribute value of file [f]; reading an
    attribute of [None] raises [AttributeError]. *)
Definition instance_of (f : Ifc.file) (v : Ifc.value) : M (nat * Ifc.entity) :=
  match v with
  | VRef id =>
      match Ifc.by_id f id with
      | Some e => mret (id, e)
      | None => raise RuntimeError
      end
  | _ => raise AttributeError
  end.

(** [[obj.id() for obj in v]]; iterating [None] raises [TypeError]. *)
Definition ids_of (v : Ifc.value) : M (list nat) :=
  match v with
  | VRefs ids => mret ids
  | _ => raise TypeError
  end.

(** [str(v)] inside an f-string, for a label: a string or [None]. *)
Definition label_str (v : Ifc.value) : string :=
  match v with
  | VStr s => s
  | _ => "None"
  end.

(** The first relation whose [RelatedObjects] hold the instance [id]
    (lines 262-266). *)
Fixpoint first_related (id : nat) (rels : list (nat * Ifc.entity))
  : M (option (nat * Ifc.entity)) :=
  match rels with
  | [] => mret None
  | rel :: rest =>
      ids ← ids_of (attr (snd rel) "RelatedObjects");
      if bool_decide (id ∈ ids) then mret (Some rel)
      else first_related id rest
  end.

(** The body of [for rel_classification in ...] (lines 296-315). *)
Definition copy_classification (library_file : Ifc.file)
    (owner_history material new_material : nat)
    (rel_classification : nat * Ifc.entity) : M unit :=
  ids ← ids_of (attr (snd rel_classification) "RelatedObjects");
  if bool_decide (material ∈ ids) then
    ref ← instance_of library_file
            (attr (snd rel_classification) "RelatingClassification");
    new_ref ← create_entity "IfcClassificationReference"
      [("Location", attr (snd ref) "Location");
       ("Identification", attr (snd ref) "Identification");
       ("Name", attr (snd ref) "Name")];
    guid ← create_guid;
    _ ← create_entity "IfcRelAssociatesClassification"
      [("GlobalId", VStr guid);
       ("OwnerHistory", VRef owner_history);
       ("RelatedObjects", VRefs [new_material]);
       ("RelatingClassification", VRef new_ref)];
    mret tt
  else mret tt.

(** The body of [for layer in material_layer_set.MaterialLayers]
    (lines 286-325). *)
Definition copy_layer (library_file : Ifc.file) (owner_history : nat)
    (new_layers : list nat) (layer_id : nat) : M (list nat) :=
  layer ← instance_of library_file (VRef layer_id);
  match attr (snd layer) "Material" with
  | VNone => mret new_layers
  | material_ref =>
      material ← instance_of library_file material_ref;
      new_material ← create_entity "IfcMaterial"
        [("Name", attr (snd material) "Name")];
      for_each (Ifc.by_type library_file "IfcRelAssociatesClassification")
        (copy_classification library_file owner_history (fst material)
           new_material);;
      new_layer ← create_entity "IfcMaterialLayer"
        [("Material", VRef new_material);
         ("LayerThickness", attr (snd layer) "LayerThickness");
         ("Name", attr (snd layer) "Name")];
      mret (new_layers ++ [new_layer])
  end.

(** The body of [for wall_type in wall_types] (lines 260-364). *)
Definition copy_wall_type (library_file : Ifc.file)
    (owner_history new_library_info : nat)
    (wall_type : nat * Ifc.entity) : M unit :=
  material_association ←
    first_related (fst wall_type)
      (Ifc.by_type library_file "IfcRelAssociatesMaterial");
  match material_association with
  | None => mret tt
  | Some rel =>
      material_layer_set ←
        instance_of library_file (attr (snd rel) "RelatingMaterial");
      if negb (String.eqb (is_a (snd material_layer_set)) "IfcMaterialLayerSet")
      then mret tt
      else
        new_mls ← create_entity "IfcMaterialLayerSet"
          [("LayerSetName", attr (snd material_layer_set) "LayerSetName")];
        layer_ids ← ids_of (attr (snd material_layer_set) "MaterialLayers");
        new_layers ←
          for_fold layer_ids [] (copy_layer library_file owner_history);
        match new_layers with
        | [] => mret tt
        | _ :: _ =>
            assign new_mls "MaterialLayers" (VRefs new_layers);;
            let wall_name := attr (snd wall_type) "Name" in
            guid ← create_guid;
            new_wall_type ← create_entity "IfcWallType"
              [("GlobalId", VStr guid);
               ("OwnerHistory", VRef owner_history);
               ("Name", wall_name);
               ("Description", attr (snd wall_type) "Description");
               ("ApplicableOccurrence", VStr EmptyString);
               ("HasPropertySets", VRefs []);
               ("RepresentationMaps", VRefs []);
               ("Tag", VStr EmptyString);
               ("ElementType", attr (snd wall_type) "ElementType");
               ("PredefinedType", VStr "STANDARD")];
            guid ← create_guid;
            _ ← create_entity "IfcRelAssociatesMaterial"
              [("GlobalId", VStr guid);
               ("OwnerHistory", VRef owner_history);
               ("RelatedObjects", VRefs [new_wall_type]);
               ("RelatingMaterial", VRef new_mls)];
            guid ← create_guid;
            _ ← create_entity "IfcRelAssociatesLibrary"
              [("GlobalId", VStr guid);
               ("OwnerHistory", VRef owner_history);
               ("Name", VStr ("Association " +:+ label_str wall_name));
               ("Description",
                VStr ("Association to library for " +:+ label_str wall_name));
               ("RelatedObjects", VRefs [new_wall_type]);
               ("RelatingLibrary", VRef new_library_info)];
            mret tt
        end
  end.

(** Lines 229-364, once the library information and the project were
    found: everything before [project_file.write(ifc_project_path)]. *)
Definition copy_library (library_file : Ifc.file)
    (library_info : nat * Ifc.entity) : M unit :=
  project_file ← current_file;
  owner_history ←
    match Ifc.by_type project_file "IfcOwnerHistory" with
    | first :: _ => mret (fst first)
    | [] => snd <$> create_owner_history
    end;
  publisher ← instance_of library_file (attr (snd library_info) "Publisher");
  organization ← create_entity "IfcOrganization"
    [("Name", attr (snd publisher) "Name")];
  new_library_info ← create_entity "IfcLibraryInformation"
    [("Name", attr (snd library_info) "Name");
     ("Version", attr (snd library_info) "Version");
     ("Publisher", VRef organization)];
  for_each (Ifc.by_type library_file "IfcWallType")
    (copy_wall_type library_file owner_history new_library_info).

(** The function returns the project file, or [None] after an
    exception. *)
Definition attach_library_to_project
    (ifc_project_path ifc_library_path : string) : M (option Ifc.file) :=
  try_except
    (open_project ifc_project_path;;
     library_file ← open_file ifc_library_path;
     match Ifc.by_type library_file "IfcLibraryInformation" with
     | [] => Some <$> current_file
     | library_info :: _ =>
         project_file ← current_file;
         match Ifc.by_type project_file "IfcProject" with
         | [] => mret (Some project_file)
         | _ :: _ =>
             copy_library library_file library_info;;
             write ifc_project_path;;
             Some <$> current_file
         end
     end)
    (fun _ => mret None).

End Creator.

(** ** [elca_parser]: the extractor the operators call *)

(** Modelled from the spec: the layer entries [elca_parser] reads from the
    XML project export (section 3, LayerThicknessRecord): an element key,
    a layer name, a thickness value and its unit. *)
Record LayerThicknessRecord := {
  element_key : string;
  layer_name : string;
  thickness_value : PyFloat.float;
  thickness_unit : string;
}.

(** Modelled from the spec: what [elca_parser] reads from an XML project
    export (section 4.2): the keys of its elements and its layer entries. *)
Record XmlExport := {
  xml_elements : list string;
  xml_layers : list LayerThicknessRecord;
}.

(** Modelled from the spec: the summary [get_layer_thickness_summary()] of
    [elca_parser] returns (section 4.2); the operator reads
    ['total_layers'] and ['total_elements']. *)
Record LayerSummary := {
  total_elements : nat;
  total_layers : nat;
  total_matched : nat;
}.

(** Modelled from the spec: what the matching of [elca_parser] may look
    at (section 3: matching is by name and category): per element its
    category code, its name and the names of its components. *)
Definition names_of (elements : list BauteilElement)
  : list (string * string * list (option string)) :=
  map (fun e => (category_code e, name e, map c_name (components e))) elements.

(** [component['layer_thickness'] = x]. *)
Definition set_layer_thickness (x : PyFloat.float) (c : Component) : Component :=
  {| c_name := c_name c; c_quantity := c_quantity c;
     c_layer_thickness := Some x;
     c_lifecycle_processes := c_lifecycle_processes c |}.

Definition alter_components (g : list Component -> list Component)
    (e : BauteilElement) : BauteilElement :=
  {| category_code := category_code e; name := name e;
     components := g (components e) |}.

(** [0 < x] on an optional thickness: [x is not None and x > 0]. *)
Definition has_thickness (x : option PyFloat.float) : bool :=
  match x with
  | Some t => SFltb (S754_zero false) t
  | None => false
  end.

Section Extractor.

(** Modelled from the spec: the HTML extractor of [elca_parser]
    (section 4.1): the elements of a report, or an error message. *)
Variable parse_html : string -> string + list BauteilElement.

(** Modelled from the spec: the XML reader of [elca_parser]
    (section 4.2). *)
Variable parse_xml : string -> string + XmlExport.

(** Modelled from the spec: the matching predicate of [elca_parser],
    which the specification leaves open (section 9): the element and
    the component a layer entry belongs to, chosen from names and
    category codes. *)
Variable find_match :
  list (string * string * list (option string)) ->
  LayerThicknessRecord -> option (nat * nat).

(** Modelled from the spec: the unit conversion of the XML layer matcher
    of [elca_parser] (section 4.2: mm is divided by 1000, cm by 100, m is
    taken as it is, any other unit is treated as mm). *)
Definition meters (r : LayerThicknessRecord) : PyFloat.float :=
  let u := thickness_unit r in
  if String.eqb u "mm" then PyFloat.div (thickness_value r) PyFloat.f1000_0
  else if String.eqb u "cm" then PyFloat.div (thickness_value r) PyFloat.f100_0
  else if String.eqb u "m" then thickness_value r
  else PyFloat.div (thickness_value r) PyFloat.f1000_0.

(** Modelled from the spec: one step of the XML layer matcher of
    [elca_parser] (section 4.2): the entry's thickness is attached to the
    component it matches; an entry without a match changes nothing. *)
Definition attach_layer (elements : list BauteilElement)
    (r : LayerThicknessRecord) : list BauteilElement :=
  match find_match (names_of elements) r with
  | Some (i, j) =>
      alter (alter_components (alter (set_layer_thickness (meters r)) j)) i
        elements
  | None => elements
  end.

(** Modelled from the spec: the XML layer matcher of [elca_parser]
    (section 4.2), one pass over the layer entries. *)
Definition match_layers (layers : list LayerThicknessRecord)
    (elements : list BauteilElement) : list BauteilElement :=
  fold_left attach_layer layers elements.

(** Modelled from the spec: whether the matcher of [elca_parser] finds
    a component for a layer entry (section 4.2). *)
Definition is_matched (elements : list BauteilElement)
    (r : LayerThicknessRecord) : bool :=
  match find_match (names_of elements) r with
  | Some (i, j) =>
      match elements !! i with
      | Some e => bool_decide (is_Some (components e !! j))
      | None => false
      end
  | None => false
  end.

(** Modelled from the spec: the summary of the XML layer matcher of
    [elca_parser] (section 4.2): the XML elements seen, the layers with
    a thickness above zero, and the layers matched. *)
Definition layer_summary (x : XmlExport) (elements : list BauteilElement)
  : LayerSummary :=
  {| total_elements := List.length (xml_elements x);
     total_layers :=
       List.length
         (filter (fun r => has_thickness (Some (meters r)) = true) (xml_layers x));
     total_matched :=
       List.length
         (filter (fun r => is_matched elements r = true) (xml_layers x)) |}.

(** Modelled from the spec: [ELCAComponentExtractor(html_path, xml_path)]
    of [elca_parser] with its [extract_bauteil_elements()] and
    [get_layer_thickness_summary()]: the HTML report is read (section
    4.1), then the XML export is matched onto it (section 4.2). A file
    that is missing or cannot be read is an error. *)
Definition extract (files : gmap string string) (html_path xml_path : string)
  : string + (list BauteilElement * LayerSummary) :=
  match files !! html_path with
  | None => inl ("No such file: " +:+ html_path)
  | Some html =>
      match parse_html html with
      | inl err => inl err
      | inr elements =>
          match files !! xml_path with
          | None => inl ("No such file: " +:+ xml_path)
          | Some xml =>
              match parse_xml xml with
              | inl err => inl err
              | inr x =>
                  inr (match_layers (xml_layers x) elements,
                       layer_summary x elements)
              end
          end
      end
  end.

End Extractor.

(** ** [__init__.py]: [ELCA_OT_LoadProject] *)

Inductive status := FINISHED | CANCELLED.
Inductive level := INFO | WARNING | ERROR.

(** What the operator works on: the custom properties of [context.scene]
    and the messages passed to [self.report]. *)
Record blender := {
  scene : gmap string string;
  reports : list (level * string);
}.

Definition report (l : level) (msg : string) (b : blender) : blender :=
  {| scene := scene b; reports := reports b ++ [(l, msg)] |}.

Definition set_scene (key v : string) (b : blender) : blender :=
  {| scene := <[key := v]> (scene b); reports := reports b |}.

(** The components with a layer thickness above zero (lines 168-178). *)
Definition num_layers_with_thickness (elements : list BauteilElement) : nat :=
  List.length
    (filter (fun c => has_thickness (c_layer_thickness c) = true)
       (flat_map components elements)).

Section Operators.

Variable dependencies_installed : bool.

(** [extractor.extract_bauteil_elements()] together with
    [extractor.get_layer_thickness_summary()], for the files on disk and
    the two paths; [inl] is the message of the exception. *)
Variable extractor :
  gmap string string -> string -> string ->
  string + (list BauteilElement * LayerSummary).

(** [base64.b64encode(pickle.dumps(elements)).decode('utf-8')], [None]
    when it raises. *)
Variable pickle_b64 : list BauteilElement -> option string.

(** [str(layer_summary)]. *)
Variable str_of_summary : LayerSummary -> string.

(** [ELCA_OT_LoadProject.execute] with [self.filepath = filepath]. *)
Definition load_project_execute (files : gmap string string)
    (filepath : string) (b : blender) : status * blender :=
  if negb dependencies_installed then
    (CANCELLED,
     report ERROR
       "Required dependencies are not installed. Check the console for details." b)
  else
    let html_path := get (scene b !! "elca_html_path") EmptyString in
    if PyStr.is_empty html_path || negb (bool_decide (is_Some (files !! html_path)))
    then (CANCELLED, report ERROR "Please load the HTML results file first!" b)
    else
      let b := set_scene "elca_xml_path" filepath b in
      match extractor files html_path filepath with
      | inl err =>
          (CANCELLED, report ERROR ("Error processing eLCA project: " +:+ err) b)
      | inr (bauteil_elements, layer_summary) =>
          let n := num_layers_with_thickness bauteil_elements in
          let b :=
            if (0 <? total_layers layer_summary)%nat then
              let b :=
                report INFO
                  ("Matched " +:+ pretty n
                   +:+ " components with layer thicknesses from "
                   +:+ pretty (total_elements layer_summary)
                   +:+ " XML elements") b in
              let b := set_scene "elca_matched_data" "true" b in
              set_scene "elca_layer_data" (str_of_summary layer_summary) b
            else
              let b :=
                report WARNING "No layer thickness data found in XML file" b in
              set_scene "elca_matched_data" "false" b in
          let b :=
            match pickle_b64 bauteil_elements with
            | Some serialized_data =>
                set_scene "elca_bauteil_elements" serialized_data b
            | None => set_scene "elca_bauteil_elements" EmptyString b
            end in
          (FINISHED, b)
      end.

End Operators.

(** * The vocabulary of the statements *)

(** A quantity string the [try] block cannot read: [split()] gives no
    token, or [float] rejects the first token. *)
Definition unparseable (quantity_text : string) : bool :=
  match PyStr.split quantity_text with
  | [] => true
  | first :: _ =>
      match PyFloat.of_string (PyStr.replace "," "." first) with
      | None => true
      | Some _ => false
      end
  end.

(** The [try] block raises nothing but what the [except] clause catches,
    and it raises exactly on the strings it cannot read. *)
Lemma parse_raises quantity_text e :
  Thickness.parse quantity_text = inl e -> e = IndexError \/ e = ValueError.
Proof.
  unfold Thickness.parse.
  destruct (PyStr.split quantity_text) as [|first rest];
    [intros [= <-]; left; reflexivity|].
  destruct (PyFloat.of_string _); [discriminate|].
  intros [= <-]. right. reflexivity.
Qed.

Lemma unparseable_raises quantity_text :
  unparseable quantity_text = true ->
  Thickness.parse quantity_text = inl IndexError
  \/ Thickness.parse quantity_text = inl ValueError.
Proof.
  unfold unparseable, Thickness.parse.
  destruct (PyStr.split quantity_text) as [|first rest]; [left; reflexivity|].
  destruct (PyFloat.of_string _); [discriminate | right; reflexivity].
Qed.

(** The numeric part of a quantity string is not negative: what [float]
    reads from the first token is zero or above (and not NaN). *)
Definition numeric_part_nonneg (quantity_text : string) : Prop :=
  forall first rest value,
    PyStr.split quantity_text = first :: rest ->
    PyFloat.of_string (PyStr.replace "," "." first) = Some value ->
    PyFloat.nonneg value = true.

(** [wp m w Q E]: from [w] the call [m] returns a value and a world in [Q]
    or raises an exception and leaves a world in [E]. *)
Definition wp {A} (m : M A) (w : world)
    (Q : A -> world -> Prop) (E : exn -> world -> Prop) : Prop :=
  match m w with
  | (Returns a, w') => Q a w'
  | (Raises e, w') => E e w'
  end.

(** What a call that only builds the file in memory leaves alone. *)
Definition frame (w w' : world) : Prop :=
  bauteil_elements w' = bauteil_elements w /\ disk w' = disk w /\ clock w' = clock w.

(** [framed m]: whatever [m] does, it stays within [frame]. *)
Definition framed {A} (m : M A) : Prop :=
  forall w, wp m w (fun _ w' => frame w w') (fun _ w' => frame w w').

(** An exception of the creator comes from an instance the library did
    not take. *)
Definition rejected (accepts : Ifc.entity -> bool) : Prop :=
  exists e, accepts e = false.

Definition on_reject (accepts : Ifc.entity -> bool) : exn -> world -> Prop :=
  fun _ _ => rejected accepts.

(** The type of an instance and its [LayerThickness]: what the statements on
    the written library look at. *)
Definition sketch (f : Ifc.file) : list (string * Ifc.value) :=
  map (fun e => (is_a e, attr e "LayerThickness")) f.

Definition of_type (type_name : string) (p : string * Ifc.value) : bool :=
  String.eqb (fst p) type_name.

(** The sketches of what each part of the loop appends. *)
Definition process_sketch (p : LifecycleProcess) : list (string * Ifc.value) :=
  match p_uuid p with
  | None => []
  | Some process_uuid =>
      if PyStr.is_empty process_uuid then []
      else [("IfcPropertySingleValue", VNone);
            ("IfcPropertySingleValue", VNone);
            ("IfcMaterialProperties", VNone)]
  end.

Definition component_sketch (c : Component) : list (string * Ifc.value) :=
  ("IfcMaterial", VNone)
  :: flat_map process_sketch (get (c_lifecycle_processes c) [])
  ++ [("IfcMaterialLayer", VFloat (Thickness.of_component c))].

Definition element_sketch (e : BauteilElement) : list (string * Ifc.value) :=
  match components e with
  | [] => []
  | _ :: _ =>
      ("IfcMaterialLayerSet", VNone)
      :: flat_map component_sketch (components e)
      ++ [("IfcWallType", VNone);
          ("IfcRelAssociatesMaterial", VNone);
          ("IfcRelAssociatesLibrary", VNone)]
  end.

Definition owner_history_sketch : list (string * Ifc.value) :=
  [("IfcPerson", VNone); ("IfcOrganization", VNone);
   ("IfcPersonAndOrganization", VNone); ("IfcApplication", VNone);
   ("IfcOwnerHistory", VNone)].

Definition header_sketch : list (string * Ifc.value) :=
  owner_history_sketch
  ++ [("IfcUnitAssignment", VNone); ("IfcSIUnit", VNone);
      ("IfcProject", VNone); ("IfcLibraryInformation", VNone)].

Definition has_components (e : BauteilElement) : bool :=
  match components e with
  | [] => false
  | _ :: _ => true
  end.

(** [indep m]: [m] neither reads nor changes the list behind
    [bauteil_elements]. *)
Definition indep {A} (m : M A) : Prop :=
  forall l w,
    m (with_bauteil_elements l w)
    = (let '(r, w') := m w in (r, with_bauteil_elements l w')).



(** The creator on a given list of elements: what
    [create_ifc_library_from_bauteil_elements] does once the list is read. *)
Definition create_from (accepts : Ifc.entity -> bool)
    (compressed_uuid4 : nat -> string) (output_path : string)
    (elements : list BauteilElement) : M Ifc.file :=
  '(owner_history, library) ← create_header accepts compressed_uuid4;
  for_each elements (emit_element accepts compressed_uuid4 owner_history library);;
  write output_path;;
  current_file.


(** ** A small project to run the functions on *)

Definition demo_beton : Component :=
  {| c_name := Some "Beton";
     c_quantity := Some "200,00 mm";
     c_layer_thickness := None;
     c_lifecycle_processes :=
       Some [{| p_uuid := Some "b6096c9c"; p_process_name := Some "Beton C25/30" |}] |}.

Definition demo_putz : Component :=
  {| c_name := Some "Putz";
     c_quantity := Some "ca. 15 mm";
     c_layer_thickness := None;
     c_lifecycle_processes := None |}.

Definition demo_folie : Component :=
  {| c_name := None;
     c_quantity := None;
     c_layer_thickness := None;
     c_lifecycle_processes := Some [] |}.

Definition demo_elements : list BauteilElement :=
  [{| category_code := "331"; name := "Wall A";
      components := [demo_beton; demo_putz] |};
   {| category_code := "334"; name := "Empty";
      components := [] |};
   {| category_code := "332"; name := "Wall B";
      components := [demo_folie] |}].

Definition demo_world : world :=
  {| bauteil_elements := demo_elements;
     ifc_file := [];
     disk := ∅;
     guids := 0;
     clock := 1700000000 |}.

(** The same elements after an XML match attached thicknesses. *)
Definition demo_matched_elements : list BauteilElement :=
  [{| category_code := "331"; name := "Wall A";
      components :=
        [set_layer_thickness PyFloat.f100_0 demo_beton;
         set_layer_thickness PyFloat.f0_01 demo_putz] |};
   {| category_code := "334"; name := "Empty";
      components := [] |};
   {| category_code := "332"; name := "Wall B";
      components := [demo_folie] |}].

(** A project file to attach the library to. *)
Definition demo_project : Ifc.file :=
  [{| is_a := "IfcProject"; attributes := [("Name", VStr "House")] |}].

Definition accept_all (e : Ifc.entity) : bool := true.

Definition demo_guid (n : nat) : string := "guid-" +:+ pretty n.

Definition demo_files : gmap string string :=
  <["report.html" := "<html/>"]> (<["project.xml" := "<xml/>"]> ∅).

Definition demo_blender : blender :=
  {| scene := <["elca_html_path" := "report.html"]> ∅; reports := [] |}.

Definition demo_parse_html (html : string) : string + list BauteilElement :=
  inr demo_elements.

Definition demo_parse_xml (xml : string) : string + XmlExport :=
  inr {| xml_elements := ["331"]; xml_layers := [] |}.

Definition demo_find_match
    (names : list (string * string * list (option string)))
    (r : LayerThicknessRecord) : option (nat * nat) :=
  None.

(** ** [__init__.py]: the other operators *)

(** The scene properties [ELCA_OT_ResetData] clears (lines 227-235). *)
Definition elca_properties : list string :=
  ["elca_html_path"; "elca_xml_path"; "elca_html_data"; "elca_matched_data";
   "elca_layer_data"; "elca_xml_layer_data"; "elca_bauteil_elements"].

(** An area of [bpy.context.screen]: its type and whether a redraw was
    asked for. *)
Record area := {
  area_type : string;
  redraw_tagged : bool;
}.

(** [for prop in props: if prop in scene: del scene[prop]; cleared_count += 1]. *)
Fixpoint clear_properties (props : list string) (sc : gmap string string)
    (cleared_count : nat) : gmap string string * nat :=
  match props with
  | [] => (sc, cleared_count)
  | prop :: rest =>
      match sc !! prop with
      | Some _ => clear_properties rest (delete prop sc) (S cleared_count)
      | None => clear_properties rest sc cleared_count
      end
  end.

(** [if area.type == 'PROPERTIES': area.tag_redraw()]. *)
Definition tag_redraw (a : area) : area :=
  if String.eqb (area_type a) "PROPERTIES"
  then {| area_type := area_type a; redraw_tagged := true |}
  else a.

(** [ELCA_OT_ResetData.execute]; [screen] is [bpy.context.screen], [None]
    when Blender has no screen, in which case reading [.areas] raises
    after the properties were cleared. *)
Definition reset_data_execute (screen : option (list area)) (b : blender)
  : status * blender * option (list area) :=
  let '(sc, cleared_count) := clear_properties elca_properties (scene b) 0 in
  let b := {| scene := sc; reports := reports b |} in
  let b :=
    report INFO
      ("Reset eLCA data - cleared " +:+ pretty cleared_count
       +:+ " stored properties") b in
  match screen with
  | Some areas => (FINISHED, b, Some (map tag_redraw areas))
  | None =>
      (CANCELLED,
       report ERROR
         ("Error resetting eLCA data: "
          +:+ "'NoneType' object has no attribute 'areas'") b,
       None)
  end.

(** [sum(len(element.components) for element in bauteil_elements)]. *)
Definition num_components (elements : list BauteilElement) : nat :=
  list_sum (map (fun element => List.length (components element)) elements).

(** [sum(sum(1 for comp in element.components
             if comp.get('layer_thickness', 0) > 0) for element in ...)]
    (lines 319-322). *)
Definition num_layers_above_zero (elements : list BauteilElement) : nat :=
  list_sum
    (map (fun element =>
            List.length
              (List.filter
                 (fun comp =>
                    SFltb (S754_zero false)
                      (get (c_layer_thickness comp) (S754_zero false)))
                 (components element)))
       elements).

Section LoadResults.

Variable dependencies_installed : bool.

(** [ELCAComponentExtractor(filepath).extract_bauteil_elements()] for the
    files on disk; [inl] is the message of the exception. *)
Variable html_extractor :
  gmap string string -> string -> string + list BauteilElement.

(** [ELCA_OT_LoadResults.execute] with [self.filepath = filepath]. *)
Definition load_results_execute (files : gmap string string)
    (filepath : string) (b : blender) : status * blender :=
  if negb dependencies_installed then
    (CANCELLED,
     report ERROR
       "Required dependencies are not installed. Check the console for details." b)
  else
    match html_extractor files filepath with
    | inl err =>
        (CANCELLED,
         report ERROR ("Error loading eLCA HTML results: " +:+ err) b)
    | inr bauteil_elements =>
        let b := set_scene "elca_html_path" filepath b in
        let b :=
          set_scene "elca_html_data" (pretty (List.length bauteil_elements)) b in
        let num_elements := List.length bauteil_elements in
        (FINISHED,
         report INFO
           ("Loaded HTML with " +:+ pretty num_elements
            +:+ " building elements and "
            +:+ pretty (num_components bauteil_elements) +:+ " components") b)
    end.

End LoadResults.

Section CreateLibraryOperator.

Variable dependencies_installed : bool.
Variable accepts : Ifc.entity -> bool.
Variable compressed_uuid4 : nat -> string.

(** [pickle.loads(base64.b64decode(data.encode('utf-8')))]; [inl] is the
    message of the exception. *)
Variable unpickle_b64 : string -> string + list BauteilElement.

(** [str(Path(html_path).with_suffix('.ifc'))]; [inl] is the message of
    the [ValueError] for a path without a name. *)
Variable with_suffix_ifc : string -> string + string.

(** [str(e)] for an exception of the creator. *)
Variable exn_message : exn -> string.

(** [self.attach_to_project]. *)
Variable attach_to_project : bool.

(** [context.scene.BIMProperties.ifc_file], [None] without
    [BIMProperties]. *)
Variable bim_ifc_file : option string.

(** Lines 327-341: the optional attachment; the [except] clause turns an
    exception into a warning. *)
Definition attach_step (output_path : string) (b : blender) (w : world)
  : blender * world :=
  let project_path := get bim_ifc_file EmptyString in
  if PyStr.is_empty project_path then
    (report WARNING "No active IFC project found to attach library to" b, w)
  else
    match attach_library_to_project accepts compressed_uuid4
            project_path output_path w with
    | (Returns _, w') =>
        (report INFO ("Attached library to project at " +:+ project_path) b, w')
    | (Raises e, w') =>
        (report WARNING ("Could not attach to project: " +:+ exn_message e) b, w')
    end.

(** [ELCA_OT_CreateIFCLibrary.execute]; the world holds the disk, and the
    list unpickled from the scene becomes the list behind
    [bauteil_elements]. *)
Definition create_ifc_library_execute (b : blender) (w : world)
  : status * blender * world :=
  if negb dependencies_installed then
    (CANCELLED,
     report ERROR
       "Required dependencies are not installed. Check the console for details." b,
     w)
  else
    let html_path := get (scene b !! "elca_html_path") EmptyString in
    let xml_path := get (scene b !! "elca_xml_path") EmptyString in
    let matched_data := get (scene b !! "elca_matched_data") "false" in
    if PyStr.is_empty html_path then
      (CANCELLED,
       report ERROR "No HTML file loaded. Please load HTML results first." b, w)
    else if PyStr.is_empty xml_path then
      (CANCELLED,
       report ERROR "No XML file loaded. Please load XML project file first." b, w)
    else
      let b :=
        if String.eqb matched_data "true" then b
        else report WARNING "Data matching may not be complete. Proceeding anyway..." b in
      let serialized_data := get (scene b !! "elca_bauteil_elements") EmptyString in
      if PyStr.is_empty serialized_data then
        (CANCELLED,
         report ERROR
           "No processed bauteil elements found. Please reload the XML file." b,
         w)
      else
        match unpickle_b64 serialized_data with
        | inl err =>
            (CANCELLED,
             report ERROR ("Could not retrieve bauteil elements: " +:+ err) b, w)
        | inr bauteil_elements =>
            match with_suffix_ifc html_path with
            | inl err =>
                (CANCELLED,
                 report ERROR ("Error creating IFC library: " +:+ err) b, w)
            | inr output_path =>
                match create_ifc_library_from_bauteil_elements accepts
                        compressed_uuid4 output_path
                        (with_bauteil_elements bauteil_elements w) with
                | (Raises e, w') =>
                    (CANCELLED,
                     report ERROR
                       ("Error creating IFC library: " +:+ exn_message e) b,
                     w')
                | (Returns _, w') =>
                    let num_elements := List.length bauteil_elements in
                    let b :=
                      report INFO
                        ("Created IFC library with " +:+ pretty num_elements
                         +:+ " elements ("
                         +:+ pretty (num_layers_above_zero bauteil_elements)
                         +:+ " with layer thicknesses) at " +:+ output_path) b in
                    if attach_to_project then
                      let '(b, w'') := attach_step output_path b w' in
                      (FINISHED, b, w'')
                    else (FINISHED, b, w')
                end
            end
        end.

End CreateLibraryOperator.

(** ** What the statements on the written library count *)

(** A lifecycle process the creator links: [process.get('uuid')] is
    neither [None] nor empty (line 118). *)
Definition has_uuid (process : LifecycleProcess) : bool :=
  match p_uuid process with
  | Some process_uuid => negb (PyStr.is_empty process_uuid)
  | None => false
  end.

(** The lifecycle processes with a uuid, over all components. *)
Definition num_linked_processes (elements : list BauteilElement) : nat :=
  List.length
    (List.filter has_uuid
       (flat_map (fun c => get (c_lifecycle_processes c) [])
          (flat_map components elements))).

(** The elements with at least one component. *)
Definition num_with_components (elements : list BauteilElement) : nat :=
  List.length (List.filter has_components elements).

(** [keeps P m]: when the file in memory satisfies [P] before the call
    [m], it does so after it, whether [m] returns or raises. *)
Definition keeps (P : Ifc.file -> Prop) {A} (m : M A) : Prop :=
  forall w, P (ifc_file w) ->
    wp m w (fun _ w' => P (ifc_file w')) (fun _ w' => P (ifc_file w')).

(** The instances an attribute value refers to. *)
Definition value_refs (v : Ifc.value) : list nat :=
  match v with
  | VRef id => [id]
  | VRefs ids => ids
  | _ => []
  end.

Definition attribute_refs (attributes : list (string * Ifc.value)) : list nat :=
  flat_map (fun kv => value_refs (snd kv)) attributes.

(** No reference is dangling: every id an attribute of an instance of
    the file holds is the id of an instance of the file. *)
Definition refs_ok (f : Ifc.file) : Prop :=
  Forall
    (fun e => Forall (fun id => is_Some (Ifc.by_id f id))
                (attribute_refs (attributes e)))
    f.

(** The attributes the creator fills with references to other
    instances; every other attribute holds a plain value. *)
Definition reference_attributes : list string :=
  ["ThePerson"; "TheOrganization"; "ApplicationDeveloper"; "OwningUser";
   "OwningApplication"; "Units"; "OwnerHistory"; "UnitsInContext";
   "Publisher"; "Material"; "Properties"; "MaterialLayers";
   "HasPropertySets"; "RepresentationMaps"; "RelatedObjects";
   "RelatingMaterial"; "RelatingLibrary"].

Definition is_reference (key : string) : bool :=
  existsb (String.eqb key) reference_attributes.

(** An instance without its reference attributes, and a file as the list
    of these. *)
Definition plain (attributes : list (string * Ifc.value))
  : list (string * Ifc.value) :=
  List.filter (fun kv => negb (is_reference (fst kv))) attributes.

Definition strip (e : Ifc.entity) : Ifc.entity :=
  {| is_a := is_a e; attributes := plain (attributes e) |}.

Definition outline (f : Ifc.file) : list Ifc.entity := map strip f.

(** The plain attributes of what each part of the creator appends;
    [guid] counts the GUIDs drawn so far and [now] is the time stamp. *)
Definition owner_history_outline (now : Z) : list Ifc.entity :=
  [{| is_a := "IfcPerson";
      attributes := [("FamilyName", VStr "User"); ("GivenName", VStr "Default")] |};
   {| is_a := "IfcOrganization";
      attributes := [("Name", VStr "eLCA Material Library Creator")] |};
   {| is_a := "IfcPersonAndOrganization"; attributes := [] |};
   {| is_a := "IfcApplication";
      attributes :=
        [("Version", VStr "1.0");
         ("ApplicationFullName", VStr "eLCA Material Library Creator");
         ("ApplicationIdentifier", VStr "eLCA_Creator")] |};
   {| is_a := "IfcOwnerHistory";
      attributes := [("ChangeAction", VStr "ADDED"); ("CreationDate", VInt now)] |}].

Definition header_outline (compressed_uuid4 : nat -> string) (guid : nat)
    (now : Z) : list Ifc.entity :=
  owner_history_outline now
  ++ [{| is_a := "IfcUnitAssignment"; attributes := [] |};
      {| is_a := "IfcSIUnit";
         attributes := [("UnitType", VStr "LENGTHUNIT"); ("Name", VStr "METRE")] |};
      {| is_a := "IfcProject";
         attributes :=
           [("GlobalId", VStr (compressed_uuid4 guid));
            ("Name", VStr "eLCA Material Library")] |};
      {| is_a := "IfcLibraryInformation";
         attributes :=
           [("Name", VStr "eLCA_Material_Library"); ("Version", VStr "1.0")] |}].

Definition process_outline (process : LifecycleProcess) : list Ifc.entity :=
  match p_uuid process with
  | None => []
  | Some process_uuid =>
      if PyStr.is_empty process_uuid then []
      else
        [{| is_a := "IfcPropertySingleValue";
            attributes :=
              [("Name", VStr "uuid");
               ("Description", VStr "Uuid form Oekobaudat");
               ("NominalValue", VTyped "IfcIdentifier" process_uuid)] |};
         {| is_a := "IfcPropertySingleValue";
            attributes :=
              [("Name", VStr (get (p_process_name process) "Unknown"));
               ("Description", VStr "Link to Oekobaudat");
               ("NominalValue",
                VTyped "IfcURIReference"
                  ("https://oekobaudat.de/OEKOBAU.DAT/datasetdetail/"
                   +:+ process_uuid))] |};
         {| is_a := "IfcMaterialProperties";
            attributes := [("Name", VStr "pset_oekobaudat")] |}]
  end.

(** [component.get('name', f"Component_{idx}")]. *)
Definition component_name (ic : nat * Component) : string :=
  get (c_name (snd ic)) ("Component_" +:+ pretty (fst ic)).

Definition component_outline (ic : nat * Component) : list Ifc.entity :=
  {| is_a := "IfcMaterial"; attributes := [("Name", VStr (component_name ic))] |}
  :: flat_map process_outline (get (c_lifecycle_processes (snd ic)) [])
  ++ [{| is_a := "IfcMaterialLayer";
         attributes :=
           [("LayerThickness", VFloat (Thickness.of_component (snd ic)));
            ("Name", VStr (component_name ic))] |}].

(** [f"{element.category_code} {element.name}"]. *)
Definition element_label (element : BauteilElement) : string :=
  category_code element +:+ " " +:+ name element.

Definition element_outline (compressed_uuid4 : nat -> string) (guid : nat)
    (element : BauteilElement) : list Ifc.entity :=
  match components element with
  | [] => []
  | _ :: _ =>
      {| is_a := "IfcMaterialLayerSet";
         attributes := [("LayerSetName", VStr (element_label element))] |}
      :: flat_map component_outline (enumerate (components element))
      ++ [{| is_a := "IfcWallType";
             attributes :=
               [("GlobalId", VStr (compressed_uuid4 guid));
                ("Name", VStr (element_label element));
                ("Description", VStr ("Wall type for " +:+ name element));
                ("ApplicableOccurrence", VStr EmptyString);
                ("Tag", VStr EmptyString);
                ("ElementType", VStr (element_label element));
                ("PredefinedType", VStr "STANDARD")] |};
          {| is_a := "IfcRelAssociatesMaterial";
             attributes := [("GlobalId", VStr (compressed_uuid4 (S guid)))] |};
          {| is_a := "IfcRelAssociatesLibrary";
             attributes :=
               [("GlobalId", VStr (compressed_uuid4 (S (S guid))));
                ("Name", VStr ("Association " +:+ name element));
                ("Description",
                 VStr ("Association to library for " +:+ name element))] |}]
  end.

Fixpoint elements_outline (compressed_uuid4 : nat -> string) (guid : nat)
    (elements : list BauteilElement) : list Ifc.entity :=
  match elements with
  | [] => []
  | element :: rest =>
      element_outline compressed_uuid4 guid element
      ++ elements_outline compressed_uuid4
           (if has_components element then S (S (S guid)) else guid) rest
  end.

(** The values of an attribute over the instances of a type, in file
    order. *)
Definition column (type_name key : string) (f : list Ifc.entity)
  : list Ifc.value :=
  map (fun e => attr e key)
    (List.filter (fun e => String.eqb (is_a e) type_name) f).

(** The [GlobalId]s of a file, in file order. *)
Definition global_ids (f : list Ifc.entity) : list string :=
  flat_map
    (fun e => match attr e "GlobalId" with VStr guid => [guid] | _ => [] end) f.

(** The two values the creator stores for a lifecycle process with a
    uuid: the identifier and the link to the dataset (lines 119-127). *)
Definition process_links (process : LifecycleProcess) : list Ifc.value :=
  match p_uuid process with
  | None => []
  | Some process_uuid =>
      if PyStr.is_empty process_uuid then []
      else
        [VTyped "IfcIdentifier" process_uuid;
         VTyped "IfcURIReference"
           ("https://oekobaudat.de/OEKOBAU.DAT/datasetdetail/" +:+ process_uuid)]
  end.

(** The types [attach_library_to_project] creates instances of: in the
    loop over the wall types, and before it. *)
Definition copied_types : list string :=
  ["IfcMaterialLayerSet"; "IfcMaterial"; "IfcClassificationReference";
   "IfcRelAssociatesClassification"; "IfcMaterialLayer"; "IfcWallType";
   "IfcRelAssociatesMaterial"; "IfcRelAssociatesLibrary"].

Definition attached_types : list string :=
  ["IfcPerson"; "IfcOrganization"; "IfcPersonAndOrganization";
   "IfcApplication"; "IfcOwnerHistory"; "IfcLibraryInformation"]
  ++ copied_types.

(** ** Sample data for the operators and the attachment *)

Definition demo_html_extractor (files : gmap string string) (filepath : string)
  : string + list BauteilElement :=
  inr demo_elements.

Definition demo_summary : LayerSummary :=
  {| total_elements := 1; total_layers := 2; total_matched := 2 |}.

Definition demo_extractor (files : gmap string string) (html_path xml_path : string)
  : string + (list BauteilElement * LayerSummary) :=
  inr (demo_matched_elements, demo_summary).

Definition demo_pickle (elements : list BauteilElement) : option string :=
  Some "gASV".

Definition demo_unpickle (serialized_data : string)
  : string + list BauteilElement :=
  inr demo_matched_elements.

Definition demo_with_suffix (html_path : string) : string + string :=
  inr "report.ifc".

Definition demo_exn_message (e : exn) : string := "error".

(** A library file with its publisher and its library information. *)
Definition demo_library_file : Ifc.file :=
  [{| is_a := "IfcOrganization"; attributes := [("Name", VStr "eLCA")] |};
   {| is_a := "IfcLibraryInformation";
      attributes := [("Name", VStr "eLCA_Material_Library");
                     ("Version", VStr "1.0");
                     ("Publisher", VRef 1)] |}].

Definition demo_disk : gmap string Ifc.file :=
  <["project.ifc" := demo_project]> (<["library.ifc" := demo_library_file]> ∅).

Definition demo_attach_world : world :=
  {| bauteil_elements := [];
     ifc_file := [];
     disk := demo_disk;
     guids := 0;
     clock := 1700000000 |}.

(** ** [__init__.py]: the panel and its registration *)

(** What a draw function adds to its layout, in order: a label, an
    operator button (with the text and icon given and whether its row is
    enabled), a property shown as a checkbox, a separator. *)
Inductive widget :=
| Label (text : string) (icon : option string)
| Button (idname : string) (text : option string) (icon : string) (enabled : bool)
| Checkbox (property text : string)
| Separator.

#[global] Instance widget_eq_dec : EqDecision widget.
Proof. solve_decision. Defined.

Section Panel.

Variable dependencies_installed : bool.

(** [Path(p).name]. *)
Variable path_name : string -> string.

(** [eval(has_layer_data)] and the [str] of its [total_elements] and of
    its [total_layers]; [None] when one of these steps raises. *)
Variable eval_layer_summary : string -> option (string * string).

(** [ELCA_PT_Panel.draw], the fallback panel (lines 522-556). *)
Definition fallback_draw : list widget :=
  Label "eLCA Integration" (Some "FILE_REFRESH")
  :: if negb dependencies_installed then
       [Label "Dependencies not installed" (Some "ERROR");
        Button "elca.install_dependencies" None "PACKAGE" true]
     else
       [Label "Load eLCA project and results files:" None;
        Button "elca.load_results"
          (Some "1. Load Results (.html / .htm file) (do this first)")
          "SPREADSHEET" true;
        Button "elca.load_project" (Some "2. Load Project (.xml File)")
          "IMPORT" true;
        Separator;
        Label "Material Sets Management:" None;
        Button "elca.show_material_sets" (Some "Show Sets") "INFO" true;
        Button "elca.validate_material_sets" (Some "Validate") "CHECKMARK" true;
        Button "elca.sync_material_sets" (Some "Sync with IFC") "FILE_REFRESH" true;
        Button "elca.remove_material_sets" (Some "Remove All") "TRASH" true].

(** [draw_elca_ui] on the custom properties of the scene
    (lines 561-648). *)
Definition draw_elca_ui (sc : gmap string string) : list widget :=
  Label "eLCA Integration" (Some "FILE_REFRESH")
  :: if negb dependencies_installed then
       [Label "Dependencies not installed" (Some "ERROR");
        Button "elca.install_dependencies" None "PACKAGE" true]
     else
       let html_path := get (sc !! "elca_html_path") EmptyString in
       let xml_path := get (sc !! "elca_xml_path") EmptyString in
       let matched_data := get (sc !! "elca_matched_data") "false" in
       let has_layer_data := get (sc !! "elca_layer_data") EmptyString in
       let html := negb (PyStr.is_empty html_path) in
       let xml := negb (PyStr.is_empty xml_path) in
       let matched := String.eqb matched_data "true" in
       (if html then
          [Label ("✓ HTML loaded: " +:+ path_name html_path) (Some "CHECKMARK")]
        else [Label "1. Load HTML results file" (Some "RADIOBUT_OFF")])
       ++ (if xml then
             if matched && negb (PyStr.is_empty has_layer_data) then
               Label ("✓ XML loaded: " +:+ path_name xml_path) (Some "CHECKMARK")
               :: match eval_layer_summary has_layer_data with
                  | Some (element_count, layer_count) =>
                      [Label ("  " +:+ element_count +:+ " elements, "
                              +:+ layer_count +:+ " layers matched") None]
                  | None => []
                  end
             else
               [Label ("⚠ XML loaded: " +:+ path_name xml_path
                       +:+ " (no matching)") (Some "ERROR")]
           else [Label "2. Load XML project file" (Some "RADIOBUT_OFF")])
       ++ [if html then
             Button "elca.load_results" (Some "✓ HTML Loaded") "CHECKMARK" false
           else
             Button "elca.load_results" (Some "1. Load Results (HTML)") "IMPORT" true]
       ++ [if negb html then
             Button "elca.load_project" (Some "2. Load Project (XML)") "IMPORT" false
           else if xml && matched then
             Button "elca.load_project" (Some "✓ XML Loaded & Matched")
               "CHECKMARK" false
           else
             Button "elca.load_project" (Some "2. Load Project (XML)") "IMPORT" true]
       ++ (if html && xml && matched then
             [Separator;
              Label "3. Create IFC Library:" None;
              Button "elca.create_ifc_library" (Some "Create IFC Library")
                "PACKAGE" true;
              Checkbox "elca_attach_to_project" "Attach to active project"]
           else [])
       ++ (if html || xml then
             [Separator;
              Button "elca.reset_data" (Some "Reset All Data") "X" true]
           else []).

End Panel.

(** The operator a button starts, and whether the button can be
    pressed. *)
Definition button_of (wd : widget) : option (string * bool) :=
  match wd with
  | Button idname _ _ enabled => Some (idname, enabled)
  | _ => None
  end.

(** The buttons of a layout. *)
Definition buttons (layout : list widget) : list (string * bool) :=
  omap button_of layout.

(** A draw function: one of the host application, or the closure
    [new_draw] that [monkey_patch_panel] builds for a panel name. *)
Inductive draw_function :=
| HostDraw (host : string)
| NewDraw (panel_name : string).

#[global] Instance draw_function_eq_dec : EqDecision draw_function.
Proof. solve_decision. Defined.

(** What registration works on: the [draw] of every [Panel] subclass by
    its [module.name], the dictionary [_original_draw_functions], the
    handlers of [bpy.app.handlers.load_post], the classes registered with
    [bpy.utils], and the properties defined on [bpy.types.Scene]. *)
Record addon := {
  panel_draw : gmap string draw_function;
  _original_draw_functions : gmap string draw_function;
  load_post : list string;
  classes : gset string;
  scene_properties : gset string;
}.

(** [monkey_patch_panel(panel_class, panel_name)]; the class is given by
    its key in [panel_draw] ([load_handler] passes a class it has
    found). *)
Definition monkey_patch_panel (panel_class panel_name : string) (a : addon)
  : addon :=
  match panel_draw a !! panel_class with
  | None => a
  | Some class_draw =>
      let originals :=
        match _original_draw_functions a !! panel_name with
        | Some _ => _original_draw_functions a
        | None => <[panel_name := class_draw]> (_original_draw_functions a)
        end in
      {| panel_draw := <[panel_class := NewDraw panel_name]> (panel_draw a);
         _original_draw_functions := originals;
         load_post := load_post a;
         classes := classes a;
         scene_properties := scene_properties a |}
  end.

Definition target_panel_classes : list string :=
  ["bonsai.bim.module.material.ui.BIM_PT_materials";
   "bonsai.bim.module.material.ui.BIM_PT_object_material"].

(** The loop of [load_handler]: the first target that exists is patched,
    and the loop stops there. *)
Fixpoint patch_first (targets : list string) (a : addon) : addon :=
  match targets with
  | [] => a
  | target_panel_name :: rest =>
      match panel_draw a !! target_panel_name with
      | Some _ => monkey_patch_panel target_panel_name target_panel_name a
      | None => patch_first rest a
      end
  end.

Definition load_handler (a : addon) : addon :=
  patch_first target_panel_classes a.

(** The classes [register] registers, in order. *)
Definition registered_classes : list string :=
  ["ELCA_OT_LoadResults"; "ELCA_OT_LoadProject"; "ELCA_OT_CreateIFCLibrary";
   "ELCA_OT_ResetData"; "ELCA_OT_InstallDependencies"; "ELCA_PT_Panel"].

(** [register()]: a class that is registered already makes
    [register_class] raise, which is caught. *)
Definition register (a : addon) : addon :=
  let a :=
    {| panel_draw := panel_draw a;
       _original_draw_functions := _original_draw_functions a;
       load_post :=
         if bool_decide ("load_handler" ∈ load_post a) then load_post a
         else load_post a ++ ["load_handler"];
       classes := classes a ∪ list_to_set registered_classes;
       scene_properties := scene_properties a ∪ {["elca_attach_to_project"]} |} in
  load_handler a.

(** [for panel_name, original_draw in _original_draw_functions.items()]:
    a panel that is found gets its original draw function back. *)
Definition restore_draw_functions (originals panels : gmap string draw_function)
  : gmap string draw_function :=
  map_fold
    (fun panel_name original_draw panels =>
       match panels !! panel_name with
       | Some _ => <[panel_name := original_draw]> panels
       | None => panels
       end)
    panels originals.

(** [list.remove(x)]: the first occurrence goes. *)
Fixpoint remove_first (x : string) (l : list string) : list string :=
  match l with
  | [] => []
  | y :: rest => if String.eqb y x then rest else y :: remove_first x rest
  end.

(** [unregister()]; the dictionary of original draw functions is not
    emptied. *)
Definition unregister (a : addon) : addon :=
  {| panel_draw := restore_draw_functions (_original_draw_functions a) (panel_draw a);
     _original_draw_functions := _original_draw_functions a;
     load_post :=
       if bool_decide ("load_handler" ∈ load_post a)
       then remove_first "load_handler" (load_post a)
       else load_post a;
     classes := classes a ∖ list_to_set registered_classes;
     scene_properties := scene_properties a ∖ {["elca_attach_to_project"]} |}.

(** The [bl_idname] of the operator classes of the module. *)
Definition operator_classes : list (string * string) :=
  [("ELCA_OT_LoadResults", "elca.load_results");
   ("ELCA_OT_LoadProject", "elca.load_project");
   ("ELCA_OT_ResetData", "elca.reset_data");
   ("ELCA_OT_CreateIFCLibrary", "elca.create_ifc_library");
   ("ELCA_OT_InstallDependencies", "elca.install_dependencies");
   ("ELCA_OT_ShowMaterialSets", "elca.show_material_sets");
   ("ELCA_OT_RemoveMaterialSets", "elca.remove_material_sets");
   ("ELCA_OT_ValidateMaterialSets", "elca.validate_material_sets");
   ("ELCA_OT_SyncMaterialSets", "elca.sync_material_sets")].

(** Whether an operator of the module with this [bl_idname] is
    registered. *)
Definition operator_registered (a : addon) (idname : string) : bool :=
  existsb
    (fun ci => bool_decide (fst ci ∈ classes a) && String.eqb (snd ci) idname)
    operator_classes.

(** What happens to the add-on while Blender runs. *)
Inductive event := Register | Unregister | FileLoaded.

Definition step (a : addon) (e : event) : addon :=
  match e with
  | Register => register a
  | Unregister => unregister a
  | FileLoaded =>
      if bool_decide ("load_handler" ∈ load_post a) then load_handler a else a
  end.

Definition run (events : list event) (a : addon) : addon :=
  foldl step a events.

Definition is_host (d : draw_function) : bool :=
  match d with
  | HostDraw _ => true
  | NewDraw _ => false
  end.

(** A session the add-on has not touched yet: nothing is stored, and no
    panel has a patched draw function. *)
Definition untouched (a : addon) : Prop :=
  _original_draw_functions a = ∅
  /\ map_Forall (fun _ d => is_host d = true) (panel_draw a).

(** A session with the two panels of the host and nothing of the
    add-on. *)
Definition demo_addon : addon :=
  {| panel_draw :=
       <["bonsai.bim.module.material.ui.BIM_PT_materials"
         := HostDraw "BIM_PT_materials.draw"]>
         (<["bonsai.bim.module.material.ui.BIM_PT_object_material"
            := HostDraw "BIM_PT_object_material.draw"]> ∅);
     _original_draw_functions := ∅;
     load_post := [];
     classes := ∅;
     scene_properties := ∅ |}.

(** * Facts on calls *)

Lemma wp_ret {A} (a : A) w (Q : A -> world -> Prop) E :
  Q a w -> wp (mret a) w Q E.
Proof. intros H. exact H. Qed.

Lemma wp_bind {A B} (m : M A) (k : A -> M B) w Q E :
  wp m w (fun a w' => wp (k a) w' Q E) E -> wp (m ≫= k) w Q E.
Proof.
  unfold wp, mbind, M_bind. destruct (m w) as [[a|e] w']; intros H; exact H.
Qed.

Lemma wp_mono {A} (m : M A) w (Q Q' : A -> world -> Prop) (E E' : exn -> world -> Prop) :
  wp m w Q E ->
  (forall a w', Q a w' -> Q' a w') ->
  (forall e w', E e w' -> E' e w') ->
  wp m w Q' E'.
Proof.
  unfold wp. destruct (m w) as [[a|e] w']; intros H HQ HE; auto.
Qed.

Lemma frame_refl w : frame w w.
Proof. repeat split. Qed.

Lemma frame_trans w1 w2 w3 : frame w1 w2 -> frame w2 w3 -> frame w1 w3.
Proof. unfold frame. intros (?&?&?) (?&?&?). repeat split; congruence. Qed.

Lemma framed_ret {A} (a : A) : framed (mret a : M A).
Proof. intros w. apply frame_refl. Qed.

Lemma framed_raise {A} e : framed (raise e : M A).
Proof. intros w. apply frame_refl. Qed.

Lemma framed_bind {A B} (m : M A) (k : A -> M B) :
  framed m -> (forall a, framed (k a)) -> framed (m ≫= k).
Proof.
  intros Hm Hk w. apply wp_bind. eapply wp_mono; [apply Hm | |].
  - intros a w' Hf. eapply wp_mono; [apply Hk | |];
      intros; simpl in *; eapply frame_trans; eassumption.
  - auto.
Qed.

Lemma framed_fmap {A B} (g : A -> B) (m : M A) : framed m -> framed (g <$> m).
Proof. intros Hm. apply framed_bind; [exact Hm | intros; apply framed_ret]. Qed.

Lemma framed_for_fold {A S} (l : list A) (body : S -> A -> M S) :
  (forall acc x, framed (body acc x)) -> forall acc, framed (for_fold l acc body).
Proof.
  intros Hb. induction l as [|x l IH]; intros acc; simpl.
  - apply framed_ret.
  - apply framed_bind; [apply Hb | intros; apply IH].
Qed.

Lemma framed_for_each {A} (l : list A) (body : A -> M unit) :
  (forall x, framed (body x)) -> framed (for_each l body).
Proof. intros Hb. apply framed_for_fold. intros; apply Hb. Qed.

Section CreatorFrames.

Variable accepts : Ifc.entity -> bool.
Variable compressed_uuid4 : nat -> string.

Lemma framed_new_file : framed new_file.
Proof. intros w. repeat split. Qed.

Lemma framed_current_file : framed current_file.
Proof. intros w. repeat split. Qed.

Lemma framed_create_entity t a : framed (create_entity accepts t a).
Proof.
  intros w. unfold wp, create_entity. destruct (accepts _); repeat split.
Qed.

Lemma framed_assign id key v : framed (assign accepts id key v).
Proof.
  intros w. unfold wp, assign. destruct (Ifc.by_id _ _); [|repeat split].
  destruct (accepts _); repeat split.
Qed.

Lemma framed_create_guid : framed (create_guid compressed_uuid4).
Proof. intros w. repeat split. Qed.

Lemma framed_timestamp : framed timestamp.
Proof. intros w. repeat split. Qed.

Lemma framed_read_bauteil_elements : framed read_bauteil_elements.
Proof. intros w. repeat split. Qed.

Lemma framed_open_file path : framed (open_file path).
Proof. intros w. unfold wp, open_file. destruct (disk w !! path); repeat split. Qed.

Lemma framed_open_project path : framed (open_project path).
Proof. intros w. unfold wp, open_project. destruct (disk w !! path); repeat split. Qed.

Lemma framed_instance_of f v : framed (instance_of f v).
Proof.
  unfold instance_of. destruct v; try apply framed_raise.
  destruct (Ifc.by_id f id); [apply framed_ret | apply framed_raise].
Qed.

Lemma framed_ids_of v : framed (ids_of v).
Proof. unfold ids_of. destruct v; try apply framed_raise. apply framed_ret. Qed.

Ltac framed_step :=
  match goal with
  | |- framed (mret _) => apply framed_ret
  | |- framed (raise _) => apply framed_raise
  | |- framed (_ ≫= _) => apply framed_bind; [|intros]
  | |- framed (_ <$> _) => apply framed_fmap
  | |- framed (for_each _ _) => apply framed_for_each; intros
  | |- framed (for_fold _ _ _) => apply framed_for_fold; intros
  | |- framed (create_entity _ _ _) => apply framed_create_entity
  | |- framed (assign _ _ _ _) => apply framed_assign
  | |- framed (create_guid _) => apply framed_create_guid
  | |- framed timestamp => apply framed_timestamp
  | |- framed new_file => apply framed_new_file
  | |- framed current_file => apply framed_current_file
  | |- framed read_bauteil_elements => apply framed_read_bauteil_elements
  | |- framed (open_file _) => apply framed_open_file
  | |- framed (open_project _) => apply framed_open_project
  | |- framed (instance_of _ _) => apply framed_instance_of
  | |- framed (ids_of _) => apply framed_ids_of
  | |- framed (match ?x with _ => _ end) => destruct x
  | |- framed (if ?x then _ else _) => destruct x
  | |- framed (let '(_, _) := ?x in _) => destruct x
  end.

Lemma framed_create_owner_history : framed (create_owner_history accepts).
Proof. unfold create_owner_history. repeat framed_step. Qed.

Lemma framed_emit_process material p : framed (emit_process accepts material p).
Proof. unfold emit_process. repeat framed_step. Qed.

Lemma framed_emit_component layers ic : framed (emit_component accepts layers ic).
Proof.
  unfold emit_component. destruct ic as [idx component].
  repeat (framed_step || apply framed_emit_process).
Qed.

Lemma framed_emit_element oh lib element :
  framed (emit_element accepts compressed_uuid4 oh lib element).
Proof.
  unfold emit_element.
  repeat (framed_step || apply framed_emit_component).
Qed.

Lemma framed_create_header : framed (create_header accepts compressed_uuid4).
Proof.
  unfold create_header.
  repeat (framed_step || apply framed_create_owner_history).
Qed.

Lemma framed_build_library : framed (build_library accepts compressed_uuid4).
Proof.
  unfold build_library.
  repeat (framed_step || apply framed_create_header || apply framed_emit_element).
Qed.

Lemma framed_first_related id rels : framed (first_related id rels).
Proof.
  induction rels as [|rel rest IH]; simpl; repeat (framed_step || apply IH).
Qed.

Lemma framed_copy_classification lf oh m nm rel :
  framed (copy_classification accepts compressed_uuid4 lf oh m nm rel).
Proof. unfold copy_classification. repeat framed_step. Qed.

Lemma framed_copy_layer lf oh layers id :
  framed (copy_layer accepts compressed_uuid4 lf oh layers id).
Proof.
  unfold copy_layer. repeat (framed_step || apply framed_copy_classification).
Qed.

Lemma framed_copy_wall_type lf oh nli wt :
  framed (copy_wall_type accepts compressed_uuid4 lf oh nli wt).
Proof.
  unfold copy_wall_type.
  repeat (framed_step || apply framed_first_related || apply framed_copy_layer).
Qed.

Lemma framed_copy_library lf li :
  framed (copy_library accepts compressed_uuid4 lf li).
Proof.
  unfold copy_library.
  repeat (framed_step || apply framed_create_owner_history
          || apply framed_copy_wall_type).
Qed.

End CreatorFrames.

(** * Facts on sketches *)

Lemma by_type_from_sketch id f type_name :
  map (fun ie => (is_a (snd ie), attr (snd ie) "LayerThickness"))
      (Ifc.by_type_from id f type_name)
  = List.filter (of_type type_name) (sketch f).
Proof.
  revert id. induction f as [|e f IH]; intros id; simpl; [reflexivity|].
  unfold of_type at 1. simpl.
  destruct (String.eqb (is_a e) type_name); simpl; rewrite IH; reflexivity.
Qed.

Lemma count_sketch type_name f :
  Ifc.count type_name f = List.length (List.filter (of_type type_name) (sketch f)).
Proof.
  unfold Ifc.count, Ifc.by_type. rewrite <- (by_type_from_sketch 1).
  rewrite length_map. reflexivity.
Qed.

Lemma layer_thicknesses_sketch f :
  Ifc.layer_thicknesses f
  = map snd (List.filter (of_type "IfcMaterialLayer") (sketch f)).
Proof.
  unfold Ifc.layer_thicknesses, Ifc.by_type.
  rewrite <- (by_type_from_sketch 1). rewrite map_map. reflexivity.
Qed.

Lemma sketch_app f g : sketch (f ++ g) = sketch f ++ sketch g.
Proof. apply map_app. Qed.

Lemma sketch_length f : List.length (sketch f) = List.length f.
Proof. apply length_map. Qed.

Lemma assoc_set_other key k v kvs :
  key <> k -> Ifc.assoc k (Ifc.assoc_set key v kvs) = Ifc.assoc k kvs.
Proof.
  intros Hne. induction kvs as [|[k0 v0] kvs IH]; simpl.
  - destruct (String.eqb_spec key k); [contradiction | reflexivity].
  - destruct (String.eqb_spec k0 key) as [->|Hk]; simpl.
    + destruct (String.eqb_spec key k); [contradiction | reflexivity].
    + destruct (String.eqb_spec k0 k); [reflexivity | exact IH].
Qed.

Lemma sketch_assign f i e key v :
  f !! i = Some e -> key <> "LayerThickness" ->
  sketch (<[i := Ifc.with_attr e key v]> f) = sketch f.
Proof.
  intros Hi Hk. revert i Hi.
  induction f as [|e0 f IH]; intros [|i] Hi; simpl in *; try discriminate.
  - injection Hi as ->. unfold Ifc.attr. simpl.
    rewrite assoc_set_other by exact Hk. reflexivity.
  - f_equal. apply IH. exact Hi.
Qed.

Lemma filter_flat_map {A B} (p : B -> bool) (g : A -> list B) l :
  List.filter p (flat_map g l) = flat_map (fun x => List.filter p (g x)) l.
Proof.
  induction l as [|x l IH]; simpl; [reflexivity|].
  rewrite List.filter_app, IH. reflexivity.
Qed.

Lemma flat_map_nil {A B} (g : A -> list B) l :
  (forall x, g x = []) -> flat_map g l = [].
Proof.
  intros Hg. induction l as [|x l IH]; simpl; [reflexivity|].
  rewrite Hg, IH. reflexivity.
Qed.

Lemma flat_map_singleton {A B} (g : A -> list B) (h : A -> B) l :
  (forall x, g x = [h x]) -> flat_map g l = map h l.
Proof.
  intros Hg. induction l as [|x l IH]; simpl; [reflexivity|].
  rewrite Hg, IH. reflexivity.
Qed.

Lemma of_type_other type_name s v :
  type_name <> s -> of_type type_name (s, v) = false.
Proof.
  intros Hne. unfold of_type. simpl.
  destruct (String.eqb_spec s type_name); [congruence | reflexivity].
Qed.

Lemma filter_skip {A} (p : A -> bool) x l :
  p x = false -> List.filter p (x :: l) = List.filter p l.
Proof. intros Hp. simpl. rewrite Hp. reflexivity. Qed.

Lemma process_sketch_no type_name p :
  type_name <> "IfcPropertySingleValue" -> type_name <> "IfcMaterialProperties" ->
  List.filter (of_type type_name) (process_sketch p) = [].
Proof.
  intros H1 H2. unfold process_sketch.
  destruct (p_uuid p) as [u|]; [|reflexivity].
  destruct (PyStr.is_empty u); [reflexivity|].
  rewrite !filter_skip by (apply of_type_other; assumption). reflexivity.
Qed.

Lemma component_sketch_layers c :
  List.filter (of_type "IfcMaterialLayer") (component_sketch c)
  = [("IfcMaterialLayer", VFloat (Thickness.of_component c))].
Proof.
  unfold component_sketch. simpl. rewrite List.filter_app, filter_flat_map.
  rewrite flat_map_nil by (intros; apply process_sketch_no; discriminate).
  reflexivity.
Qed.

Lemma element_sketch_layers e :
  map snd (List.filter (of_type "IfcMaterialLayer") (element_sketch e))
  = map (fun c => VFloat (Thickness.of_component c)) (components e).
Proof.
  unfold element_sketch. destruct (components e) as [|c cs]; [reflexivity|].
  rewrite filter_skip by (apply of_type_other; discriminate).
  rewrite List.filter_app, filter_flat_map.
  rewrite (flat_map_singleton _ _ _ component_sketch_layers).
  rewrite !filter_skip by (apply of_type_other; discriminate).
  simpl List.filter. rewrite app_nil_r, map_map. reflexivity.
Qed.

Lemma elements_sketch_layers els :
  map snd (List.filter (of_type "IfcMaterialLayer") (flat_map element_sketch els))
  = map (fun c => VFloat (Thickness.of_component c)) (flat_map components els).
Proof.
  induction els as [|e els IH]; simpl; [reflexivity|].
  rewrite List.filter_app, !map_app, IH, element_sketch_layers. reflexivity.
Qed.

Lemma component_sketch_no type_name c :
  type_name <> "IfcPropertySingleValue" -> type_name <> "IfcMaterialProperties" ->
  type_name <> "IfcMaterial" -> type_name <> "IfcMaterialLayer" ->
  List.filter (of_type type_name) (component_sketch c) = [].
Proof.
  intros H1 H2 H3 H4. unfold component_sketch.
  rewrite filter_skip by (apply of_type_other; assumption).
  rewrite List.filter_app, filter_flat_map.
  rewrite flat_map_nil by (intros; apply process_sketch_no; assumption).
  rewrite filter_skip by (apply of_type_other; assumption). reflexivity.
Qed.

Lemma element_sketch_count type_name e :
  type_name = "IfcMaterialLayerSet" \/ type_name = "IfcWallType" ->
  List.length (List.filter (of_type type_name) (element_sketch e))
  = if has_components e then 1%nat else 0%nat.
Proof.
  intros Ht. unfold element_sketch, has_components.
  destruct (components e) as [|c cs]; [reflexivity|].
  assert (Hin : List.filter (of_type type_name)
                  (flat_map component_sketch (c :: cs)) = []).
  { rewrite filter_flat_map. apply flat_map_nil. intros x.
    apply component_sketch_no; destruct Ht; subst; discriminate. }
  destruct Ht; subst.
  - change (List.filter ?p (?x :: ?l)) with (x :: List.filter p l).
    rewrite List.filter_app, Hin.
    rewrite !filter_skip by (apply of_type_other; discriminate). reflexivity.
  - rewrite filter_skip by (apply of_type_other; discriminate).
    rewrite List.filter_app, Hin. reflexivity.
Qed.

Lemma elements_sketch_count type_name els :
  type_name = "IfcMaterialLayerSet" \/ type_name = "IfcWallType" ->
  List.length (List.filter (of_type type_name) (flat_map element_sketch els))
  = List.length (List.filter has_components els).
Proof.
  intros Ht. induction els as [|e els IH]; simpl; [reflexivity|].
  rewrite List.filter_app, length_app, IH, (element_sketch_count _ _ Ht).
  destruct (has_components e); reflexivity.
Qed.

Lemma flat_map_enumerate {A B} (h : A -> list B) (l : list A) :
  flat_map (fun ic => h (snd ic)) (enumerate l) = flat_map h l.
Proof.
  unfold enumerate.
  assert (H : forall (g : nat -> A -> nat * A),
             (forall i x, snd (g i x) = x) ->
             flat_map (fun ic => h (snd ic)) (imap g l) = flat_map h l).
  { induction l as [|x l IH]; intros g Hg; simpl; [reflexivity|].
    rewrite Hg. f_equal. apply IH. intros i y. apply Hg. }
  apply H. reflexivity.
Qed.

Lemma length_enumerate {A} (l : list A) :
  List.length (enumerate l) = List.length l.
Proof. unfold enumerate. apply length_imap. Qed.

Lemma sketch_snoc f type_name a :
  sketch (f ++ [{| is_a := type_name; attributes := a |}])
  = sketch f ++ [(type_name, Ifc.assoc "LayerThickness" a)].
Proof. apply sketch_app. Qed.

Section CreatorEmits.

Variable accepts : Ifc.entity -> bool.
Variable compressed_uuid4 : nat -> string.

Lemma wp_create_entity t a w (Q : nat -> world -> Prop) :
  (accepts {| is_a := t; attributes := a |} = true ->
   Q (S (List.length (ifc_file w)))
     (with_ifc_file (ifc_file w ++ [{| is_a := t; attributes := a |}]) w)) ->
  wp (create_entity accepts t a) w Q (on_reject accepts).
Proof.
  unfold wp, create_entity. destruct (accepts _) eqn:H; intros HQ.
  - apply HQ. reflexivity.
  - eexists. exact H.
Qed.

Lemma wp_assign id key v w (Q : unit -> world -> Prop) :
  (0 < id)%nat -> (id <= List.length (ifc_file w))%nat ->
  key <> "LayerThickness" ->
  (forall f, sketch f = sketch (ifc_file w) -> Q tt (with_ifc_file f w)) ->
  wp (assign accepts id key v) w Q (on_reject accepts).
Proof.
  intros Hpos Hle Hkey HQ. unfold wp, assign.
  destruct id as [|i]; [lia|]. simpl.
  destruct (ifc_file w !! i) as [e|] eqn:Hi.
  - destruct (accepts _) eqn:H.
    + apply HQ. apply sketch_assign; assumption.
    + eexists. exact H.
  - apply lookup_ge_None in Hi. lia.
Qed.

Lemma wp_create_guid w (Q : string -> world -> Prop) :
  Q (compressed_uuid4 (guids w)) (with_guids (S (guids w)) w) ->
  wp (create_guid compressed_uuid4) w Q (on_reject accepts).
Proof. intros H. exact H. Qed.

Ltac emit_step :=
  first
    [ apply wp_bind; apply wp_create_entity; intros _
    | apply wp_bind; apply wp_create_guid
    | apply wp_bind; unfold timestamp at 1; unfold wp at 1
    | apply wp_ret ].

Ltac sketch_done :=
  cbn [ifc_file with_ifc_file with_guids] in *;
  repeat first
    [ rewrite sketch_snoc
    | match goal with
      | H : sketch _ = _ |- _ => rewrite H; clear H
      end ];
  simpl Ifc.assoc;
  repeat (cbn [app flat_map]; rewrite <- ?app_assoc);
  try reflexivity.

Lemma create_owner_history_emits w :
  wp (create_owner_history accepts) w
     (fun _ w' => sketch (ifc_file w') = sketch (ifc_file w) ++ owner_history_sketch)
     (on_reject accepts).
Proof.
  unfold create_owner_history. repeat emit_step. sketch_done.
Qed.

Lemma emit_process_emits material p w :
  wp (emit_process accepts material p) w
     (fun _ w' => sketch (ifc_file w') = sketch (ifc_file w) ++ process_sketch p)
     (on_reject accepts).
Proof.
  unfold emit_process, process_sketch.
  destruct (p_uuid p) as [u|]; [|apply wp_ret; rewrite app_nil_r; reflexivity].
  destruct (PyStr.is_empty u); [apply wp_ret; rewrite app_nil_r; reflexivity|].
  repeat emit_step. sketch_done.
Qed.

Lemma emit_processes_emits material ps w :
  wp (for_each ps (emit_process accepts material)) w
     (fun _ w' =>
        sketch (ifc_file w') = sketch (ifc_file w) ++ flat_map process_sketch ps)
     (on_reject accepts).
Proof.
  unfold for_each. revert w. induction ps as [|p ps IH]; intros w; simpl.
  - apply wp_ret. rewrite app_nil_r. reflexivity.
  - apply wp_bind. eapply wp_mono; [apply emit_process_emits | | auto].
    intros [] w1 H1. simpl. eapply wp_mono; [apply IH | | auto].
    intros [] w2 H2. simpl in *. rewrite H2, H1, <- app_assoc. reflexivity.
Qed.

Lemma emit_component_emits layers ic w :
  wp (emit_component accepts layers ic) w
     (fun layers' w' =>
        List.length layers' = S (List.length layers)
        /\ sketch (ifc_file w') = sketch (ifc_file w) ++ component_sketch (snd ic))
     (on_reject accepts).
Proof.
  unfold emit_component. destruct ic as [idx c]. simpl snd.
  emit_step. apply wp_bind.
  eapply wp_mono; [apply emit_processes_emits | | auto].
  intros [] w1 H1. emit_step. emit_step. split.
  - rewrite length_app. simpl. lia.
  - unfold component_sketch. sketch_done.
Qed.

Lemma emit_components_emits l layers w :
  wp (for_fold l layers (emit_component accepts)) w
     (fun layers' w' =>
        List.length layers' = (List.length layers + List.length l)%nat
        /\ sketch (ifc_file w')
           = sketch (ifc_file w) ++ flat_map (fun ic => component_sketch (snd ic)) l)
     (on_reject accepts).
Proof.
  revert layers w. induction l as [|ic l IH]; intros layers w; simpl.
  - apply wp_ret. split; [lia | rewrite app_nil_r; reflexivity].
  - apply wp_bind. eapply wp_mono; [apply emit_component_emits | | auto].
    intros layers1 w1 [Hl1 H1]. simpl. eapply wp_mono; [apply IH | | auto].
    intros layers2 w2 [Hl2 H2]. simpl in *. split; [lia|].
    rewrite H2, H1, <- app_assoc. reflexivity.
Qed.

Lemma emit_element_emits oh lib element w :
  wp (emit_element accepts compressed_uuid4 oh lib element) w
     (fun _ w' => sketch (ifc_file w') = sketch (ifc_file w) ++ element_sketch element)
     (on_reject accepts).
Proof.
  unfold emit_element, element_sketch.
  destruct (components element) as [|c cs] eqn:Hc.
  { apply wp_ret. rewrite app_nil_r. reflexivity. }
  emit_step. apply wp_bind.
  eapply wp_mono; [apply emit_components_emits | | auto].
  intros layers w1 [Hlen H1].
  rewrite length_enumerate in Hlen. rewrite flat_map_enumerate in H1.
  destruct layers as [|l0 layers]; [simpl in Hlen; lia|].
  apply wp_bind. apply wp_assign.
  - lia.
  - cbn [ifc_file with_ifc_file] in H1.
    rewrite <- (sketch_length (ifc_file w1)), H1, length_app, sketch_length, length_app.
    simpl. lia.
  - discriminate.
  - intros f Hf. repeat emit_step. sketch_done.
Qed.

Lemma emit_elements_emits oh lib els w :
  wp (for_each els (emit_element accepts compressed_uuid4 oh lib)) w
     (fun _ w' =>
        sketch (ifc_file w') = sketch (ifc_file w) ++ flat_map element_sketch els)
     (on_reject accepts).
Proof.
  unfold for_each. revert w. induction els as [|e els IH]; intros w; simpl.
  - apply wp_ret. rewrite app_nil_r. reflexivity.
  - apply wp_bind. eapply wp_mono; [apply emit_element_emits | | auto].
    intros [] w1 H1. simpl. eapply wp_mono; [apply IH | | auto].
    intros [] w2 H2. simpl in *. rewrite H2, H1, <- app_assoc. reflexivity.
Qed.

Lemma create_header_emits w :
  wp (create_header accepts compressed_uuid4) w
     (fun _ w' => sketch (ifc_file w') = header_sketch) (on_reject accepts).
Proof.
  unfold create_header. apply wp_bind. unfold new_file at 1, wp at 1.
  apply wp_bind. eapply wp_mono; [apply create_owner_history_emits | | auto].
  intros [organization owner_history] w1 H1.
  emit_step. emit_step. apply wp_bind. apply wp_assign.
  - lia.
  - cbn [ifc_file with_ifc_file]. rewrite !length_app. simpl. lia.
  - discriminate.
  - intros f Hf. repeat emit_step. unfold header_sketch. sketch_done.
Qed.

Lemma wp_and {A} (m : M A) w (Q1 Q2 : A -> world -> Prop) (E1 E2 : exn -> world -> Prop) :
  wp m w Q1 E1 -> wp m w Q2 E2 ->
  wp m w (fun a w' => Q1 a w' /\ Q2 a w') (fun e w' => E1 e w' /\ E2 e w').
Proof. unfold wp. destruct (m w) as [[a|e] w']; auto. Qed.

(** What the construction leaves in memory: the header, then what each
    element appends; the list of elements and the disk are as before. *)
Lemma build_library_emits w :
  wp (build_library accepts compressed_uuid4) w
     (fun _ w' =>
        sketch (ifc_file w')
        = header_sketch ++ flat_map element_sketch (bauteil_elements w)
        /\ frame w w')
     (fun _ w' => rejected accepts /\ frame w w').
Proof.
  apply wp_and; [|apply framed_build_library].
  unfold build_library. apply wp_bind.
  eapply wp_mono;
    [apply wp_and; [apply create_header_emits | apply framed_create_header] | |].
  - intros [owner_history library] w1 [H1 (Hb & _)].
    apply wp_bind. unfold read_bauteil_elements at 1, wp at 1.
    rewrite Hb. eapply wp_mono; [apply emit_elements_emits | | auto].
    intros [] w2 H2. cbn beta in H2. rewrite H2, H1. reflexivity.
  - intros e w' [Hr _]. exact Hr.
Qed.

Lemma create_ifc_library_spec output_path w :
  wp (create_ifc_library_from_bauteil_elements accepts compressed_uuid4 output_path) w
     (fun f w' =>
        f = ifc_file w'
        /\ sketch f = header_sketch ++ flat_map element_sketch (bauteil_elements w)
        /\ disk w' = <[output_path := f]> (disk w)
        /\ bauteil_elements w' = bauteil_elements w)
     (fun _ w' => rejected accepts /\ frame w w').
Proof.
  unfold create_ifc_library_from_bauteil_elements. apply wp_bind.
  eapply wp_mono; [apply build_library_emits | | auto].
  intros [] w1 [H1 (Hb & Hd & _)]. apply wp_bind.
  unfold write at 1, wp at 1. unfold current_file, wp.
  cbn [ifc_file with_disk disk bauteil_elements].
  rewrite Hd. auto.
Qed.

End CreatorEmits.

(** * Facts on calls that do not look at the list of elements *)

Lemma indep_ret {A} (a : A) : indep (mret a : M A).
Proof. intros l w. reflexivity. Qed.

Lemma indep_bind {A B} (m : M A) (k : A -> M B) :
  indep m -> (forall a, indep (k a)) -> indep (m ≫= k).
Proof.
  intros Hm Hk l w. unfold mbind, M_bind. rewrite Hm.
  destruct (m w) as [[a|e] w']; [apply Hk | reflexivity].
Qed.

Lemma indep_for_fold {A S} (l : list A) (body : S -> A -> M S) :
  (forall acc x, indep (body acc x)) -> forall acc, indep (for_fold l acc body).
Proof.
  intros Hb. induction l as [|x l IH]; intros acc; simpl.
  - apply indep_ret.
  - apply indep_bind; [apply Hb | intros; apply IH].
Qed.

Lemma indep_for_each {A} (l : list A) (body : A -> M unit) :
  (forall x, indep (body x)) -> indep (for_each l body).
Proof. intros Hb. apply indep_for_fold. intros; apply Hb. Qed.

Lemma bind_ext_l {A B} (m1 m2 : M A) (k : A -> M B) w :
  m1 w = m2 w -> (m1 ≫= k) w = (m2 ≫= k) w.
Proof. intros H. unfold mbind, M_bind. rewrite H. reflexivity. Qed.

Lemma bind_ext_r {A B} (m : M A) (k1 k2 : A -> M B) w :
  (forall a w', k1 a w' = k2 a w') -> (m ≫= k1) w = (m ≫= k2) w.
Proof.
  intros H. unfold mbind, M_bind. destruct (m w) as [[a|e] w']; [apply H | reflexivity].
Qed.



Lemma for_each_filter {A} (p : A -> bool) (body : A -> M unit) (l : list A) :
  (forall x w, p x = false -> body x w = (Returns tt, w)) ->
  forall w, for_each (List.filter p l) body w = for_each l body w.
Proof.
  intros Hb. unfold for_each. induction l as [|x l IH]; intros w; simpl; [reflexivity|].
  destruct (p x) eqn:Hp; simpl.
  - apply bind_ext_r. intros [] w'. apply IH.
  - unfold mbind, M_bind. rewrite (Hb x w Hp). apply IH.
Qed.

Section CreatorReads.

Variable accepts : Ifc.entity -> bool.
Variable compressed_uuid4 : nat -> string.

Lemma indep_create_entity t a : indep (create_entity accepts t a).
Proof. intros l w. unfold create_entity. destruct (accepts _); reflexivity. Qed.

Lemma indep_assign id key v : indep (assign accepts id key v).
Proof.
  intros l w. unfold assign. cbn [ifc_file with_bauteil_elements].
  destruct (Ifc.by_id _ _); [|reflexivity]. destruct (accepts _); reflexivity.
Qed.

Lemma indep_create_guid : indep (create_guid compressed_uuid4).
Proof. intros l w. reflexivity. Qed.

Lemma indep_timestamp : indep timestamp.
Proof. intros l w. reflexivity. Qed.

Lemma indep_new_file : indep new_file.
Proof. intros l w. reflexivity. Qed.

Lemma indep_current_file : indep current_file.
Proof. intros l w. reflexivity. Qed.

Lemma indep_write path : indep (write path).
Proof. intros l w. reflexivity. Qed.

Ltac indep_step :=
  match goal with
  | |- indep (mret _) => apply indep_ret
  | |- indep (_ ≫= _) => apply indep_bind; [|intros]
  | |- indep (for_each _ _) => apply indep_for_each; intros
  | |- indep (for_fold _ _ _) => apply indep_for_fold; intros
  | |- indep (create_entity _ _ _) => apply indep_create_entity
  | |- indep (assign _ _ _ _) => apply indep_assign
  | |- indep (create_guid _) => apply indep_create_guid
  | |- indep timestamp => apply indep_timestamp
  | |- indep new_file => apply indep_new_file
  | |- indep current_file => apply indep_current_file
  | |- indep (write _) => apply indep_write
  | |- indep (match ?x with _ => _ end) => destruct x
  | |- indep (if ?x then _ else _) => destruct x
  | |- indep (let '(_, _) := ?x in _) => destruct x
  end.

Lemma indep_emit_element oh lib element :
  indep (emit_element accepts compressed_uuid4 oh lib element).
Proof.
  unfold emit_element, emit_component, emit_process. repeat indep_step.
Qed.

Lemma indep_create_header : indep (create_header accepts compressed_uuid4).
Proof. unfold create_header, create_owner_history. repeat indep_step. Qed.

Lemma indep_create_from output_path elements :
  indep (create_from accepts compressed_uuid4 output_path elements).
Proof.
  unfold create_from.
  repeat (indep_step || apply indep_create_header || apply indep_emit_element).
Qed.

Lemma create_from_read output_path w :
  create_ifc_library_from_bauteil_elements accepts compressed_uuid4 output_path w
  = create_from accepts compressed_uuid4 output_path (bauteil_elements w) w.
Proof.
  unfold create_ifc_library_from_bauteil_elements, build_library, create_from.
  unfold mbind, M_bind.
  pose proof (framed_create_header accepts compressed_uuid4 w) as Hfr.
  unfold wp in Hfr.
  destruct (create_header accepts compressed_uuid4 w) as [[[oh lib]|e] w1];
    [|reflexivity].
  destruct Hfr as (Hb & _). unfold read_bauteil_elements. rewrite Hb.
  reflexivity.
Qed.

Lemma create_from_ext output_path l1 l2 :
  (forall oh lib w,
     for_each l1 (emit_element accepts compressed_uuid4 oh lib) w
     = for_each l2 (emit_element accepts compressed_uuid4 oh lib) w) ->
  forall w, create_from accepts compressed_uuid4 output_path l1 w = create_from accepts compressed_uuid4 output_path l2 w.
Proof.
  intros H w. unfold create_from. apply bind_ext_r. intros [oh lib] w'.
  apply bind_ext_l. apply H.
Qed.

(** With another list behind [bauteil_elements], the call is the one on
    that list. *)
Lemma create_on_list output_path l w :
  create_ifc_library_from_bauteil_elements accepts compressed_uuid4 output_path
    (with_bauteil_elements l w)
  = (let '(r, w') := create_from accepts compressed_uuid4 output_path l w in
     (r, with_bauteil_elements l w')).
Proof. rewrite create_from_read. apply indep_create_from. Qed.


Lemma emit_element_skip oh lib e w :
  has_components e = false ->
  emit_element accepts compressed_uuid4 oh lib e w = (Returns tt, w).
Proof.
  unfold has_components, emit_element.
  destruct (components e); [reflexivity | discriminate].
Qed.

End CreatorReads.

(** * Facts on binary64 rounding *)

Lemma shr_1_nonneg mrs : 0 <= shr_m mrs -> 0 <= shr_m (shr_1 mrs).
Proof.
  destruct mrs as [m r s]. simpl. intros Hm.
  destruct m as [|p|p]; simpl; try lia; destruct p; simpl; lia.
Qed.

Lemma iter_shr_1_nonneg p mrs :
  0 <= shr_m mrs -> 0 <= shr_m (SpecFloat.iter_pos shr_1 p mrs).
Proof.
  revert mrs. induction p as [p IH|p IH|]; intros mrs Hm; simpl.
  - apply IH, IH, shr_1_nonneg, Hm.
  - apply IH, IH, Hm.
  - apply shr_1_nonneg, Hm.
Qed.

Lemma shr_fexp_nonneg m e l :
  0 <= m -> 0 <= shr_m (fst (shr_fexp PyFloat.prec PyFloat.emax m e l)).
Proof.
  intros Hm. unfold shr_fexp, shr.
  assert (H0 : 0 <= shr_m (shr_record_of_loc m l))
    by (destruct l as [|[]]; exact Hm).
  destruct (fexp _ _ _ - e) as [|p|p]; simpl; try exact H0.
  apply iter_shr_1_nonneg, H0.
Qed.

Lemma round_nearest_even_nonneg m l : 0 <= m -> 0 <= round_nearest_even m l.
Proof.
  intros Hm. unfold round_nearest_even.
  destruct l as [|[]]; try lia. destruct (Z.even m); lia.
Qed.

(** Rounding a non-negative mantissa with a positive sign gives zero, a
    positive number or plus infinity. *)
Lemma binary_round_aux_nonneg m e l :
  0 <= m ->
  PyFloat.nonneg (binary_round_aux PyFloat.prec PyFloat.emax false m e l) = true.
Proof.
  intros Hm. unfold binary_round_aux.
  pose proof (shr_fexp_nonneg m e l Hm) as H1.
  destruct (shr_fexp PyFloat.prec PyFloat.emax m e l) as [mrs' e'].
  simpl in H1.
  pose proof (shr_fexp_nonneg _ e' loc_Exact
                (round_nearest_even_nonneg _ (loc_of_shr_record mrs') H1)) as H2.
  destruct (shr_fexp _ _ _ e' loc_Exact) as [mrs'' e''].
  simpl in H2. destruct (shr_m mrs'') as [|p|p]; [reflexivity | | lia].
  destruct (e'' <=? _); reflexivity.
Qed.

Lemma div_core_nonneg m1 e1 m2 e2 :
  0 <= m1 -> 0 < m2 ->
  0 <= fst (fst (SFdiv_core_binary PyFloat.prec PyFloat.emax m1 e1 m2 e2)).
Proof.
  intros H1 H2. unfold SFdiv_core_binary.
  set (s := e1 - e2 - _). set (m' := match s with 0 => m1 | _ => _ end).
  assert (Hm' : 0 <= m').
  { unfold m'. destruct s; try lia. apply Z.shiftl_nonneg. exact H1. }
  pose proof (Z_div_mod m' m2 ltac:(lia)) as Hdm.
  pose proof (Z.div_pos m' m2 Hm' H2) as Hq.
  unfold Z.div in Hq.
  destruct (Z.div_eucl m' m2) as [q r]. simpl. exact Hq.
Qed.

(** Dividing by a positive finite number keeps a number non-negative. *)
Lemma div_nonneg x m e :
  PyFloat.nonneg x = true ->
  PyFloat.nonneg (PyFloat.div x (S754_finite false m e)) = true.
Proof.
  unfold PyFloat.div. destruct x as [s|s| |s mx ex]; simpl; intros Hx.
  - destruct s; reflexivity.
  - destruct s; [discriminate | reflexivity].
  - discriminate.
  - destruct s; [discriminate|].
    pose proof (div_core_nonneg (Z.pos mx) ex (Z.pos m) e ltac:(lia) ltac:(lia)) as Hq.
    destruct (SFdiv_core_binary _ _ _ _ _ _) as [[mz ez] lz]. simpl in Hq.
    apply binary_round_aux_nonneg. exact Hq.
Qed.

Lemma f1000_0_finite : PyFloat.f1000_0 = S754_finite false 8796093022208000 (-43).
Proof. reflexivity. Qed.

Lemma f100_0_finite : PyFloat.f100_0 = S754_finite false 7036874417766400 (-46).
Proof. reflexivity. Qed.

(** * The thickness of a quantity string *)

Lemma split_nonempty q : PyStr.split q <> [] -> PyStr.is_empty q = false.
Proof. destruct q; [intros H; contradiction H; reflexivity | reflexivity]. Qed.

Lemma of_quantity_parsed q first rest value :
  PyStr.split q = first :: rest ->
  PyFloat.of_string (PyStr.replace "," "." first) = Some value ->
  Thickness.parse q
  = inr (let u := PyStr.lower (match rest with second :: _ => second | [] => "mm" end) in
         if String.eqb u "mm" then PyFloat.div value PyFloat.f1000_0
         else if String.eqb u "cm" then PyFloat.div value PyFloat.f100_0
         else if String.eqb u "m" then value
         else PyFloat.div value PyFloat.f1000_0).
Proof. intros Hs Hv. unfold Thickness.parse. rewrite Hs, Hv. reflexivity. Qed.

(** C1. A quantity string made of a number and a unit resolves to the
    number divided by 1000 for mm, divided by 100 for cm, taken as it is
    for m, and divided by 1000 for any other unit. The unit is compared
    after [lower()], as the source does; the number is read by [float]
    after its commas were replaced by points, so that "200,00 mm" resolves
    to the float 0.2. *)
Theorem thickness_by_unit (quantity_text number unit_part : string)
    (thickness_value : PyFloat.float) :
  PyStr.split quantity_text = [number; unit_part] ->
  PyFloat.of_string (PyStr.replace "," "." number) = Some thickness_value ->
  (PyStr.lower unit_part = "mm" ->
   Thickness.of_quantity quantity_text = PyFloat.div thickness_value PyFloat.f1000_0)
  /\ (PyStr.lower unit_part = "cm" ->
      Thickness.of_quantity quantity_text = PyFloat.div thickness_value PyFloat.f100_0)
  /\ (PyStr.lower unit_part = "m" ->
      Thickness.of_quantity quantity_text = thickness_value)
  /\ (PyStr.lower unit_part <> "mm" -> PyStr.lower unit_part <> "cm" ->
      PyStr.lower unit_part <> "m" ->
      Thickness.of_quantity quantity_text = PyFloat.div thickness_value PyFloat.f1000_0)
  /\ PyFloat.of_string "0.2" = Some (Thickness.of_quantity "200,00 mm").
Proof.
  intros Hs Hv.
  assert (Hq : Thickness.of_quantity quantity_text
               = let u := PyStr.lower unit_part in
                 if String.eqb u "mm" then PyFloat.div thickness_value PyFloat.f1000_0
                 else if String.eqb u "cm" then PyFloat.div thickness_value PyFloat.f100_0
                 else if String.eqb u "m" then thickness_value
                 else PyFloat.div thickness_value PyFloat.f1000_0).
  { unfold Thickness.of_quantity.
    rewrite split_nonempty by (rewrite Hs; discriminate).
    rewrite (of_quantity_parsed _ _ _ _ Hs Hv). reflexivity. }
  rewrite Hq. cbv zeta. split; [|split; [|split; [|split]]].
  - intros ->. reflexivity.
  - intros ->. reflexivity.
  - intros ->. reflexivity.
  - intros H1 H2 H3.
    destruct (String.eqb_spec (PyStr.lower unit_part) "mm"); [contradiction|].
    destruct (String.eqb_spec (PyStr.lower unit_part) "cm"); [contradiction|].
    destruct (String.eqb_spec (PyStr.lower unit_part) "m"); [contradiction|].
    reflexivity.
  - vm_compute. reflexivity.
Qed.

Lemma thickness_by_unit_witness :
  PyStr.split "20,5 CM" = ["20,5"; "CM"]
  /\ PyFloat.of_string (PyStr.replace "," "." "20,5")
     = Some (S754_finite false 5770237022568448 (-48))
  /\ Thickness.of_quantity "20,5 CM"
     = PyFloat.div (S754_finite false 5770237022568448 (-48)) PyFloat.f100_0.
Proof.
  assert (Hs : PyStr.split "20,5 CM" = ["20,5"; "CM"]) by reflexivity.
  assert (Hv : PyFloat.of_string (PyStr.replace "," "." "20,5")
               = Some (S754_finite false 5770237022568448 (-48)))
    by (vm_compute; reflexivity).
  split; [exact Hs|]. split; [exact Hv|].
  destruct (thickness_by_unit "20,5 CM" "20,5" "CM" _ Hs Hv) as (_ & Hcm & _).
  apply Hcm. reflexivity.
Defined.

Lemma unparseable_default quantity_text :
  quantity_text <> EmptyString -> unparseable quantity_text = true ->
  Thickness.of_quantity quantity_text = PyFloat.f0_01.
Proof.
  intros Hne Hu. unfold Thickness.of_quantity.
  destruct quantity_text as [|c s]; [contradiction Hne; reflexivity|].
  cbn [PyStr.is_empty]. unfold unparseable in Hu. unfold Thickness.parse.
  destruct (PyStr.split (String c s)) as [|first rest]; [reflexivity|].
  destruct (PyFloat.of_string _); [discriminate | reflexivity].
Qed.

(** C5, as the specification states it, fails: the parser accepts
    "-5 mm", which resolves to -0.005. *)
Lemma thickness_negative_input :
  ~ (forall quantity_text thickness,
       Thickness.parse quantity_text = inr thickness ->
       PyFloat.nonneg (Thickness.of_quantity quantity_text) = true).
Proof.
  intros H.
  specialize (H "-5 mm" (S754_finite true 5764607523034235 (-60))).
  vm_compute in H. specialize (H eq_refl). discriminate H.
Qed.

(** C5, amended. The resolved thickness is a float that is zero or above
    whenever the numeric part of the quantity string is not negative; an
    empty or unreadable string resolves to 0.0 or 0.01. *)
Theorem thickness_nonneg (quantity_text : string) :
  numeric_part_nonneg quantity_text ->
  PyFloat.nonneg (Thickness.of_quantity quantity_text) = true.
Proof.
  intros Hn. unfold Thickness.of_quantity.
  destruct (PyStr.is_empty quantity_text); [reflexivity|].
  unfold Thickness.parse.
  destruct (PyStr.split quantity_text) as [|first rest] eqn:Hs; [reflexivity|].
  destruct (PyFloat.of_string _) as [value|] eqn:Hv; [|reflexivity].
  specialize (Hn first rest value Hs Hv).
  rewrite f1000_0_finite, f100_0_finite.
  repeat match goal with
         | |- context [if ?b then _ else _] => destruct b
         end;
    first [exact Hn | apply div_nonneg; exact Hn].
Qed.

Lemma thickness_nonneg_witness :
  numeric_part_nonneg "200,00 mm"
  /\ PyFloat.nonneg (Thickness.of_quantity "200,00 mm") = true.
Proof.
  assert (H : numeric_part_nonneg "200,00 mm").
  { intros first rest value Hs Hv. vm_compute in Hs.
    injection Hs as <- <-. vm_compute in Hv. injection Hv as <-. reflexivity. }
  split; [exact H | apply (thickness_nonneg "200,00 mm" H)].
Defined.

(** * The library the creator writes *)

Section CreatorTheorems.

Variable accepts : Ifc.entity -> bool.
Variable compressed_uuid4 : nat -> string.

Local Notation "'create'" :=
  (create_ifc_library_from_bauteil_elements accepts compressed_uuid4).

(** Every component of every element gets one material layer, in order,
    with the thickness its quantity string resolves to. *)
Lemma created_layer_thicknesses output_path w :
  wp (create output_path) w
     (fun f _ =>
        Ifc.layer_thicknesses f
        = map (fun c => VFloat (Thickness.of_component c))
              (flat_map components (bauteil_elements w)))
     (fun _ _ => rejected accepts).
Proof.
  eapply wp_mono; [apply create_ifc_library_spec | | intros e w' [H _]; exact H].
  intros f w' (_ & Hs & _). cbn beta.
  rewrite layer_thicknesses_sketch, Hs, List.filter_app, map_app.
  rewrite elements_sketch_layers. reflexivity.
Qed.

Lemma created_counts output_path w type_name :
  type_name = "IfcMaterialLayerSet" \/ type_name = "IfcWallType" ->
  wp (create output_path) w
     (fun f _ =>
        Ifc.count type_name f
        = List.length (List.filter has_components (bauteil_elements w)))
     (fun _ _ => rejected accepts).
Proof.
  intros Ht.
  eapply wp_mono; [apply create_ifc_library_spec | | intros e w' [H _]; exact H].
  intros f w' (_ & Hs & _). cbn beta.
  rewrite count_sketch, Hs, List.filter_app, length_app.
  rewrite (elements_sketch_count _ _ Ht).
  destruct Ht; subst; reflexivity.
Qed.

(** The creator returns when the library takes every instance. *)
Lemma create_returns output_path w :
  (forall e, accepts e = true) ->
  exists f w', create output_path w = (Returns f, w').
Proof.
  intros Hall. pose proof (create_ifc_library_spec accepts compressed_uuid4 output_path w) as H.
  unfold wp in H. destruct (create output_path w) as [[f|e] w'].
  - eauto.
  - destruct H as [[x Hx] _]. rewrite Hall in Hx. discriminate.
Qed.

(** C2. A component whose quantity string is present and cannot be read
    (no token, or a first token that [float] rejects) gets the default
    thickness 0.01: the [try] block raises [IndexError] or [ValueError],
    which the [except] clause catches; the material layer of the
    component is written with 0.01, and the creator only raises when
    [ifcopenshell] refuses an instance. *)
Theorem unparseable_quantity_default (component : Component)
    (quantity_text output_path : string) (w : world) :
  c_quantity component = Some quantity_text ->
  quantity_text <> EmptyString ->
  unparseable quantity_text = true ->
  (Thickness.parse quantity_text = inl IndexError
   \/ Thickness.parse quantity_text = inl ValueError)
  /\ Thickness.of_component component = PyFloat.f0_01
  /\ wp (create output_path) w
       (fun f _ =>
          forall k,
            flat_map components (bauteil_elements w) !! k = Some component ->
            Ifc.layer_thicknesses f !! k = Some (VFloat PyFloat.f0_01))
       (fun _ _ => rejected accepts).
Proof.
  intros Hq Hne Hu.
  assert (Hc : Thickness.of_component component = PyFloat.f0_01).
  { unfold Thickness.of_component. rewrite Hq. simpl get.
    apply unparseable_default; assumption. }
  split; [apply unparseable_raises; exact Hu|].
  split; [exact Hc|].
  eapply wp_mono; [apply created_layer_thicknesses | | auto].
  intros f w' Hl k Hk. cbn beta in Hl. rewrite Hl.
  change (map ?g ?l) with (g <$> l). rewrite list_lookup_fmap, Hk.
  simpl. rewrite Hc. reflexivity.
Qed.


(** C4. An element without components leaves nothing in the library:
    the creator does the same on the list without such elements; and
    the written library holds one [IfcMaterialLayerSet] and one
    [IfcWallType] for each element that has a component. *)
Theorem one_layer_set_per_element (output_path : string) (w : world) :
  wp (create output_path) w
     (fun f w' =>
        Ifc.count "IfcMaterialLayerSet" f
        = List.length (List.filter has_components (bauteil_elements w))
        /\ Ifc.count "IfcWallType" f
           = List.length (List.filter has_components (bauteil_elements w))
        /\ disk w' !! output_path = Some f)
     (fun _ _ => rejected accepts)
  /\ (let r := create output_path w in
      let r' :=
        create output_path
          (with_bauteil_elements
             (List.filter has_components (bauteil_elements w)) w) in
      fst r' = fst r
      /\ ifc_file (snd r') = ifc_file (snd r)
      /\ disk (snd r') = disk (snd r)).
Proof.
  split.
  - pose proof (created_counts output_path w "IfcMaterialLayerSet" (or_introl eq_refl)) as H1.
    pose proof (created_counts output_path w "IfcWallType" (or_intror eq_refl)) as H2.
    pose proof (create_ifc_library_spec accepts compressed_uuid4 output_path w) as H3.
    unfold wp in *. destruct (create output_path w) as [[f|e] w']; [|exact H1].
    destruct H3 as (_ & _ & Hd & _). rewrite Hd, lookup_insert_eq. auto.
  - cbv zeta. rewrite create_on_list, create_from_read.
    rewrite (create_from_ext accepts compressed_uuid4 output_path
               (List.filter has_components (bauteil_elements w))
               (bauteil_elements w)).
    + destruct (create_from _ _ _ _ w) as [r w']. simpl. auto.
    + intros oh lib w0. apply for_each_filter.
      intros e w1 He. apply emit_element_skip. exact He.
Qed.

(** C9. Both functions write once, after everything else: when
    [create_ifc_library_from_bauteil_elements] raises, the disk is as it
    was, and when it returns, the file at [output_path] is the file it
    built; [attach_library_to_project] never raises, leaves the disk as
    it was when it returns [None] (an exception was caught), and
    otherwise either returned early without writing or wrote the
    project file it built. *)
Theorem write_after_construction (w : world)
    (output_path ifc_project_path ifc_library_path : string) :
  wp (create output_path) w
     (fun f w' => f = ifc_file w' /\ disk w' = <[output_path := f]> (disk w))
     (fun _ w' => disk w' = disk w)
  /\ wp (attach_library_to_project accepts compressed_uuid4
           ifc_project_path ifc_library_path) w
       (fun r w' =>
          match r with
          | None => disk w' = disk w
          | Some f =>
              f = ifc_file w'
              /\ (disk w' = disk w \/ disk w' = <[ifc_project_path := f]> (disk w))
          end)
       (fun _ _ => False).
Proof.
  split.
  - eapply wp_mono; [apply create_ifc_library_spec | |].
    + intros f w' (Hf & _ & Hd & _). auto.
    + intros e w' (_ & _ & Hd & _). exact Hd.
  - unfold attach_library_to_project, wp, try_except.
    match goal with
    | |- context [match ?body w with _ => _ end] =>
        assert (Hb : wp body w
                       (fun r w' =>
                          match r with
                          | None => disk w' = disk w
                          | Some f =>
                              f = ifc_file w'
                              /\ (disk w' = disk w
                                  \/ disk w' = <[ifc_project_path := f]> (disk w))
                          end)
                       (fun _ w' => disk w' = disk w));
        [|unfold wp in Hb; destruct (body w) as [[r|e] w']; exact Hb]
    end.
    apply wp_bind.
    eapply wp_mono; [apply framed_open_project | | intros e w' (_ & Hd & _); exact Hd].
    intros [] w1 (_ & Hd1 & _). apply wp_bind.
    eapply wp_mono; [apply framed_open_file | |
                      intros e w' (_ & Hd & _); cbn beta; congruence].
    intros library_file w2 (_ & Hd2 & _).
    destruct (Ifc.by_type library_file "IfcLibraryInformation") as [|library_info ?].
    { unfold wp. simpl. split; [reflexivity | left; congruence]. }
    apply wp_bind. unfold current_file at 1, wp at 1.
    destruct (Ifc.by_type (ifc_file w2) "IfcProject") as [|project ?].
    { unfold wp. simpl. split; [reflexivity | left; congruence]. }
    apply wp_bind.
    eapply wp_mono;
      [apply (framed_copy_library accepts compressed_uuid4) | |
        intros e w' (_ & Hd & _); cbn beta; congruence].
    intros [] w3 (_ & Hd3 & _). unfold wp. simpl.
    split; [reflexivity | right; congruence].
Qed.

(** C10. The creator leaves the list of elements as it found it, every
    element and every component of it, whether it returns or raises. *)
Theorem elements_unchanged (output_path : string) (w : world) :
  wp (create output_path) w
     (fun _ w' => bauteil_elements w' = bauteil_elements w)
     (fun _ w' => bauteil_elements w' = bauteil_elements w).
Proof.
  eapply wp_mono; [apply create_ifc_library_spec | |].
  - intros f w' (_ & _ & _ & Hb). exact Hb.
  - intros e w' (_ & Hb & _). exact Hb.
Qed.

End CreatorTheorems.

(** * The XML load operator *)

Section OperatorTheorems.

Variable dependencies_installed : bool.
Variable extractor :
  gmap string string -> string -> string ->
  string + (list BauteilElement * LayerSummary).
Variable pickle_b64 : list BauteilElement -> option string.
Variable str_of_summary : LayerSummary -> string.

(** C7. Without a stored HTML path, or with a stored path that no longer
    exists, the XML load reports an error and is cancelled, and the scene
    is as it was: no XML path, match flag, layer data or serialized
    element list is stored. *)
Theorem load_project_needs_html (files : gmap string string)
    (filepath : string) (b : blender) :
  get (scene b !! "elca_html_path") EmptyString = EmptyString
  \/ files !! get (scene b !! "elca_html_path") EmptyString = None ->
  let r :=
    load_project_execute dependencies_installed extractor pickle_b64
      str_of_summary files filepath b in
  fst r = CANCELLED
  /\ scene (snd r) = scene b
  /\ exists msg, reports (snd r) = reports b ++ [(ERROR, msg)].
Proof.
  intros Hpre. cbv zeta. unfold load_project_execute.
  destruct dependencies_installed; cbn [negb].
  - assert (Hc : PyStr.is_empty (get (scene b !! "elca_html_path") EmptyString)
                 || negb (bool_decide
                            (is_Some (files !! get (scene b !! "elca_html_path") EmptyString)))
                 = true).
    { destruct Hpre as [-> | ->]; [reflexivity|].
      rewrite bool_decide_eq_false_2 by (intros [x Hx]; discriminate).
      apply orb_true_r. }
    rewrite Hc. simpl. eauto.
  - simpl. eauto.
Qed.

End OperatorTheorems.

Lemma load_project_needs_html_witness :
  (get (scene {| scene := ∅; reports := [] |} !! "elca_html_path") EmptyString = EmptyString
   \/ (∅ : gmap string string)
        !! get (scene {| scene := ∅; reports := [] |} !! "elca_html_path") EmptyString = None)
  /\ fst (load_project_execute true (fun _ _ _ => inl "unused") (fun _ => None)
            (fun _ => EmptyString) ∅ "project.xml" {| scene := ∅; reports := [] |})
     = CANCELLED.
Proof.
  assert (H : get (scene {| scene := ∅; reports := [] |} !! "elca_html_path") EmptyString = EmptyString
              \/ (∅ : gmap string string)
                   !! get (scene {| scene := ∅; reports := [] |} !! "elca_html_path") EmptyString
                 = None)
    by (left; reflexivity).
  split; [exact H|].
  apply (load_project_needs_html true (fun _ _ _ => inl "unused") (fun _ => None)
           (fun _ => EmptyString) ∅ "project.xml" {| scene := ∅; reports := [] |} H).
Defined.

(** * Matching twice *)

Section MatcherFacts.

Variable find_match :
  list (string * string * list (option string)) ->
  LayerThicknessRecord -> option (nat * nat).











End MatcherFacts.

Section LoadProjectTheorems.

Variable parse_html : string -> string + list BauteilElement.
Variable parse_xml : string -> string + XmlExport.
Variable find_match :
  list (string * string * list (option string)) ->
  LayerThicknessRecord -> option (nat * nat).
Variable pickle_b64 : list BauteilElement -> option string.
Variable str_of_summary : LayerSummary -> string.

(** C6. With an XML export that holds no layer entry, the extractor hands
    back the elements of the HTML report as they were read, with
    [total_layers = 0]; the operator reports a warning and no error,
    records that nothing was matched, and finishes. *)
Theorem no_layers_is_a_warning (files : gmap string string)
    (filepath html_path html xml : string) (b : blender)
    (elements : list BauteilElement) (x : XmlExport) :
  scene b !! "elca_html_path" = Some html_path ->
  html_path <> EmptyString ->
  files !! html_path = Some html ->
  parse_html html = inr elements ->
  files !! filepath = Some xml ->
  parse_xml xml = inr x ->
  xml_layers x = [] ->
  let extractor := extract parse_html parse_xml find_match in
  (exists summary,
      extractor files html_path filepath = inr (elements, summary)
      /\ total_layers summary = 0%nat)
  /\ let r :=
       load_project_execute true extractor pickle_b64 str_of_summary
         files filepath b in
     fst r = FINISHED
     /\ reports (snd r)
        = reports b ++ [(WARNING, "No layer thickness data found in XML file")]
     /\ scene (snd r) !! "elca_matched_data" = Some "false".
Proof.
  intros Hscene Hne Hhtml Hparse Hxml Hparse' Hlayers. cbv zeta.
  assert (Hex : extract parse_html parse_xml find_match files html_path filepath
                = inr (elements, layer_summary find_match x elements)).
  { unfold extract. rewrite Hhtml, Hparse, Hxml, Hparse', Hlayers. reflexivity. }
  assert (Ht : total_layers (layer_summary find_match x elements) = 0%nat)
    by (unfold layer_summary; rewrite Hlayers; reflexivity).
  split; [eauto|].
  unfold load_project_execute. cbn [negb]. rewrite Hscene. cbn [get].
  destruct html_path as [|c s]; [contradiction Hne; reflexivity|].
  cbn [PyStr.is_empty orb].
  rewrite bool_decide_eq_true_2 by (rewrite Hhtml; eauto). cbn [negb].
  rewrite Hex, Ht. cbn [Nat.ltb Nat.leb].
  destruct (pickle_b64 elements); cbn [fst snd set_scene report scene reports];
    (split; [reflexivity|]); (split; [reflexivity|]);
    rewrite lookup_insert_ne by discriminate; apply lookup_insert_eq.
Qed.


End LoadProjectTheorems.

(** * The functions on the small project *)

(** The creator on the small project: two layer sets and wall types for
    three elements, and the layers 0.2, 0.01 and 0.0. *)
Example demo_library :
  match create_ifc_library_from_bauteil_elements accept_all demo_guid
          "library.ifc" demo_world with
  | (Returns f, w') =>
      Ifc.count "IfcMaterialLayerSet" f = 2%nat
      /\ Ifc.count "IfcWallType" f = 2%nat
      /\ Ifc.layer_thicknesses f
         = [VFloat (S754_finite false 7205759403792794 (-55));
            VFloat PyFloat.f0_01;
            VFloat PyFloat.f0_0]
      /\ disk w' !! "library.ifc" = Some f
  | (Raises _, _) => False
  end.
Proof. vm_compute. repeat split. Qed.

(** The thicknesses a match attached do not reach the library. *)
Example demo_matched_library :
  fst (create_ifc_library_from_bauteil_elements accept_all demo_guid
         "library.ifc" (with_bauteil_elements demo_matched_elements demo_world))
  = fst (create_ifc_library_from_bauteil_elements accept_all demo_guid
           "library.ifc" demo_world).
Proof. vm_compute. reflexivity. Qed.

(** Attaching the library to a project file: the project on disk gets
    the two wall types; without a library file nothing is written. *)
Example demo_attach :
  let w :=
    snd (create_ifc_library_from_bauteil_elements accept_all demo_guid
           "library.ifc" (with_disk (<["house.ifc" := demo_project]> ∅) demo_world)) in
  match attach_library_to_project accept_all demo_guid "house.ifc" "library.ifc" w with
  | (Returns (Some f), w') =>
      Ifc.count "IfcWallType" f = 2%nat /\ disk w' !! "house.ifc" = Some f
  | _ => False
  end
  /\ match attach_library_to_project accept_all demo_guid "house.ifc" "missing.ifc" w with
     | (Returns None, w') => disk w' !! "house.ifc" = Some demo_project
     | _ => False
     end.
Proof. vm_compute. repeat split. Qed.

(** A library that refuses wall types: the creator raises and the disk
    stays empty. *)
Example demo_refused :
  match create_ifc_library_from_bauteil_elements
          (fun e => negb (String.eqb (is_a e) "IfcWallType")) demo_guid
          "library.ifc" demo_world with
  | (Raises RuntimeError, w') => disk w' !! "library.ifc" = None
  | _ => False
  end.
Proof. vm_compute. reflexivity. Qed.

(** The XML load on an export without layers: a warning, and the run is
    finished. *)
Example demo_load_project :
  let r :=
    load_project_execute true
      (extract demo_parse_html demo_parse_xml demo_find_match)
      (fun _ => Some "gASV") (fun _ => "{}")
      demo_files "project.xml" demo_blender in
  fst r = FINISHED
  /\ reports (snd r) = [(WARNING, "No layer thickness data found in XML file")]
  /\ scene (snd r) !! "elca_xml_path" = Some "project.xml"
  /\ scene (snd r) !! "elca_bauteil_elements" = Some "gASV".
Proof. vm_compute. repeat split. Qed.

Lemma unparseable_quantity_default_witness :
  c_quantity demo_putz = Some "ca. 15 mm"
  /\ "ca. 15 mm" <> EmptyString
  /\ unparseable "ca. 15 mm" = true
  /\ Thickness.of_component demo_putz = PyFloat.f0_01.
Proof.
  assert (H1 : c_quantity demo_putz = Some "ca. 15 mm") by reflexivity.
  assert (H2 : "ca. 15 mm" <> EmptyString) by discriminate.
  assert (H3 : unparseable "ca. 15 mm" = true) by reflexivity.
  split; [exact H1|]. split; [exact H2|]. split; [exact H3|].
  exact (proj1 (proj2 (unparseable_quantity_default accept_all demo_guid demo_putz
                         "ca. 15 mm" "library.ifc" demo_world H1 H2 H3))).
Defined.

Lemma no_layers_is_a_warning_witness :
  scene demo_blender !! "elca_html_path" = Some "report.html"
  /\ "report.html" <> EmptyString
  /\ demo_files !! "report.html" = Some "<html/>"
  /\ demo_parse_html "<html/>" = inr demo_elements
  /\ demo_files !! "project.xml" = Some "<xml/>"
  /\ demo_parse_xml "<xml/>" = inr {| xml_elements := ["331"]; xml_layers := [] |}
  /\ xml_layers {| xml_elements := ["331"]; xml_layers := [] |} = []
  /\ fst (load_project_execute true
            (extract demo_parse_html demo_parse_xml demo_find_match)
            (fun _ => Some "gASV") (fun _ => "{}")
            demo_files "project.xml" demo_blender)
     = FINISHED.
Proof.
  assert (H1 : scene demo_blender !! "elca_html_path" = Some "report.html")
    by (vm_compute; reflexivity).
  assert (H2 : "report.html" <> EmptyString) by discriminate.
  assert (H3 : demo_files !! "report.html" = Some "<html/>")
    by (vm_compute; reflexivity).
  assert (H4 : demo_parse_html "<html/>" = inr demo_elements) by reflexivity.
  assert (H5 : demo_files !! "project.xml" = Some "<xml/>")
    by (vm_compute; reflexivity).
  assert (H6 : demo_parse_xml "<xml/>"
               = inr {| xml_elements := ["331"]; xml_layers := [] |})
    by reflexivity.
  assert (H7 : xml_layers {| xml_elements := ["331"]; xml_layers := [] |} = [])
    by reflexivity.
  repeat (split; [assumption|]).
  exact (proj1 (proj2 (no_layers_is_a_warning demo_parse_html demo_parse_xml
                         demo_find_match (fun _ => Some "gASV") (fun _ => "{}")
                         demo_files "project.xml" "report.html" "<html/>" "<xml/>"
                         demo_blender demo_elements _ H1 H2 H3 H4 H5 H6 H7))).
Defined.

(** * Facts on the other operators *)

Lemma bool_decide_elem_of_cons (k p : string) (props : list string) :
  bool_decide (k ∈ p :: props) = bool_decide (k = p) || bool_decide (k ∈ props).
Proof. rewrite <- bool_decide_or. apply bool_decide_ext, elem_of_cons. Qed.

Lemma clear_properties_lookup props sc n k :
  fst (clear_properties props sc n) !! k
  = if bool_decide (k ∈ props) then None else sc !! k.
Proof.
  revert sc n. induction props as [|p props IH]; intros sc n; [reflexivity|].
  cbn [clear_properties]. rewrite bool_decide_elem_of_cons.
  destruct (sc !! p) as [v|] eqn:Hp; rewrite IH;
    destruct (bool_decide (k ∈ props)); rewrite ?orb_true_r; try reflexivity;
    rewrite orb_false_r; case_bool_decide as Hk; subst.
  - apply lookup_delete_eq.
  - apply lookup_delete_ne. congruence.
  - exact Hp.
  - reflexivity.
Qed.

Lemma clear_properties_count props sc n :
  NoDup props ->
  snd (clear_properties props sc n)
  = (n + List.length (List.filter (fun p => bool_decide (is_Some (sc !! p))) props))%nat.
Proof.
  intros Hnd. revert sc n. induction Hnd as [|p props Hp Hnd IH]; intros sc n; simpl.
  - lia.
  - assert (Hsame : forall sc' : gmap string string,
               (forall q, q ∈ props -> sc' !! q = sc !! q) ->
               List.filter (fun q => bool_decide (is_Some (sc' !! q))) props
               = List.filter (fun q => bool_decide (is_Some (sc !! q))) props).
    { intros sc' Hsc'. clear IH Hp Hnd.
      induction props as [|q props IHp]; simpl; [reflexivity|].
      rewrite (Hsc' q) by left. rewrite IHp; [reflexivity|].
      intros r Hr. apply Hsc'. right. exact Hr. }
    destruct (sc !! p) as [v|] eqn:Hsp.
    + rewrite IH. rewrite (bool_decide_eq_true_2 (is_Some (Some v))) by eauto.
      simpl. rewrite (Hsame (delete p sc)); [lia|].
      intros q Hq. apply lookup_delete_ne. intros ->. contradiction.
    + rewrite IH. rewrite (bool_decide_eq_false_2 (is_Some None)) by (intros [x Hx]; discriminate).
      reflexivity.
Qed.

Lemma NoDup_elca_properties : NoDup elca_properties.
Proof. apply NoDup_ListNoDup. repeat constructor; simpl; intuition discriminate. Qed.

Lemma reset_scene_lookup screen b k :
  scene (snd (fst (reset_data_execute screen b))) !! k
  = if bool_decide (k ∈ elca_properties) then None else scene b !! k.
Proof.
  unfold reset_data_execute.
  pose proof (clear_properties_lookup elca_properties (scene b) 0 k) as Hl.
  destruct (clear_properties elca_properties (scene b) 0) as [sc n].
  destruct screen; exact Hl.
Qed.

Lemma reset_gone screen b k :
  k ∈ elca_properties -> scene (snd (fst (reset_data_execute screen b))) !! k = None.
Proof.
  intros Hk. rewrite reset_scene_lookup, bool_decide_eq_true_2 by exact Hk.
  reflexivity.
Qed.

(** X1. Reset: whatever the outcome, the seven eLCA properties are gone from
    the scene and every other property is as before; the message tells
    how many of the seven were there; the outcome is [FINISHED] exactly
    when Blender has a screen. *)
Theorem reset_clears_scene (screen : option (list area)) (b : blender) :
  let r := reset_data_execute screen b in
  let b' := snd (fst r) in
  (forall k, k ∈ elca_properties -> scene b' !! k = None)
  /\ (forall k, k ∉ elca_properties -> scene b' !! k = scene b !! k)
  /\ (exists rest,
         reports b'
         = reports b
           ++ (INFO,
               "Reset eLCA data - cleared "
               +:+ pretty
                     (List.length
                        (List.filter (fun p => bool_decide (is_Some (scene b !! p)))
                           elca_properties))
               +:+ " stored properties") :: rest)
  /\ (fst (fst r) = FINISHED <-> screen <> None).
Proof.
  cbv zeta. unfold reset_data_execute.
  pose proof (clear_properties_lookup elca_properties (scene b) 0) as Hl.
  pose proof (clear_properties_count elca_properties (scene b) 0 NoDup_elca_properties) as Hc.
  destruct (clear_properties elca_properties (scene b) 0) as [sc n].
  simpl in Hl, Hc. subst n.
  assert (H1 : forall k, k ∈ elca_properties -> sc !! k = None).
  { intros k Hk. rewrite Hl, bool_decide_eq_true_2 by exact Hk. reflexivity. }
  assert (H2 : forall k, k ∉ elca_properties -> sc !! k = scene b !! k).
  { intros k Hk. rewrite Hl, bool_decide_eq_false_2 by exact Hk. reflexivity. }
  destruct screen as [areas|]; cbn [fst snd scene reports report];
    (split; [exact H1|]); (split; [exact H2|]); split.
  - exists []. reflexivity.
  - split; [discriminate | reflexivity].
  - eexists. rewrite <- app_assoc. reflexivity.
  - split; [discriminate | intros H; contradiction H; reflexivity].
Qed.

Lemma clear_properties_absent props (sc : gmap string string) n :
  (forall k, k ∈ props -> sc !! k = None) ->
  clear_properties props sc n = (sc, n).
Proof.
  revert sc n. induction props as [|p props IH]; intros sc n Habs; [reflexivity|].
  cbn [clear_properties]. rewrite (Habs p) by left.
  apply IH. intros k Hk. apply Habs. right. exact Hk.
Qed.

(** X2. Reset twice: the second reset finds nothing to clear and leaves the
    scene as the first one left it. *)
Theorem reset_twice (screen screen' : option (list area)) (b : blender) :
  let b1 := snd (fst (reset_data_execute screen b)) in
  let b2 := snd (fst (reset_data_execute screen' b1)) in
  scene b2 = scene b1
  /\ exists rest,
      reports b2
      = reports b1
        ++ (INFO, "Reset eLCA data - cleared 0 stored properties") :: rest.
Proof.
  cbv zeta.
  pose proof (reset_gone screen b) as Hgone.
  generalize dependent (snd (fst (reset_data_execute screen b))).
  intros b1 Hgone. unfold reset_data_execute.
  rewrite (clear_properties_absent _ _ _ Hgone).
  destruct screen' as [areas|]; cbn [fst snd scene reports report].
  - split; [reflexivity|]. exists []. reflexivity.
  - split; [reflexivity|]. eexists. rewrite <- app_assoc. reflexivity.
Qed.

Section OperatorSequences.

Variable extractor :
  gmap string string -> string -> string ->
  string + (list BauteilElement * LayerSummary).
Variable html_extractor :
  gmap string string -> string -> string + list BauteilElement.
Variable pickle_b64 : list BauteilElement -> option string.
Variable str_of_summary : LayerSummary -> string.
Variable accepts : Ifc.entity -> bool.
Variable compressed_uuid4 : nat -> string.
Variable unpickle_b64 : string -> string + list BauteilElement.
Variable with_suffix_ifc : string -> string + string.
Variable exn_message : exn -> string.
Variable attach_to_project : bool.
Variable bim_ifc_file : option string.

Local Notation "'load_results'" := (load_results_execute true html_extractor).
Local Notation "'load_project'" :=
  (load_project_execute true extractor pickle_b64 str_of_summary).
Local Notation "'create_library'" :=
  (create_ifc_library_execute true accepts compressed_uuid4 unpickle_b64
     with_suffix_ifc exn_message attach_to_project bim_ifc_file).


(** X4. The HTML load writes two properties and nothing else: when it is
    cancelled the scene is as before, and in every case the XML path, the
    match flag, the layer data and the serialized elements of an earlier
    XML load stay as they were; it finishes exactly when the extractor
    returns. *)
Theorem load_results_scene (files : gmap string string) (filepath : string)
    (b : blender) :
  let r := load_results files filepath b in
  (fst r = CANCELLED -> scene (snd r) = scene b)
  /\ (fst r = FINISHED ->
      scene (snd r) !! "elca_html_path" = Some filepath
      /\ exists elements,
          html_extractor files filepath = inr elements
          /\ scene (snd r) !! "elca_html_data" = Some (pretty (List.length elements)))
  /\ (forall k, k <> "elca_html_path" -> k <> "elca_html_data" ->
      scene (snd r) !! k = scene b !! k).
Proof.
  cbv zeta. unfold load_results_execute. cbn [negb].
  destruct (html_extractor files filepath) as [err|elements];
    cbn [fst snd scene report set_scene].
  - split; [reflexivity|]. split; [discriminate | reflexivity].
  - split; [discriminate|]. split.
    + intros _. split.
      * rewrite lookup_insert_ne by discriminate. apply lookup_insert_eq.
      * exists elements. split; [reflexivity | apply lookup_insert_eq].
    + intros k H1 H2. rewrite !lookup_insert_ne by congruence. reflexivity.
Qed.

(** X5. After an HTML load that finished on a file that exists, the XML load
    is not refused: it hands the stored HTML path to the extractor and
    finishes exactly when the extractor returns. *)
Theorem load_results_then_load_project (files : gmap string string)
    (html_path xml_path : string) (b : blender) :
  html_path <> EmptyString ->
  is_Some (files !! html_path) ->
  fst (load_results files html_path b) = FINISHED ->
  let b1 := snd (load_results files html_path b) in
  let r := load_project files xml_path b1 in
  (fst r = FINISHED <-> exists x, extractor files html_path xml_path = inr x)
  /\ scene (snd r) !! "elca_xml_path" = Some xml_path
  /\ scene (snd r) !! "elca_html_path" = Some html_path.
Proof.
  intros Hne Hex Hfin. cbv zeta.
  assert (Hpath : scene (snd (load_results files html_path b)) !! "elca_html_path"
                  = Some html_path).
  { revert Hfin. unfold load_results_execute. cbn [negb].
    destruct (html_extractor files html_path); [discriminate|]. intros _.
    cbn [snd scene report set_scene].
    rewrite lookup_insert_ne by discriminate. apply lookup_insert_eq. }
  generalize dependent (snd (load_results files html_path b)). intros b1 Hpath.
  unfold load_project_execute. cbn [negb]. rewrite Hpath. cbn [get].
  destruct html_path as [|c s]; [contradiction Hne; reflexivity|].
  cbn [PyStr.is_empty orb]. rewrite bool_decide_eq_true_2 by exact Hex.
  cbn [negb].
  destruct (extractor files (String c s) xml_path) as [err|[els summary]].
  - cbn [fst snd scene report set_scene]. split; [|split].
    + split; [discriminate | intros [x Hx]; discriminate].
    + apply lookup_insert_eq.
    + rewrite lookup_insert_ne by discriminate. exact Hpath.
  - split; [split; [eauto | reflexivity]|].
    destruct (0 <? total_layers summary)%nat, (pickle_b64 els);
      cbn [fst snd scene report set_scene];
      (split;
       [repeat (rewrite lookup_insert_ne by discriminate); apply lookup_insert_eq
       |repeat (rewrite lookup_insert_ne by discriminate); exact Hpath]).
Qed.

(** X6. The XML load never changes what the HTML load stored; when the
    extractor raises, the load is cancelled with one error and the XML
    path is the only property it has written. *)
Theorem load_project_scene (files : gmap string string) (filepath : string)
    (b : blender) :
  let r := load_project files filepath b in
  scene (snd r) !! "elca_html_path" = scene b !! "elca_html_path"
  /\ scene (snd r) !! "elca_html_data" = scene b !! "elca_html_data"
  /\ (forall err,
        get (scene b !! "elca_html_path") EmptyString <> EmptyString ->
        is_Some (files !! get (scene b !! "elca_html_path") EmptyString) ->
        extractor files (get (scene b !! "elca_html_path") EmptyString) filepath
        = inl err ->
        r = (CANCELLED,
             report ERROR ("Error processing eLCA project: " +:+ err)
               (set_scene "elca_xml_path" filepath b))).
Proof.
  cbv zeta. unfold load_project_execute. cbn [negb].
  set (html_path := get (scene b !! "elca_html_path") EmptyString).
  destruct (PyStr.is_empty html_path
            || negb (bool_decide (is_Some (files !! html_path)))) eqn:Hpre.
  - cbn [fst snd scene report]. split; [reflexivity|]. split; [reflexivity|].
    intros err Hne Hex _. exfalso.
    destruct html_path; [contradiction Hne; reflexivity|].
    cbn [PyStr.is_empty orb] in Hpre.
    rewrite bool_decide_eq_true_2 in Hpre by exact Hex. discriminate.
  - destruct (extractor files html_path filepath) as [err|[els summary]].
    + cbn [fst snd scene report set_scene].
      rewrite !lookup_insert_ne by discriminate.
      split; [reflexivity|]. split; [reflexivity|].
      intros err' _ _ [= <-]. reflexivity.
    + destruct (0 <? total_layers summary)%nat, (pickle_b64 els);
        cbn [fst snd scene report set_scene];
        rewrite !lookup_insert_ne by discriminate;
        (split; [reflexivity|]); (split; [reflexivity|]); discriminate.
Qed.

(** X7. When the XML load finishes, the match flag says whether the summary
    counted a layer, the layer data is written only in that case, and the
    serialized elements are stored, as the empty string when pickling
    failed. *)
Theorem load_project_match_flag (files : gmap string string) (filepath : string)
    (b : blender) :
  let r := load_project files filepath b in
  fst r = FINISHED ->
  exists elements summary,
    extractor files (get (scene b !! "elca_html_path") EmptyString) filepath
    = inr (elements, summary)
    /\ scene (snd r) !! "elca_matched_data"
       = Some (if (0 <? total_layers summary)%nat then "true" else "false")
    /\ scene (snd r) !! "elca_layer_data"
       = (if (0 <? total_layers summary)%nat
          then Some (str_of_summary summary)
          else scene b !! "elca_layer_data")
    /\ scene (snd r) !! "elca_bauteil_elements"
       = Some (get (pickle_b64 elements) EmptyString).
Proof.
  cbv zeta. unfold load_project_execute. cbn [negb].
  set (html_path := get (scene b !! "elca_html_path") EmptyString).
  destruct (PyStr.is_empty html_path
            || negb (bool_decide (is_Some (files !! html_path)))); [discriminate|].
  destruct (extractor files html_path filepath) as [err|[els summary]];
    [discriminate|].
  intros _. exists els, summary. split; [reflexivity|].
  destruct (0 <? total_layers summary)%nat, (pickle_b64 els);
    cbn [fst snd scene report set_scene get];
    rewrite ?lookup_insert_eq;
    repeat (rewrite lookup_insert_ne by discriminate; rewrite ?lookup_insert_eq);
    auto.
Qed.

End OperatorSequences.

(** * Facts on [attach_library_to_project] *)

Section AttachFacts.

Variable accepts : Ifc.entity -> bool.
Variable compressed_uuid4 : nat -> string.

Local Notation "'attach'" := (attach_library_to_project accepts compressed_uuid4).

(** The body of the [try] of [attach_library_to_project]. *)
Lemma attach_unfold p l w :
  attach p l w
  = match disk w !! p with
    | None => (Returns None, w)
    | Some f0 =>
        match disk w !! l with
        | None => (Returns None, with_ifc_file f0 w)
        | Some library_file =>
            match Ifc.by_type library_file "IfcLibraryInformation" with
            | [] => (Returns (Some f0), with_ifc_file f0 w)
            | library_info :: _ =>
                match Ifc.by_type f0 "IfcProject" with
                | [] => (Returns (Some f0), with_ifc_file f0 w)
                | _ :: _ =>
                    match copy_library accepts compressed_uuid4 library_file
                            library_info (with_ifc_file f0 w) with
                    | (Returns _, w') =>
                        (Returns (Some (ifc_file w')),
                         with_disk (<[p := ifc_file w']> (disk w')) w')
                    | (Raises _, w') => (Returns None, w')
                    end
                end
            end
        end
    end.
Proof.
  unfold attach_library_to_project, try_except, mbind, M_bind, open_project,
    open_file.
  destruct (disk w !! p) as [f0|]; [|reflexivity].
  cbn [disk with_ifc_file].
  destruct (disk w !! l) as [library_file|]; [|reflexivity].
  destruct (Ifc.by_type library_file "IfcLibraryInformation") as [|library_info ?];
    [reflexivity|].
  cbn [current_file ifc_file with_ifc_file].
  destruct (Ifc.by_type f0 "IfcProject") as [|project ?]; [reflexivity|].
  destruct (copy_library accepts compressed_uuid4 library_file library_info
              (with_ifc_file f0 w)) as [[[]|e] w']; reflexivity.
Qed.

(** The function always returns; it leaves the disk as it was or writes
    the file it returns at the project path, and a missing project file
    gives [None]. *)
Lemma attach_outcome p l w :
  exists r w',
    attach p l w = (Returns r, w')
    /\ (disk w' = disk w \/ exists f, r = Some f /\ disk w' = <[p := f]> (disk w))
    /\ (disk w !! p = None -> r = None /\ disk w' = disk w).
Proof.
  rewrite attach_unfold.
  destruct (disk w !! p) as [f0|] eqn:Hp; [|eauto 8].
  destruct (disk w !! l) as [library_file|];
    [|eexists _, _; repeat split; eauto; discriminate].
  destruct (Ifc.by_type library_file "IfcLibraryInformation") as [|library_info ?];
    [eexists _, _; repeat split; eauto; discriminate|].
  destruct (Ifc.by_type f0 "IfcProject") as [|project ?];
    [eexists _, _; repeat split; eauto; discriminate|].
  pose proof (framed_copy_library accepts compressed_uuid4 library_file library_info
                (with_ifc_file f0 w)) as Hfr.
  unfold wp in Hfr.
  destruct (copy_library accepts compressed_uuid4 library_file library_info
              (with_ifc_file f0 w)) as [[[]|e] w'];
    destruct Hfr as (_ & Hd & _); cbn [disk with_ifc_file] in Hd;
    eexists _, _; (split; [reflexivity|]); (split; [|discriminate]).
  - right. eexists. split; [reflexivity|]. cbn [disk with_disk]. rewrite Hd.
    reflexivity.
  - left. exact Hd.
Qed.

(** X17. A project file or a library file that is missing: the function
    returns [None] and writes nothing. *)
Theorem attach_missing_file (p l : string) (w : world) :
  disk w !! p = None \/ disk w !! l = None ->
  exists w', attach p l w = (Returns None, w') /\ disk w' = disk w.
Proof.
  intros Hmiss. rewrite attach_unfold.
  destruct (disk w !! p) as [f0|]; [|eauto].
  destruct Hmiss as [Hmiss|Hmiss]; [discriminate|]. rewrite Hmiss. eauto.
Qed.

(** X18. A library file without library information, or a project file
    without a project: the function returns the project file as it was
    opened and writes nothing. *)
Theorem attach_nothing_to_attach (p l : string) (w : world)
    (project_file library_file : Ifc.file) :
  disk w !! p = Some project_file ->
  disk w !! l = Some library_file ->
  Ifc.count "IfcLibraryInformation" library_file = 0%nat
  \/ Ifc.count "IfcProject" project_file = 0%nat ->
  exists w',
    attach p l w = (Returns (Some project_file), w') /\ disk w' = disk w.
Proof.
  intros Hp Hl Hnone. rewrite attach_unfold, Hp, Hl.
  unfold Ifc.count in Hnone.
  destruct (Ifc.by_type library_file "IfcLibraryInformation") as [|library_info ?];
    [eauto|].
  destruct (Ifc.by_type project_file "IfcProject") as [|project ?]; [eauto|].
  destruct Hnone; discriminate.
Qed.

End AttachFacts.

(** * Facts on [ELCA_OT_CreateIFCLibrary.execute] *)


Section CreateLibraryFacts.

Variable dependencies_installed : bool.
Variable accepts : Ifc.entity -> bool.
Variable compressed_uuid4 : nat -> string.
Variable unpickle_b64 : string -> string + list BauteilElement.
Variable with_suffix_ifc : string -> string + string.
Variable exn_message : exn -> string.
Variable attach_to_project : bool.
Variable bim_ifc_file : option string.

Local Notation "'create_library'" :=
  (create_ifc_library_execute dependencies_installed accepts compressed_uuid4
     unpickle_b64 with_suffix_ifc exn_message attach_to_project bim_ifc_file).

Local Notation "'attach_step''" :=
  (attach_step accepts compressed_uuid4 exn_message bim_ifc_file).



End CreateLibraryFacts.

Section LoadThenCreate.

Variable extractor :
  gmap string string -> string -> string ->
  string + (list BauteilElement * LayerSummary).
Variable pickle_b64 : list BauteilElement -> option string.
Variable str_of_summary : LayerSummary -> string.
Variable accepts : Ifc.entity -> bool.
Variable compressed_uuid4 : nat -> string.
Variable unpickle_b64 : string -> string + list BauteilElement.
Variable with_suffix_ifc : string -> string + string.
Variable exn_message : exn -> string.

Local Notation "'load_project'" :=
  (load_project_execute true extractor pickle_b64 str_of_summary).

Local Notation "'create_library'" :=
  (create_ifc_library_execute true accepts compressed_uuid4 unpickle_b64
     with_suffix_ifc exn_message).

(** What the XML load leaves in the scene when the extractor returns. *)
Lemma load_project_returns files xml_path b html_path elements summary :
  scene b !! "elca_html_path" = Some html_path ->
  html_path <> EmptyString ->
  is_Some (files !! html_path) ->
  extractor files html_path xml_path = inr (elements, summary) ->
  exists b1,
    load_project files xml_path b = (FINISHED, b1)
    /\ scene b1 !! "elca_html_path" = Some html_path
    /\ scene b1 !! "elca_xml_path" = Some xml_path
    /\ scene b1 !! "elca_matched_data"
       = Some (if (0 <? total_layers summary)%nat then "true" else "false")
    /\ scene b1 !! "elca_bauteil_elements"
       = Some (get (pickle_b64 elements) EmptyString).
Proof.
  intros Hpath Hne Hex Hx.
  unfold load_project_execute. cbn [negb]. rewrite Hpath. cbn [get].
  destruct html_path as [|c s]; [contradiction Hne; reflexivity|].
  cbn [PyStr.is_empty orb]. rewrite bool_decide_eq_true_2 by exact Hex.
  cbn [negb]. rewrite Hx.
  eexists. split; [reflexivity|].
  destruct (0 <? total_layers summary)%nat, (pickle_b64 elements);
    cbn [fst snd scene report set_scene get];
    repeat split;
    repeat (rewrite lookup_insert_ne by discriminate);
    rewrite ?lookup_insert_eq; auto.
Qed.


(** X10. When pickling the extracted list fails, the XML load still finishes,
    and the operator that follows is cancelled with the request to
    reload the XML file; nothing is written. *)
Theorem pickle_failure_blocks_library (files : gmap string string)
    (html_path xml_path : string)
    (elements : list BauteilElement) (summary : LayerSummary)
    (attach_to_project : bool) (bim_ifc_file : option string)
    (b : blender) (w : world) :
  scene b !! "elca_html_path" = Some html_path ->
  html_path <> EmptyString ->
  is_Some (files !! html_path) ->
  xml_path <> EmptyString ->
  extractor files html_path xml_path = inr (elements, summary) ->
  pickle_b64 elements = None ->
  fst (load_project files xml_path b) = FINISHED
  /\ let b1 := snd (load_project files xml_path b) in
     create_library attach_to_project bim_ifc_file b1 w
     = (CANCELLED,
        report ERROR
          "No processed bauteil elements found. Please reload the XML file."
          (if (0 <? total_layers summary)%nat then b1
           else report WARNING
                  "Data matching may not be complete. Proceeding anyway..." b1),
        w).
Proof.
  intros Hpath Hne Hex Hxne Hx Hp. cbv zeta.
  destruct (load_project_returns files xml_path b html_path elements summary
              Hpath Hne Hex Hx) as (b1 & -> & Hh & Hxml & Hm & Hs).
  split; [reflexivity|].
  cbn [snd]. rewrite Hp in Hs. cbn [get] in Hs.
  unfold create_ifc_library_execute. cbn [negb].
  rewrite Hh, Hxml, Hm. cbn [get].
  destruct html_path as [|c0 s0]; [contradiction Hne; reflexivity|].
  destruct xml_path as [|c1 s1]; [contradiction Hxne; reflexivity|].
  cbn [PyStr.is_empty].
  destruct (0 <? total_layers summary)%nat.
  - change (String.eqb "true" "true") with true. cbv iota.
    rewrite Hs. reflexivity.
  - change (String.eqb "false" "true") with false. cbv iota.
    cbn [scene report]. rewrite Hs. reflexivity.
Qed.

(** X11. The outcome of the attachment is not looked at: with the option set
    and a project path, an operator that finishes reports the library as
    attached, also when the project file does not exist and nothing was
    attached; the warning of the [except] clause is never reported. *)
Theorem attach_outcome_not_reported (project_path : string)
    (b : blender) (w : world) :
  project_path <> EmptyString ->
  let r := create_library true (Some project_path) b w in
  fst (fst r) = FINISHED ->
  last (reports (snd (fst r)))
  = Some (INFO, "Attached library to project at " +:+ project_path)
  /\ (forall output_path,
        with_suffix_ifc (get (scene b !! "elca_html_path") EmptyString)
        = inr output_path ->
        project_path <> output_path ->
        disk w !! project_path = None ->
        disk (snd r) !! project_path = None).
Proof.
  intros Hne. cbv zeta. unfold create_ifc_library_execute. cbn [negb].
  destruct (PyStr.is_empty (get (scene b !! "elca_html_path") EmptyString));
    [discriminate|].
  destruct (PyStr.is_empty (get (scene b !! "elca_xml_path") EmptyString));
    [discriminate|].
  set (b0 := if String.eqb _ "true" then b else _). clearbody b0.
  destruct (PyStr.is_empty (get (scene b0 !! "elca_bauteil_elements") EmptyString));
    [discriminate|].
  destruct (unpickle_b64 _) as [err|elements]; [discriminate|].
  destruct (with_suffix_ifc _) as [err|output_path]; [discriminate|].
  pose proof (create_ifc_library_spec accepts compressed_uuid4 output_path
                (with_bauteil_elements elements w)) as Hc.
  unfold wp in Hc.
  destruct (create_ifc_library_from_bauteil_elements accepts compressed_uuid4
              output_path (with_bauteil_elements elements w)) as [[f|e] w1];
    [|discriminate].
  destruct Hc as (_ & _ & Hd & _). cbn [disk with_bauteil_elements] in Hd.
  unfold attach_step. cbn [get].
  destruct project_path as [|c s]; [contradiction Hne; reflexivity|].
  cbn [PyStr.is_empty].
  destruct (attach_outcome accepts compressed_uuid4 (String c s) output_path w1)
    as (r & w2 & -> & _ & Hmiss).
  intros _. cbn [fst snd scene report reports]. rewrite last_snoc.
  split; [reflexivity|].
  intros out [= <-] Hpo Hnone.
  destruct Hmiss as [_ ->].
  - rewrite Hd, lookup_insert_ne by congruence. exact Hnone.
  - rewrite Hd, lookup_insert_ne by congruence. exact Hnone.
Qed.

End LoadThenCreate.

(** * The inventory of the written library *)

(** How many entries of a sketch have a type. *)
Lemma tally_app type_name (l1 l2 : list (string * Ifc.value)) :
  List.length (List.filter (of_type type_name) (l1 ++ l2))
  = (List.length (List.filter (of_type type_name) l1)
     + List.length (List.filter (of_type type_name) l2))%nat.
Proof. rewrite List.filter_app, length_app. reflexivity. Qed.

Lemma tally_process type_name p :
  List.length (List.filter (of_type type_name) (process_sketch p))
  = if has_uuid p
    then List.length
           (List.filter (of_type type_name)
              [("IfcPropertySingleValue", VNone);
               ("IfcPropertySingleValue", VNone);
               ("IfcMaterialProperties", VNone)])
    else 0%nat.
Proof.
  unfold process_sketch, has_uuid. destruct (p_uuid p) as [u|]; [|reflexivity].
  destruct (PyStr.is_empty u); reflexivity.
Qed.

Lemma tally_processes type_name ps :
  List.length (List.filter (of_type type_name) (flat_map process_sketch ps))
  = (List.length (List.filter has_uuid ps)
     * List.length
         (List.filter (of_type type_name)
            [("IfcPropertySingleValue", VNone);
             ("IfcPropertySingleValue", VNone);
             ("IfcMaterialProperties", VNone)]))%nat.
Proof.
  set (per_process := List.length (List.filter (of_type type_name) [_; _; _])).
  induction ps as [|p ps IH]; [reflexivity|].
  cbn [flat_map]. rewrite tally_app, tally_process, IH.
  fold per_process. change (List.filter has_uuid (p :: ps))
    with (if has_uuid p then p :: List.filter has_uuid ps
          else List.filter has_uuid ps).
  destruct (has_uuid p); cbn [List.length]; lia.
Qed.

Lemma of_type_value type_name s v :
  of_type type_name (s, v) = of_type type_name (s, VNone).
Proof. reflexivity. Qed.

Lemma tally_cons type_name s v l :
  List.length (List.filter (of_type type_name) ((s, v) :: l))
  = (List.length (List.filter (of_type type_name) [(s, VNone)])
     + List.length (List.filter (of_type type_name) l))%nat.
Proof.
  cbn [List.filter]. rewrite (of_type_value type_name s v).
  destruct (of_type type_name (s, VNone)); reflexivity.
Qed.

Lemma tally_components type_name cs :
  List.length (List.filter (of_type type_name) (flat_map component_sketch cs))
  = (List.length cs
     * List.length
         (List.filter (of_type type_name)
            [("IfcMaterial", VNone); ("IfcMaterialLayer", VNone)])
     + List.length
         (List.filter has_uuid
            (flat_map (fun c => get (c_lifecycle_processes c) []) cs))
       * List.length
           (List.filter (of_type type_name)
              [("IfcPropertySingleValue", VNone);
               ("IfcPropertySingleValue", VNone);
               ("IfcMaterialProperties", VNone)]))%nat.
Proof.
  rewrite (tally_cons type_name "IfcMaterial" VNone).
  set (per_process := List.length (List.filter (of_type type_name) [_; _; _])).
  set (material := List.length (List.filter (of_type type_name) [("IfcMaterial", VNone)])).
  set (layer := List.length (List.filter (of_type type_name) [("IfcMaterialLayer", VNone)])).
  induction cs as [|c cs IH]; [reflexivity|].
  cbn [flat_map]. rewrite tally_app, IH. unfold component_sketch at 1.
  rewrite List.filter_app, length_app.
  rewrite (tally_cons type_name "IfcMaterial"), tally_app, tally_processes.
  rewrite (tally_cons type_name "IfcMaterialLayer" _ []).
  fold per_process material layer.
  cbn [List.length List.filter]. nia.
Qed.

Lemma tally_elements type_name els :
  List.length (List.filter (of_type type_name) (flat_map element_sketch els))
  = (num_with_components els
     * List.length
         (List.filter (of_type type_name)
            [("IfcMaterialLayerSet", VNone); ("IfcWallType", VNone);
             ("IfcRelAssociatesMaterial", VNone);
             ("IfcRelAssociatesLibrary", VNone)])
     + List.length (flat_map components els)
       * List.length
           (List.filter (of_type type_name)
              [("IfcMaterial", VNone); ("IfcMaterialLayer", VNone)])
     + num_linked_processes els
       * List.length
           (List.filter (of_type type_name)
              [("IfcPropertySingleValue", VNone);
               ("IfcPropertySingleValue", VNone);
               ("IfcMaterialProperties", VNone)]))%nat.
Proof.
  unfold num_with_components, num_linked_processes.
  set (per_element := List.length (List.filter (of_type type_name) [_; _; _; _])).
  set (per_component := List.length (List.filter (of_type type_name) [_; _])).
  set (per_process := List.length (List.filter (of_type type_name) [_; _; _])).
  induction els as [|e els IH]; [reflexivity|].
  cbn [flat_map]. rewrite tally_app, IH. clear IH.
  rewrite (flat_map_app _ (components e)).
  rewrite !List.filter_app, !length_app.
  change (List.filter has_components (e :: els))
    with (if has_components e then e :: List.filter has_components els
          else List.filter has_components els).
  unfold element_sketch at 1.
  assert (Hh : has_components e = match components e with [] => false | _ => true end)
    by reflexivity.
  rewrite Hh. clear Hh.
  destruct (components e) as [|c cs] eqn:Hc; [cbn [flat_map List.filter List.length]; lia|].
  rewrite tally_cons, tally_app, tally_components.
  fold per_component per_process.
  assert (Hpe : per_element
                = (List.length (List.filter (of_type type_name) [("IfcMaterialLayerSet", VNone)])
                   + List.length
                       (List.filter (of_type type_name)
                          [("IfcWallType", VNone);
                           ("IfcRelAssociatesMaterial", VNone);
                           ("IfcRelAssociatesLibrary", VNone)]))%nat).
  { subst per_element.
    apply (tally_cons type_name "IfcMaterialLayerSet" VNone
             [("IfcWallType", VNone); ("IfcRelAssociatesMaterial", VNone);
              ("IfcRelAssociatesLibrary", VNone)]). }
  rewrite Hpe. cbn [List.length]. nia.
Qed.

Lemma num_components_flat els :
  num_components els = List.length (flat_map components els).
Proof.
  unfold num_components. induction els as [|e els IH]; [reflexivity|].
  cbn [map flat_map]. rewrite length_app, <- IH. reflexivity.
Qed.

Section CreatorInventory.

Variable accepts : Ifc.entity -> bool.
Variable compressed_uuid4 : nat -> string.

Local Notation "'create'" :=
  (create_ifc_library_from_bauteil_elements accepts compressed_uuid4).

(** X12. The file the creator writes holds one project, one library
    information and one owner history; a material and a material layer
    for every component, the number the HTML load reports; a layer set, a
    wall type and its two relations for every element with components; a
    property set with two properties for every lifecycle process with a
    uuid; and besides the six other instances of the header nothing
    else. *)
Theorem library_inventory (output_path : string) (w : world) :
  wp (create output_path) w
     (fun f _ =>
        let elements := bauteil_elements w in
        Ifc.count "IfcProject" f = 1%nat
        /\ Ifc.count "IfcLibraryInformation" f = 1%nat
        /\ Ifc.count "IfcOwnerHistory" f = 1%nat
        /\ Ifc.count "IfcMaterial" f = num_components elements
        /\ Ifc.count "IfcMaterialLayer" f = num_components elements
        /\ Ifc.count "IfcMaterialLayerSet" f = num_with_components elements
        /\ Ifc.count "IfcWallType" f = num_with_components elements
        /\ Ifc.count "IfcRelAssociatesMaterial" f = num_with_components elements
        /\ Ifc.count "IfcRelAssociatesLibrary" f = num_with_components elements
        /\ Ifc.count "IfcMaterialProperties" f = num_linked_processes elements
        /\ Ifc.count "IfcPropertySingleValue" f
           = (2 * num_linked_processes elements)%nat
        /\ List.length f
           = (9 + 4 * num_with_components elements
              + 2 * num_components elements
              + 3 * num_linked_processes elements)%nat)
     (fun _ _ => rejected accepts).
Proof.
  eapply wp_mono; [apply create_ifc_library_spec | | intros e w' [H _]; exact H].
  intros f w' (_ & Hs & _). cbv zeta.
  rewrite !count_sketch, <- (sketch_length f), Hs.
  rewrite !tally_app, !tally_elements, length_app, num_components_flat.
  assert (Hlen : List.length (flat_map element_sketch (bauteil_elements w))
                 = (4 * num_with_components (bauteil_elements w)
                    + 2 * List.length (flat_map components (bauteil_elements w))
                    + 3 * num_linked_processes (bauteil_elements w))%nat).
  { clear. unfold num_with_components, num_linked_processes.
    induction (bauteil_elements w) as [|e els IH]; [reflexivity|].
    cbn [flat_map]. rewrite (flat_map_app _ (components e)).
    rewrite !List.filter_app, !length_app, IH. clear IH.
    unfold element_sketch, has_components. cbn [List.filter].
    destruct (components e) as [|c cs]; [cbn; lia|].
    cbn [List.length]. rewrite length_app. cbn [List.length].
    assert (Hc : forall cs,
               List.length (flat_map component_sketch cs)
               = (2 * List.length cs
                  + 3 * List.length
                          (List.filter has_uuid
                             (flat_map (fun c => get (c_lifecycle_processes c) []) cs)))%nat).
    { clear. induction cs as [|c cs IH]; [reflexivity|].
      cbn [flat_map]. rewrite !List.filter_app, !length_app, IH. clear IH.
      unfold component_sketch. cbn [List.length]. rewrite length_app.
      cbn [List.length].
      assert (Hp : forall ps,
                 List.length (flat_map process_sketch ps)
                 = (3 * List.length (List.filter has_uuid ps))%nat).
      { clear. induction ps as [|p ps IH]; [reflexivity|].
        cbn [flat_map List.filter]. rewrite length_app, IH.
        unfold process_sketch, has_uuid. destruct (p_uuid p) as [u|]; [|reflexivity].
        destruct (PyStr.is_empty u); cbn [negb List.length]; lia. }
      rewrite Hp. lia. }
    rewrite Hc. cbn [List.length]. lia. }
  rewrite Hlen. cbn. repeat split; lia.
Qed.

End CreatorInventory.

(** * Facts on what a call keeps of the file in memory *)

Section Keeps.

Variable P : Ifc.file -> Prop.

Lemma keeps_ret {A} (a : A) : keeps P (mret a : M A).
Proof. intros w H. exact H. Qed.

Lemma keeps_raise {A} e : keeps P (raise e : M A).
Proof. intros w H. exact H. Qed.

Lemma keeps_bind {A B} (m : M A) (k : A -> M B) :
  keeps P m -> (forall a, keeps P (k a)) -> keeps P (m ≫= k).
Proof.
  intros Hm Hk w H. apply wp_bind. eapply wp_mono; [apply Hm; exact H | |].
  - intros a w' H'. apply Hk. exact H'.
  - auto.
Qed.

Lemma keeps_fmap {A B} (g : A -> B) (m : M A) : keeps P m -> keeps P (g <$> m).
Proof. intros Hm. apply keeps_bind; [exact Hm | intros; apply keeps_ret]. Qed.

Lemma keeps_for_fold {A S} (l : list A) (body : S -> A -> M S) :
  (forall acc x, keeps P (body acc x)) -> forall acc, keeps P (for_fold l acc body).
Proof.
  intros Hb. induction l as [|x l IH]; intros acc; simpl.
  - apply keeps_ret.
  - apply keeps_bind; [apply Hb | intros; apply IH].
Qed.

Lemma keeps_for_each {A} (l : list A) (body : A -> M unit) :
  (forall x, keeps P (body x)) -> keeps P (for_each l body).
Proof. intros Hb. apply keeps_for_fold. intros; apply Hb. Qed.

Lemma keeps_current_file : keeps P current_file.
Proof. intros w H. exact H. Qed.

Lemma keeps_timestamp : keeps P timestamp.
Proof. intros w H. exact H. Qed.

Lemma keeps_create_guid compressed_uuid4 : keeps P (create_guid compressed_uuid4).
Proof. intros w H. exact H. Qed.

Lemma keeps_instance_of f v : keeps P (instance_of f v).
Proof.
  unfold instance_of. destruct v; try apply keeps_raise.
  destruct (Ifc.by_id f id); [apply keeps_ret | apply keeps_raise].
Qed.

Lemma keeps_ids_of v : keeps P (ids_of v).
Proof. unfold ids_of. destruct v; try apply keeps_raise. apply keeps_ret. Qed.

Lemma keeps_first_related id rels : keeps P (first_related id rels).
Proof.
  induction rels as [|rel rest IH]; simpl; [apply keeps_ret|].
  apply keeps_bind; [apply keeps_ids_of|]. intros ids.
  destruct (bool_decide _); [apply keeps_ret | apply IH].
Qed.

Lemma keeps_create_entity accepts t a :
  (forall f, P f -> P (f ++ [{| is_a := t; attributes := a |}])) ->
  keeps P (create_entity accepts t a).
Proof.
  intros Happ w H. unfold wp, create_entity.
  destruct (accepts _); [apply Happ|]; exact H.
Qed.

Lemma keeps_assign accepts id key v :
  (forall f i e, f !! i = Some e -> P f -> P (<[i := Ifc.with_attr e key v]> f)) ->
  keeps P (assign accepts id key v).
Proof.
  intros Hset w H. unfold wp, assign.
  destruct id as [|i]; [exact H|]. cbn [Ifc.by_id].
  destruct (ifc_file w !! i) as [e|] eqn:Hi; [|exact H].
  destruct (accepts _); [|exact H].
  cbn [ifc_file with_ifc_file Init.Nat.pred]. apply Hset; assumption.
Qed.

End Keeps.

Ltac keeps_step :=
  match goal with
  | |- keeps _ (mret _) => apply keeps_ret
  | |- keeps _ (raise _) => apply keeps_raise
  | |- keeps _ (_ ≫= _) => apply keeps_bind; [|intros]
  | |- keeps _ (_ <$> _) => apply keeps_fmap
  | |- keeps _ (for_each _ _) => apply keeps_for_each; intros
  | |- keeps _ (for_fold _ _ _) => apply keeps_for_fold; intros
  | |- keeps _ (create_guid _) => apply keeps_create_guid
  | |- keeps _ timestamp => apply keeps_timestamp
  | |- keeps _ current_file => apply keeps_current_file
  | |- keeps _ (instance_of _ _) => apply keeps_instance_of
  | |- keeps _ (ids_of _) => apply keeps_ids_of
  | |- keeps _ (first_related _ _) => apply keeps_first_related
  | |- keeps _ (match ?x with _ => _ end) => destruct x
  | |- keeps _ (if ?x then _ else _) => destruct x
  | |- keeps _ (let '(_, _) := ?x in _) => destruct x
  end.

(** ** The instances of the project file *)

Lemma prefix_snoc (f0 f : Ifc.file) e : f0 `prefix_of` f -> f0 `prefix_of` (f ++ [e]).
Proof. intros [k ->]. exists (k ++ [e]). rewrite app_assoc. reflexivity. Qed.

Lemma prefix_insert (f0 f : Ifc.file) i e :
  f0 `prefix_of` f -> (List.length f0 <= i)%nat -> f0 `prefix_of` (<[i := e]> f).
Proof.
  intros [k ->] Hi. exists (<[(i - List.length f0)%nat := e]> k).
  apply insert_app_r_alt. exact Hi.
Qed.

Section AttachKeeps.

Variable accepts : Ifc.entity -> bool.
Variable compressed_uuid4 : nat -> string.
Variable f0 : Ifc.file.

Local Notation "'kept'" := (fun f : Ifc.file => f0 `prefix_of` f).

Lemma kept_create_entity t a : keeps kept (create_entity accepts t a).
Proof. apply keeps_create_entity. intros f. apply prefix_snoc. Qed.

Lemma kept_create_owner_history : keeps kept (create_owner_history accepts).
Proof.
  unfold create_owner_history. repeat (keeps_step || apply kept_create_entity).
Qed.

Lemma kept_copy_classification lf oh m nm rel :
  keeps kept (copy_classification accepts compressed_uuid4 lf oh m nm rel).
Proof.
  unfold copy_classification. repeat (keeps_step || apply kept_create_entity).
Qed.

Lemma kept_copy_layer lf oh layers id :
  keeps kept (copy_layer accepts compressed_uuid4 lf oh layers id).
Proof.
  unfold copy_layer.
  repeat (keeps_step || apply kept_create_entity
          || apply kept_copy_classification).
Qed.

(** The layer set that gets its layers assigned is the one the loop body
    created, so the assignment leaves the instances of the project file
    alone. *)
Lemma kept_copy_wall_type lf oh nli wt :
  keeps kept (copy_wall_type accepts compressed_uuid4 lf oh nli wt).
Proof.
  unfold copy_wall_type.
  apply keeps_bind; [apply keeps_first_related|]. intros [rel|]; [|apply keeps_ret].
  apply keeps_bind; [apply keeps_instance_of|]. intros material_layer_set.
  destruct (negb _); [apply keeps_ret|].
  intros w H. apply wp_bind. unfold create_entity at 1, wp at 1.
  destruct (accepts _); [|exact H].
  assert (H1 : f0 `prefix_of`
               ifc_file (with_ifc_file
                 (ifc_file w ++
                  [{| is_a := "IfcMaterialLayerSet";
                      attributes :=
                        [("LayerSetName",
                          attr (snd material_layer_set) "LayerSetName")] |}]) w))
    by (apply prefix_snoc; exact H).
  assert (Hid : (List.length f0 < S (List.length (ifc_file w)))%nat).
  { destruct H as [k ->]. rewrite length_app. lia. }
  generalize dependent (with_ifc_file
    (ifc_file w ++
     [{| is_a := "IfcMaterialLayerSet";
         attributes :=
           [("LayerSetName", attr (snd material_layer_set) "LayerSetName")] |}]) w).
  generalize dependent (S (List.length (ifc_file w))).
  clear w H. intros new_mls Hid w H. revert w H.
  change (keeps kept
    (layer_ids ← ids_of (attr (snd material_layer_set) "MaterialLayers");
     new_layers ← for_fold layer_ids [] (copy_layer accepts compressed_uuid4 lf oh);
     match new_layers with
     | [] => mret tt
     | _ :: _ =>
         assign accepts new_mls "MaterialLayers" (VRefs new_layers);;
         let wall_name := attr (snd wt) "Name" in
         guid ← create_guid compressed_uuid4;
         new_wall_type ← create_entity accepts "IfcWallType"
           [("GlobalId", VStr guid);
            ("OwnerHistory", VRef oh);
            ("Name", wall_name);
            ("Description", attr (snd wt) "Description");
            ("ApplicableOccurrence", VStr EmptyString);
            ("HasPropertySets", VRefs []);
            ("RepresentationMaps", VRefs []);
            ("Tag", VStr EmptyString);
            ("ElementType", attr (snd wt) "ElementType");
            ("PredefinedType", VStr "STANDARD")];
         guid ← create_guid compressed_uuid4;
         _ ← create_entity accepts "IfcRelAssociatesMaterial"
           [("GlobalId", VStr guid);
            ("OwnerHistory", VRef oh);
            ("RelatedObjects", VRefs [new_wall_type]);
            ("RelatingMaterial", VRef new_mls)];
         guid ← create_guid compressed_uuid4;
         _ ← create_entity accepts "IfcRelAssociatesLibrary"
           [("GlobalId", VStr guid);
            ("OwnerHistory", VRef oh);
            ("Name", VStr ("Association " +:+ label_str wall_name));
            ("Description",
             VStr ("Association to library for " +:+ label_str wall_name));
            ("RelatedObjects", VRefs [new_wall_type]);
            ("RelatingLibrary", VRef nli)];
         mret tt
     end)).
  apply keeps_bind; [apply keeps_ids_of|]. intros layer_ids.
  apply keeps_bind; [apply keeps_for_fold; intros; apply kept_copy_layer|].
  intros [|l0 new_layers]; [apply keeps_ret|].
  apply keeps_bind.
  - intros w H. unfold wp, assign.
    destruct new_mls as [|i]; [exact H|]. cbn [Ifc.by_id].
    destruct (ifc_file w !! i) as [e|]; [|exact H].
    destruct (accepts _); [|exact H].
    cbn [ifc_file with_ifc_file Init.Nat.pred]. apply prefix_insert; [exact H | lia].
  - intros _. cbv zeta. repeat (keeps_step || apply kept_create_entity).
Qed.

Lemma kept_copy_library lf li :
  keeps kept (copy_library accepts compressed_uuid4 lf li).
Proof.
  unfold copy_library.
  repeat (keeps_step || apply kept_create_entity
          || apply kept_create_owner_history || apply kept_copy_wall_type).
Qed.

End AttachKeeps.

(** ** How many instances of a type the attachment adds *)

Lemma count_snoc type_name t a f :
  Ifc.count type_name (f ++ [{| is_a := t; attributes := a |}])
  = (Ifc.count type_name f + if String.eqb t type_name then 1 else 0)%nat.
Proof.
  rewrite !count_sketch, sketch_snoc, List.filter_app, length_app.
  cbn [List.filter]. unfold of_type. cbn [fst].
  destruct (String.eqb t type_name); reflexivity.
Qed.

Lemma count_snoc_other type_name t a f :
  t <> type_name ->
  Ifc.count type_name (f ++ [{| is_a := t; attributes := a |}])
  = Ifc.count type_name f.
Proof.
  intros Hne. rewrite count_snoc.
  destruct (String.eqb_spec t type_name); [contradiction | lia].
Qed.

Lemma count_assign type_name f i e key v :
  f !! i = Some e -> key <> "LayerThickness" ->
  Ifc.count type_name (<[i := Ifc.with_attr e key v]> f) = Ifc.count type_name f.
Proof.
  intros Hi Hk. rewrite !count_sketch, sketch_assign by assumption. reflexivity.
Qed.

Section AttachCounts.

Variable accepts : Ifc.entity -> bool.
Variable compressed_uuid4 : nat -> string.

(** A type the loop over the wall types does not create. *)
Variable type_name : string.
Hypothesis Htype : type_name ∉ copied_types.
Variable n : nat.

Local Notation "'counted'" := (fun f : Ifc.file => Ifc.count type_name f = n).

Lemma counted_create_entity t a :
  t <> type_name -> keeps counted (create_entity accepts t a).
Proof.
  intros Hne. apply keeps_create_entity. intros f <-.
  apply count_snoc_other. exact Hne.
Qed.

Lemma counted_assign id v : keeps counted (assign accepts id "MaterialLayers" v).
Proof.
  apply keeps_assign. intros f i e Hi <-. apply count_assign; [exact Hi | discriminate].
Qed.

Ltac counted_step :=
  first
    [ keeps_step
    | apply counted_assign
    | apply counted_create_entity;
      intros <-; apply Htype; unfold copied_types; repeat constructor ].

Lemma counted_copy_classification lf oh m nm rel :
  keeps counted (copy_classification accepts compressed_uuid4 lf oh m nm rel).
Proof. unfold copy_classification. repeat counted_step. Qed.

Lemma counted_copy_layer lf oh layers id :
  keeps counted (copy_layer accepts compressed_uuid4 lf oh layers id).
Proof.
  unfold copy_layer. repeat (counted_step || apply counted_copy_classification).
Qed.

Lemma counted_copy_wall_type lf oh nli wt :
  keeps counted (copy_wall_type accepts compressed_uuid4 lf oh nli wt).
Proof.
  unfold copy_wall_type. repeat (counted_step || apply counted_copy_layer).
Qed.

Lemma counted_copy_library lf li :
  type_name ∉ attached_types ->
  keeps counted (copy_library accepts compressed_uuid4 lf li).
Proof.
  intros Hout.
  assert (Hc : forall t a,
             t ∈ attached_types -> keeps counted (create_entity accepts t a)).
  { intros t a Ht. apply counted_create_entity. intros <-. exact (Hout Ht). }
  unfold copy_library, create_owner_history.
  repeat first
    [ keeps_step
    | apply counted_copy_wall_type
    | apply Hc; unfold attached_types, copied_types; cbn [app]; repeat constructor ].
Qed.

End AttachCounts.

Section AttachTheorems.

Variable accepts : Ifc.entity -> bool.
Variable compressed_uuid4 : nat -> string.

Local Notation "'attach'" := (attach_library_to_project accepts compressed_uuid4).

(** What [copy_library] adds to the file in memory: one library
    information, no project, and an owner history only when the file had
    none. *)
Lemma copy_library_counts lf li w :
  wp (copy_library accepts compressed_uuid4 lf li) w
     (fun _ w' =>
        Ifc.count "IfcLibraryInformation" (ifc_file w')
        = S (Ifc.count "IfcLibraryInformation" (ifc_file w))
        /\ Ifc.count "IfcProject" (ifc_file w')
           = Ifc.count "IfcProject" (ifc_file w)
        /\ Ifc.count "IfcOwnerHistory" (ifc_file w')
           = Nat.max 1 (Ifc.count "IfcOwnerHistory" (ifc_file w)))
     (fun _ _ => True).
Proof.
  unfold copy_library. apply wp_bind. unfold current_file at 1, wp at 1.
  set (c1 := Ifc.count "IfcLibraryInformation" (ifc_file w)).
  set (c2 := Ifc.count "IfcProject" (ifc_file w)).
  apply wp_bind.
  apply (wp_mono _ _
           (fun _ w1 =>
              Ifc.count "IfcLibraryInformation" (ifc_file w1) = c1
              /\ Ifc.count "IfcProject" (ifc_file w1) = c2
              /\ Ifc.count "IfcOwnerHistory" (ifc_file w1)
                 = Nat.max 1 (Ifc.count "IfcOwnerHistory" (ifc_file w)))
           _ (fun _ _ => True)); [| |auto].
  - destruct (Ifc.by_type (ifc_file w) "IfcOwnerHistory") as [|first rest] eqn:Hoh.
    + assert (H0 : Ifc.count "IfcOwnerHistory" (ifc_file w) = 0%nat)
        by (unfold Ifc.count; rewrite Hoh; reflexivity).
      unfold create_owner_history, fmap, M_fmap, timestamp.
      unfold wp, mbind, M_bind, mret, M_ret, create_entity.
      repeat match goal with
             | |- context [accepts ?e] => destruct (accepts e); [|exact I]
             end.
      cbn [ifc_file with_ifc_file snd].
      rewrite !count_snoc, H0. subst c1 c2. cbn [String.eqb Ascii.eqb Bool.eqb].
      repeat split; lia.
    + assert (H0 : Ifc.count "IfcOwnerHistory" (ifc_file w) = S (List.length rest))
        by (unfold Ifc.count; rewrite Hoh; reflexivity).
      apply wp_ret. rewrite H0. repeat split; lia.
  - intros owner_history w1 (H1 & H2 & H3).
    set (c3 := Nat.max 1 (Ifc.count "IfcOwnerHistory" (ifc_file w))) in *.
    clearbody c1 c2 c3. clear w. revert w1 H1 H2 H3.
    intros w1 H1 H2 H3.
    apply wp_bind.
    unfold instance_of at 1.
    destruct (attr (snd li) "Publisher") as [| | | |id| |]; try exact I.
    destruct (Ifc.by_id lf id) as [publisher|]; [|exact I].
    unfold wp at 1, mret, M_ret.
    apply wp_bind. unfold create_entity at 1, wp at 1.
    destruct (accepts _); [|exact I].
    apply wp_bind. unfold create_entity at 1, wp at 1.
    destruct (accepts _); [|exact I].
    cbn [ifc_file with_ifc_file].
    set (w2 := with_ifc_file _ _).
    set (oh := owner_history). set (nli := S _).
    assert (Hli : "IfcLibraryInformation" ∉ copied_types)
      by (apply (bool_decide_unpack _); vm_compute; exact I).
    assert (Hpr : "IfcProject" ∉ copied_types)
      by (apply (bool_decide_unpack _); vm_compute; exact I).
    assert (Hoh' : "IfcOwnerHistory" ∉ copied_types)
      by (apply (bool_decide_unpack _); vm_compute; exact I).
    pose proof (keeps_for_each _ (Ifc.by_type lf "IfcWallType")
                  (copy_wall_type accepts compressed_uuid4 lf oh nli)
                  (fun wt => counted_copy_wall_type accepts compressed_uuid4
                               "IfcLibraryInformation" Hli
                               (S c1) lf oh nli wt) w2) as K1.
    pose proof (keeps_for_each _ (Ifc.by_type lf "IfcWallType")
                  (copy_wall_type accepts compressed_uuid4 lf oh nli)
                  (fun wt => counted_copy_wall_type accepts compressed_uuid4
                               "IfcProject" Hpr
                               c2 lf oh nli wt) w2) as K2.
    pose proof (keeps_for_each _ (Ifc.by_type lf "IfcWallType")
                  (copy_wall_type accepts compressed_uuid4 lf oh nli)
                  (fun wt => counted_copy_wall_type accepts compressed_uuid4
                               "IfcOwnerHistory" Hoh'
                               c3 lf oh nli wt) w2) as K3.
    assert (G1 : Ifc.count "IfcLibraryInformation" (ifc_file w2) = S c1).
    { subst w2. cbn [ifc_file with_ifc_file]. rewrite !count_snoc, H1.
      cbn [String.eqb Ascii.eqb Bool.eqb]. lia. }
    assert (G2 : Ifc.count "IfcProject" (ifc_file w2) = c2).
    { subst w2. cbn [ifc_file with_ifc_file]. rewrite !count_snoc, H2.
      cbn [String.eqb Ascii.eqb Bool.eqb]. lia. }
    assert (G3 : Ifc.count "IfcOwnerHistory" (ifc_file w2) = c3).
    { subst w2. cbn [ifc_file with_ifc_file]. rewrite !count_snoc, H3.
      cbn [String.eqb Ascii.eqb Bool.eqb]. lia. }
    specialize (K1 G1). specialize (K2 G2). specialize (K3 G3).
    unfold wp in *.
    destruct (for_each _ _ w2) as [[[]|e] w3]; [|exact I].
    repeat split; assumption.
Qed.

(** X19. The attachment only ever extends the project file: the file it
    returns starts with the instances the project file had, each as it
    was, and it is the only file the call writes; after an exception
    nothing is written. *)
Theorem attach_keeps_project_instances (p l : string) (w : world)
    (project_file : Ifc.file) :
  disk w !! p = Some project_file ->
  wp (attach p l) w
     (fun r w' =>
        match r with
        | Some f =>
            project_file `prefix_of` f
            /\ (disk w' = disk w \/ disk w' = <[p := f]> (disk w))
        | None => disk w' = disk w
        end)
     (fun _ _ => False).
Proof.
  intros Hp. unfold wp. rewrite attach_unfold, Hp.
  destruct (disk w !! l) as [library_file|]; [|reflexivity].
  destruct (Ifc.by_type library_file "IfcLibraryInformation") as [|library_info ?];
    [split; [reflexivity | left; reflexivity]|].
  destruct (Ifc.by_type project_file "IfcProject") as [|project ?];
    [split; [reflexivity | left; reflexivity]|].
  pose proof (framed_copy_library accepts compressed_uuid4 library_file library_info
                (with_ifc_file project_file w)) as Hfr.
  pose proof (kept_copy_library accepts compressed_uuid4 project_file
                library_file library_info (with_ifc_file project_file w)) as Hk.
  unfold wp in Hfr, Hk.
  destruct (copy_library accepts compressed_uuid4 library_file library_info
              (with_ifc_file project_file w)) as [[[]|e] w'];
    destruct Hfr as (_ & Hd & _); cbn [disk with_ifc_file] in Hd.
  - split; [apply Hk; reflexivity|]. right. cbn [disk with_disk ifc_file].
    rewrite Hd. reflexivity.
  - exact Hd.
Qed.

(** X20. An attachment that goes through adds exactly one library information
    to the project file and no project, and creates an owner history only
    when the project file has none; the file it returns is the file it
    wrote at the project path. *)
Theorem attach_adds_one_library (p l : string) (w : world)
    (project_file library_file : Ifc.file) :
  disk w !! p = Some project_file ->
  disk w !! l = Some library_file ->
  Ifc.count "IfcLibraryInformation" library_file <> 0%nat ->
  Ifc.count "IfcProject" project_file <> 0%nat ->
  wp (attach p l) w
     (fun r w' =>
        match r with
        | Some f =>
            Ifc.count "IfcLibraryInformation" f
            = S (Ifc.count "IfcLibraryInformation" project_file)
            /\ Ifc.count "IfcProject" f = Ifc.count "IfcProject" project_file
            /\ Ifc.count "IfcOwnerHistory" f
               = Nat.max 1 (Ifc.count "IfcOwnerHistory" project_file)
            /\ disk w' = <[p := f]> (disk w)
        | None => disk w' = disk w
        end)
     (fun _ _ => False).
Proof.
  intros Hp Hl Hli Hpr. unfold wp. rewrite attach_unfold, Hp, Hl.
  unfold Ifc.count in Hli, Hpr.
  destruct (Ifc.by_type library_file "IfcLibraryInformation") as [|library_info ?];
    [contradiction Hli; reflexivity|].
  destruct (Ifc.by_type project_file "IfcProject") as [|project ?] eqn:Hproject;
    [contradiction Hpr; reflexivity|].
  pose proof (framed_copy_library accepts compressed_uuid4 library_file library_info
                (with_ifc_file project_file w)) as Hfr.
  pose proof (copy_library_counts library_file library_info
                (with_ifc_file project_file w)) as Hc.
  unfold wp in Hfr, Hc.
  destruct (copy_library accepts compressed_uuid4 library_file library_info
              (with_ifc_file project_file w)) as [[[]|e] w'];
    destruct Hfr as (_ & Hd & _); cbn [disk with_ifc_file ifc_file] in Hd, Hc.
  - destruct Hc as (H1 & H2 & H3). cbn [disk with_disk ifc_file].
    rewrite Hd. auto.
  - exact Hd.
Qed.

(** X21. The attachment creates instances of fourteen types and of no other:
    of any other type, the project among them and the property sets that
    link a material of the library to its datasets, the file it returns
    holds as many instances as the project file. *)
Theorem attach_creates_no_other_type (p l type_name : string) (w : world)
    (project_file : Ifc.file) :
  disk w !! p = Some project_file ->
  type_name ∉ attached_types ->
  wp (attach p l) w
     (fun r _ =>
        match r with
        | Some f => Ifc.count type_name f = Ifc.count type_name project_file
        | None => True
        end)
     (fun _ _ => False).
Proof.
  intros Hp Hout. unfold wp. rewrite attach_unfold, Hp.
  destruct (disk w !! l) as [library_file|]; [|exact I].
  destruct (Ifc.by_type library_file "IfcLibraryInformation") as [|library_info ?];
    [reflexivity|].
  destruct (Ifc.by_type project_file "IfcProject") as [|project ?]; [reflexivity|].
  assert (Hin : type_name ∉ copied_types).
  { intros Hin. apply Hout. unfold attached_types. apply elem_of_app. right.
    exact Hin. }
  pose proof (counted_copy_library accepts compressed_uuid4 type_name Hin
                (Ifc.count type_name project_file) library_file library_info Hout
                (with_ifc_file project_file w) eq_refl) as Hk.
  unfold wp in Hk.
  destruct (copy_library accepts compressed_uuid4 library_file library_info
              (with_ifc_file project_file w)) as [[[]|e] w']; [exact Hk | exact I].
Qed.

(** X22. Attaching is not idempotent: a second attachment of the same library
    extends the file the first one wrote, which then holds two library
    informations more than the project file had. *)
Theorem attach_twice_duplicates (p l : string) (w : world)
    (project_file library_file : Ifc.file) :
  p <> l ->
  disk w !! p = Some project_file ->
  disk w !! l = Some library_file ->
  Ifc.count "IfcLibraryInformation" library_file <> 0%nat ->
  Ifc.count "IfcProject" project_file <> 0%nat ->
  wp (attach p l) w
     (fun r1 w1 =>
        wp (attach p l) w1
           (fun r2 _ =>
              match r1, r2 with
              | Some f1, Some f2 =>
                  f1 `prefix_of` f2
                  /\ Ifc.count "IfcLibraryInformation" f2
                     = S (S (Ifc.count "IfcLibraryInformation" project_file))
              | _, _ => True
              end)
           (fun _ _ => False))
     (fun _ _ => False).
Proof.
  intros Hpl Hp Hl Hli Hpr.
  assert (Hstep : forall w0 f0,
             disk w0 !! p = Some f0 -> disk w0 !! l = Some library_file ->
             Ifc.count "IfcProject" f0 <> 0%nat ->
             wp (attach p l) w0
                (fun r w' =>
                   match r with
                   | Some f =>
                       f0 `prefix_of` f
                       /\ Ifc.count "IfcLibraryInformation" f
                          = S (Ifc.count "IfcLibraryInformation" f0)
                       /\ Ifc.count "IfcProject" f = Ifc.count "IfcProject" f0
                       /\ disk w' = <[p := f]> (disk w0)
                   | None => True
                   end)
                (fun _ _ => False)).
  { clear w project_file Hp Hl Hpr. intros w project_file Hp Hl Hpr.
    unfold wp. rewrite attach_unfold, Hp, Hl.
    unfold Ifc.count in Hli, Hpr.
    destruct (Ifc.by_type library_file "IfcLibraryInformation") as [|library_info ?];
      [contradiction Hli; reflexivity|].
    destruct (Ifc.by_type project_file "IfcProject") as [|project ?] eqn:Hproject;
      [contradiction Hpr; reflexivity|].
    pose proof (framed_copy_library accepts compressed_uuid4 library_file library_info
                  (with_ifc_file project_file w)) as Hfr.
    pose proof (copy_library_counts library_file library_info
                  (with_ifc_file project_file w)) as Hc.
    pose proof (kept_copy_library accepts compressed_uuid4 project_file
                  library_file library_info (with_ifc_file project_file w)) as Hk.
    unfold wp in Hfr, Hc, Hk.
    destruct (copy_library accepts compressed_uuid4 library_file library_info
                (with_ifc_file project_file w)) as [[[]|e] w']; [|exact I].
    destruct Hfr as (_ & Hd & _). cbn [disk with_ifc_file ifc_file] in Hd, Hc, Hk.
    destruct Hc as (H1 & H2 & _). cbn [disk with_disk ifc_file].
    rewrite Hd. split; [apply Hk; reflexivity | auto]. }
  eapply wp_mono; [apply (Hstep w project_file Hp Hl Hpr) | | auto].
  intros [f1|] w1; [|intros _; unfold wp;
                     destruct (attach_outcome accepts compressed_uuid4 p l w1)
                       as (r & w2 & -> & _); exact I].
  intros (Hk1 & Hc1 & Hp1 & Hd1).
  eapply wp_mono; [apply (Hstep w1 f1) | | auto].
  - rewrite Hd1. apply lookup_insert_eq.
  - rewrite Hd1, lookup_insert_ne by exact Hpl. exact Hl.
  - rewrite Hp1. exact Hpr.
  - intros [f2|] w2; [|auto]. intros (Hk2 & Hc2 & _). split; [exact Hk2|].
    rewrite Hc2, Hc1. reflexivity.
Qed.

End AttachTheorems.

(** * References within the written library *)

Lemma by_id_is_Some (f : Ifc.file) id :
  is_Some (Ifc.by_id f id) <-> (1 <= id <= List.length f)%nat.
Proof.
  destruct id as [|i]; cbn [Ifc.by_id].
  - split; [intros [x Hx]; discriminate | lia].
  - rewrite lookup_lt_is_Some. lia.
Qed.

Lemma refs_ok_bounds (f : Ifc.file) :
  refs_ok f
  <-> Forall
        (fun e => Forall (fun id => (1 <= id <= List.length f)%nat)
                    (attribute_refs (attributes e)))
        f.
Proof.
  unfold refs_ok. apply Forall_proper; [|reflexivity]. intros e.
  apply Forall_proper; [|reflexivity]. intros id. apply by_id_is_Some.
Qed.

Lemma refs_ok_snoc (f : Ifc.file) t a :
  refs_ok f ->
  Forall (fun id => (1 <= id <= S (List.length f))%nat) (attribute_refs a) ->
  refs_ok (f ++ [{| is_a := t; attributes := a |}]).
Proof.
  intros Hf Ha. apply refs_ok_bounds. apply refs_ok_bounds in Hf.
  rewrite length_app. cbn [List.length].
  apply Forall_app. split.
  - eapply Forall_impl; [exact Hf|]. intros e He. cbn beta in *.
    eapply Forall_impl; [exact He|]. intros id Hid. cbn beta in *. lia.
  - constructor; [|constructor]. cbn [attributes].
    eapply Forall_impl; [exact Ha|]. intros id Hid. cbn beta in *. lia.
Qed.

Lemma attribute_refs_assoc_set key v kvs id :
  id ∈ attribute_refs (Ifc.assoc_set key v kvs) ->
  id ∈ attribute_refs kvs \/ id ∈ value_refs v.
Proof.
  unfold attribute_refs.
  induction kvs as [|[k old] kvs IH]; cbn [Ifc.assoc_set flat_map snd].
  - rewrite app_nil_r. auto.
  - destruct (String.eqb k key); cbn [flat_map snd]; rewrite !elem_of_app.
    + intros [H|H]; auto.
    + intros [H|H]; [auto|]. destruct (IH H); auto.
Qed.

Lemma refs_ok_assign (f : Ifc.file) i e key v :
  f !! i = Some e ->
  refs_ok f ->
  Forall (fun id => (1 <= id <= List.length f)%nat) (value_refs v) ->
  refs_ok (<[i := Ifc.with_attr e key v]> f).
Proof.
  intros Hi Hf Hv. apply refs_ok_bounds. apply refs_ok_bounds in Hf.
  unfold Ifc.file in *.
  pose proof (length_insert f i (Ifc.with_attr e key v)) as Hlen.
  apply Forall_insert.
  - eapply Forall_impl; [exact Hf|]. intros e0 He0. cbn beta in *.
    eapply Forall_impl; [exact He0|]. intros id Hid. cbn beta in *.
    rewrite Hlen. exact Hid.
  - cbn [Ifc.with_attr attributes].
    apply Forall_forall. intros id Hid.
    destruct (attribute_refs_assoc_set _ _ _ _ Hid) as [H|H].
    + rewrite Forall_forall in Hf.
      assert (He : e ∈ f) by (eapply list_elem_of_lookup_2; exact Hi).
      specialize (Hf e He). rewrite Forall_forall in Hf. rewrite Hlen. exact (Hf id H).
    + rewrite Forall_forall in Hv. rewrite Hlen. exact (Hv id H).
Qed.

Section CreatorRefs.

Variable accepts : Ifc.entity -> bool.
Variable compressed_uuid4 : nat -> string.

Local Notation "'size'" := (fun w : world => List.length (ifc_file w)).

Lemma refs_create_entity t a w (Q : nat -> world -> Prop) :
  refs_ok (ifc_file w) ->
  Forall (fun id => (1 <= id <= S (size w))%nat) (attribute_refs a) ->
  (forall w', refs_ok (ifc_file w') -> size w' = S (size w) -> Q (size w') w') ->
  wp (create_entity accepts t a) w Q (fun _ _ => True).
Proof.
  intros Hok Ha HQ. unfold wp, create_entity. destruct (accepts _); [|exact I].
  assert (Hlen : size (with_ifc_file
                         (ifc_file w ++ [{| is_a := t; attributes := a |}]) w)
                 = S (size w))
    by (cbn [ifc_file with_ifc_file]; rewrite length_app; cbn [List.length]; lia).
  rewrite <- Hlen. apply HQ; [|exact Hlen].
  cbn [ifc_file with_ifc_file]. apply refs_ok_snoc; assumption.
Qed.

Lemma refs_assign id key v w (Q : unit -> world -> Prop) :
  refs_ok (ifc_file w) ->
  Forall (fun id => (1 <= id <= size w)%nat) (value_refs v) ->
  (forall w', refs_ok (ifc_file w') -> size w' = size w -> Q tt w') ->
  wp (assign accepts id key v) w Q (fun _ _ => True).
Proof.
  intros Hok Hv HQ. unfold wp, assign.
  destruct (Ifc.by_id (ifc_file w) id) as [e|] eqn:He; [|exact I].
  destruct (accepts _); [|exact I].
  destruct id as [|i]; [discriminate|]. cbn [Ifc.by_id] in He.
  apply HQ; cbn [ifc_file with_ifc_file Init.Nat.pred].
  - apply refs_ok_assign; assumption.
  - apply length_insert.
Qed.

Lemma refs_create_guid w (Q : string -> world -> Prop) :
  (forall w', ifc_file w' = ifc_file w -> Q (compressed_uuid4 (guids w)) w') ->
  wp (create_guid compressed_uuid4) w Q (fun _ _ => True).
Proof. intros H. apply H. reflexivity. Qed.

Ltac refs_side :=
  cbn [attribute_refs flat_map value_refs snd app];
  repeat (apply Forall_cons; split); try apply Forall_nil; try lia.

Ltac refs_step :=
  first
    [ apply wp_bind; apply refs_create_entity;
      [assumption | refs_side | let w' := fresh "w" in
                                let Hok := fresh "Hok" in
                                let Hlen := fresh "Hlen" in
                                intros w' Hok Hlen]
    | apply wp_bind; apply refs_create_guid;
      let w' := fresh "w" in
      let Hf := fresh "Hf" in
      intros w' Hf; rewrite <- Hf in *; clear Hf
    | apply wp_bind; unfold timestamp at 1; unfold wp at 1 ].

(** What the statements of this section give: the file has no dangling
    reference and has not shrunk. *)
Local Notation "'grown' w" :=
  (fun w' : world => refs_ok (ifc_file w') /\ (size w <= size w')%nat)
  (at level 10, w at level 9).

Lemma refs_create_owner_history w :
  refs_ok (ifc_file w) ->
  wp (create_owner_history accepts) w
     (fun '(organization, owner_history) w' =>
        grown w w'
        /\ (1 <= organization <= size w')%nat
        /\ (1 <= owner_history <= size w')%nat)
     (fun _ _ => True).
Proof.
  intros Hok. unfold create_owner_history.
  refs_step. refs_step. refs_step. refs_step. 
  apply wp_bind; unfold timestamp at 1; unfold wp at 1.
  refs_step. apply wp_ret. repeat split; try assumption; lia.
Qed.

Lemma refs_emit_process material p w :
  refs_ok (ifc_file w) -> (1 <= material <= size w)%nat ->
  wp (emit_process accepts material p) w (fun _ w' => grown w w') (fun _ _ => True).
Proof.
  intros Hok Hm. unfold emit_process.
  destruct (p_uuid p) as [u|]; [|apply wp_ret; auto].
  destruct (PyStr.is_empty u); [apply wp_ret; auto|].
  refs_step. refs_step. refs_step. apply wp_ret. split; [assumption | lia].
Qed.

Lemma refs_emit_processes material ps w :
  refs_ok (ifc_file w) -> (1 <= material <= size w)%nat ->
  wp (for_each ps (emit_process accepts material)) w
     (fun _ w' => grown w w') (fun _ _ => True).
Proof.
  unfold for_each. revert w. induction ps as [|p ps IH]; intros w Hok Hm; simpl.
  - apply wp_ret. auto.
  - apply wp_bind. eapply wp_mono; [apply refs_emit_process; assumption | | auto].
    intros [] w1 [Hok1 Hle1]. cbn beta.
    eapply wp_mono; [apply IH; [assumption | lia] | | auto].
    intros [] w2 [Hok2 Hle2]. cbn beta in *. split; [assumption | lia].
Qed.

Lemma refs_emit_component layers ic w :
  refs_ok (ifc_file w) ->
  Forall (fun id => (1 <= id <= size w)%nat) layers ->
  wp (emit_component accepts layers ic) w
     (fun layers' w' =>
        grown w w' /\ Forall (fun id => (1 <= id <= size w')%nat) layers')
     (fun _ _ => True).
Proof.
  intros Hok Hl. unfold emit_component. destruct ic as [idx c].
  refs_step. apply wp_bind.
  eapply wp_mono; [apply refs_emit_processes; [assumption | lia] | | auto].
  intros [] w1 [Hok1 Hle1]. cbn beta.
  refs_step. apply wp_ret. split; [split; [assumption | lia]|].
  apply Forall_app. split.
  - eapply Forall_impl; [exact Hl|]. intros id Hid. cbn beta in *. lia.
  - constructor; [lia | constructor].
Qed.

Lemma refs_emit_components l layers w :
  refs_ok (ifc_file w) ->
  Forall (fun id => (1 <= id <= size w)%nat) layers ->
  wp (for_fold l layers (emit_component accepts)) w
     (fun layers' w' =>
        grown w w' /\ Forall (fun id => (1 <= id <= size w')%nat) layers')
     (fun _ _ => True).
Proof.
  revert layers w. induction l as [|ic l IH]; intros layers w Hok Hl; simpl.
  - apply wp_ret. auto.
  - apply wp_bind. eapply wp_mono; [apply refs_emit_component; assumption | | auto].
    intros layers1 w1 [[Hok1 Hle1] Hl1]. cbn beta.
    eapply wp_mono; [apply IH; assumption | | auto].
    intros layers2 w2 [[Hok2 Hle2] Hl2]. cbn beta in *.
    split; [split; [assumption | lia] | assumption].
Qed.

Lemma refs_emit_element owner_history library element w :
  refs_ok (ifc_file w) ->
  (1 <= owner_history <= size w)%nat -> (1 <= library <= size w)%nat ->
  wp (emit_element accepts compressed_uuid4 owner_history library element) w
     (fun _ w' => grown w w') (fun _ _ => True).
Proof.
  intros Hok Hoh Hlib. unfold emit_element.
  destruct (components element) as [|c cs]; [apply wp_ret; auto|].
  refs_step. apply wp_bind.
  eapply wp_mono; [apply refs_emit_components; [assumption | constructor] | | auto].
  intros layers w1 [[Hok1 Hle1] Hl1]. cbn beta.
  destruct layers as [|l0 layers]; [apply wp_ret; split; [assumption | lia]|].
  apply wp_bind. apply refs_assign; [assumption | exact Hl1|].
  intros w2 Hok2 Hlen2.
  refs_step. refs_step. refs_step. refs_step. refs_step. refs_step.
  apply wp_ret. split; [assumption | lia].
Qed.

Lemma refs_emit_elements owner_history library els w :
  refs_ok (ifc_file w) ->
  (1 <= owner_history <= size w)%nat -> (1 <= library <= size w)%nat ->
  wp (for_each els (emit_element accepts compressed_uuid4 owner_history library)) w
     (fun _ w' => grown w w') (fun _ _ => True).
Proof.
  unfold for_each. revert w.
  induction els as [|e els IH]; intros w Hok Hoh Hlib; simpl.
  - apply wp_ret. auto.
  - apply wp_bind. eapply wp_mono; [apply refs_emit_element; assumption | | auto].
    intros [] w1 [Hok1 Hle1]. cbn beta.
    eapply wp_mono; [apply IH; [assumption | lia | lia] | | auto].
    intros [] w2 [Hok2 Hle2]. cbn beta in *. split; [assumption | lia].
Qed.

Lemma refs_create_header w :
  wp (create_header accepts compressed_uuid4) w
     (fun '(owner_history, library) w' =>
        refs_ok (ifc_file w')
        /\ (1 <= owner_history <= size w')%nat
        /\ (1 <= library <= size w')%nat
        /\ bauteil_elements w' = bauteil_elements w)
     (fun _ _ => True).
Proof.
  pose proof (framed_create_header accepts compressed_uuid4 w) as Hfr.
  unfold wp in Hfr |- *.
  assert (H : wp (create_header accepts compressed_uuid4) w
                (fun '(owner_history, library) w' =>
                   refs_ok (ifc_file w')
                   /\ (1 <= owner_history <= size w')%nat
                   /\ (1 <= library <= size w')%nat)
                (fun _ _ => True)).
  { unfold create_header. apply wp_bind. unfold new_file at 1, wp at 1.
    assert (Hok : refs_ok (ifc_file (with_ifc_file [] w))) by constructor.
    generalize dependent (with_ifc_file [] w). clear w Hfr. intros w Hok.
    apply wp_bind.
    eapply wp_mono; [apply refs_create_owner_history; assumption | | auto].
    intros [organization owner_history] w1 ([Hok1 Hle1] & Horg & Hoh). cbn beta.
    refs_step. refs_step.
    apply wp_bind. apply refs_assign; [assumption | refs_side|].
    intros w4 Hok4 Hlen4.
    refs_step. refs_step. refs_step.
    apply wp_ret. repeat split; try assumption; lia. }
  unfold wp in H.
  destruct (create_header accepts compressed_uuid4 w) as [[[owner_history library]|e] w'];
    [|exact I].
  destruct H as (H1 & H2 & H3), Hfr as (Hb & _). auto.
Qed.

Lemma refs_build_library w :
  wp (build_library accepts compressed_uuid4) w
     (fun _ w' => refs_ok (ifc_file w')) (fun _ _ => True).
Proof.
  unfold build_library. apply wp_bind.
  eapply wp_mono; [apply refs_create_header | | auto].
  intros [owner_history library] w1 (Hok & Hoh & Hlib & _). cbn beta.
  apply wp_bind. unfold read_bauteil_elements at 1, wp at 1.
  eapply wp_mono; [apply refs_emit_elements; assumption | | auto].
  intros [] w2 [Hok2 _]. exact Hok2.
Qed.

(** X13. No reference of the written library is dangling: every id an
    attribute holds, alone or in a list, is the id of an instance of the
    file. *)
Theorem library_refs_ok (output_path : string) (w : world) :
  wp (create_ifc_library_from_bauteil_elements accepts compressed_uuid4 output_path) w
     (fun f w' => refs_ok f /\ disk w' !! output_path = Some f)
     (fun _ _ => rejected accepts).
Proof.
  apply (wp_mono _ _
           (fun f w' =>
              refs_ok f
              /\ (f = ifc_file w'
                  /\ sketch f = header_sketch ++ flat_map element_sketch (bauteil_elements w)
                  /\ disk w' = <[output_path := f]> (disk w)
                  /\ bauteil_elements w' = bauteil_elements w))
           _
           (fun e w' => True /\ (rejected accepts /\ frame w w'))).
  - apply wp_and; [|apply create_ifc_library_spec].
    unfold create_ifc_library_from_bauteil_elements. apply wp_bind.
    eapply wp_mono; [apply refs_build_library | | auto].
    intros [] w1 Hok. apply wp_bind. unfold write at 1, wp at 1.
    unfold current_file, wp. exact Hok.
  - intros f w' (Hok & _ & _ & Hd & _). split; [exact Hok|].
    rewrite Hd. apply lookup_insert_eq.
  - intros e w' (_ & Hr & _). exact Hr.
Qed.

End CreatorRefs.

(** * The plain attributes of the written library *)

Lemma outline_app f g : outline (f ++ g) = outline f ++ outline g.
Proof. apply map_app. Qed.

Lemma outline_snoc f e : outline (f ++ [e]) = outline f ++ [strip e].
Proof. apply outline_app. Qed.

Lemma plain_assoc_set key v kvs :
  is_reference key = true -> plain (Ifc.assoc_set key v kvs) = plain kvs.
Proof.
  intros Hk. unfold plain.
  induction kvs as [|[k old] kvs IH]; cbn [Ifc.assoc_set List.filter fst].
  - rewrite Hk. reflexivity.
  - destruct (String.eqb_spec k key) as [->|Hne]; cbn [List.filter fst].
    + rewrite Hk. reflexivity.
    + rewrite IH. reflexivity.
Qed.

Lemma outline_assign (f : list Ifc.entity) i e key v :
  f !! i = Some e -> is_reference key = true ->
  outline (<[i := Ifc.with_attr e key v]> f) = outline f.
Proof.
  intros Hi Hk. revert i Hi.
  induction f as [|e0 f IH]; intros [|i] Hi; simpl in *; try discriminate.
  - injection Hi as ->. unfold strip. cbn [Ifc.with_attr is_a attributes].
    rewrite plain_assoc_set by exact Hk. reflexivity.
  - f_equal. apply IH. exact Hi.
Qed.

Section CreatorOutline.

Variable accepts : Ifc.entity -> bool.
Variable compressed_uuid4 : nat -> string.

Lemma out_create_entity t a w (Q : nat -> world -> Prop) :
  Q (S (List.length (ifc_file w)))
    (with_ifc_file (ifc_file w ++ [{| is_a := t; attributes := a |}]) w) ->
  wp (create_entity accepts t a) w Q (fun _ _ => True).
Proof.
  intros HQ. unfold wp, create_entity. destruct (accepts _); [exact HQ | exact I].
Qed.

Lemma out_assign id key v w (Q : unit -> world -> Prop) :
  is_reference key = true ->
  (forall f, outline f = outline (ifc_file w) -> Q tt (with_ifc_file f w)) ->
  wp (assign accepts id key v) w Q (fun _ _ => True).
Proof.
  intros Hk HQ. unfold wp, assign.
  destruct (Ifc.by_id (ifc_file w) id) as [e|] eqn:He; [|exact I].
  destruct (accepts _); [|exact I].
  destruct id as [|i]; [discriminate|]. cbn [Ifc.by_id] in He.
  apply HQ. cbn [Init.Nat.pred]. apply outline_assign; assumption.
Qed.

Lemma out_create_guid w (Q : string -> world -> Prop) :
  Q (compressed_uuid4 (guids w)) (with_guids (S (guids w)) w) ->
  wp (create_guid compressed_uuid4) w Q (fun _ _ => True).
Proof. intros H. exact H. Qed.

Ltac out_step :=
  first
    [ apply wp_bind; apply out_create_entity
    | apply wp_bind; apply out_create_guid
    | apply wp_bind; unfold timestamp at 1; unfold wp at 1
    | apply wp_ret ].

Ltac out_done :=
  cbn [ifc_file with_ifc_file with_guids guids clock] in *;
  repeat first
    [ rewrite outline_snoc
    | match goal with
      | H : outline _ = _ |- _ => rewrite H; clear H
      | H : guids _ = _ |- _ => rewrite H; clear H
      end ];
  repeat (cbn [app flat_map]; rewrite <- ?app_assoc);
  try reflexivity.

Lemma create_owner_history_outline w :
  wp (create_owner_history accepts) w
     (fun _ w' =>
        outline (ifc_file w')
        = outline (ifc_file w) ++ owner_history_outline (clock w)
        /\ guids w' = guids w /\ clock w' = clock w)
     (fun _ _ => True).
Proof.
  unfold create_owner_history. repeat out_step.
  split; [out_done | split; reflexivity].
Qed.

Lemma emit_process_outline material p w :
  wp (emit_process accepts material p) w
     (fun _ w' =>
        outline (ifc_file w') = outline (ifc_file w) ++ process_outline p
        /\ guids w' = guids w)
     (fun _ _ => True).
Proof.
  unfold emit_process, process_outline.
  destruct (p_uuid p) as [u|]; [|apply wp_ret; rewrite app_nil_r; auto].
  destruct (PyStr.is_empty u); [apply wp_ret; rewrite app_nil_r; auto|].
  repeat out_step. split; [out_done | reflexivity].
Qed.

Lemma emit_processes_outline material ps w :
  wp (for_each ps (emit_process accepts material)) w
     (fun _ w' =>
        outline (ifc_file w')
        = outline (ifc_file w) ++ flat_map process_outline ps
        /\ guids w' = guids w)
     (fun _ _ => True).
Proof.
  unfold for_each. revert w. induction ps as [|p ps IH]; intros w; simpl.
  - apply wp_ret. rewrite app_nil_r. auto.
  - apply wp_bind. eapply wp_mono; [apply emit_process_outline | | auto].
    intros [] w1 [H1 G1]. cbn beta. eapply wp_mono; [apply IH | | auto].
    intros [] w2 [H2 G2]. cbn beta in *.
    rewrite H2, H1, <- app_assoc, G2, G1. auto.
Qed.

Lemma emit_component_outline layers ic w :
  wp (emit_component accepts layers ic) w
     (fun _ w' =>
        outline (ifc_file w') = outline (ifc_file w) ++ component_outline ic
        /\ guids w' = guids w)
     (fun _ _ => True).
Proof.
  unfold emit_component. destruct ic as [idx c].
  out_step. apply wp_bind.
  eapply wp_mono; [apply emit_processes_outline | | auto].
  intros [] w1 [H1 G1]. cbn beta. out_step. out_step.
  split; [unfold component_outline; out_done | exact G1].
Qed.

Lemma emit_components_outline l layers w :
  wp (for_fold l layers (emit_component accepts)) w
     (fun _ w' =>
        outline (ifc_file w')
        = outline (ifc_file w) ++ flat_map component_outline l
        /\ guids w' = guids w)
     (fun _ _ => True).
Proof.
  revert layers w. induction l as [|ic l IH]; intros layers w; simpl.
  - apply wp_ret. rewrite app_nil_r. auto.
  - apply wp_bind. eapply wp_mono; [apply emit_component_outline | | auto].
    intros layers1 w1 [H1 G1]. cbn beta. eapply wp_mono; [apply IH | | auto].
    intros layers2 w2 [H2 G2]. cbn beta in *.
    rewrite H2, H1, <- app_assoc, G2, G1. auto.
Qed.

Lemma emit_element_outline oh lib element w :
  wp (emit_element accepts compressed_uuid4 oh lib element) w
     (fun _ w' =>
        outline (ifc_file w')
        = outline (ifc_file w) ++ element_outline compressed_uuid4 (guids w) element
        /\ guids w'
           = if has_components element then S (S (S (guids w))) else guids w)
     (fun _ _ => True).
Proof.
  unfold emit_element, element_outline, has_components, element_label.
  destruct (components element) as [|c cs] eqn:Hc.
  { apply wp_ret. rewrite app_nil_r. auto. }
  out_step. apply wp_bind.
  eapply wp_mono;
    [apply wp_and;
     [apply emit_components_outline | apply (emit_components_emits accepts)] | |auto].
  intros layers w1 [[H1 G1] [Hlen _]]. cbn beta.
  rewrite length_enumerate in Hlen.
  destruct layers as [|l0 layers]; [simpl in Hlen; lia|].
  apply wp_bind. apply out_assign; [reflexivity|].
  intros f Hf. repeat out_step. split; [out_done | out_done].
Qed.

Lemma emit_elements_outline oh lib els w :
  wp (for_each els (emit_element accepts compressed_uuid4 oh lib)) w
     (fun _ w' =>
        outline (ifc_file w')
        = outline (ifc_file w) ++ elements_outline compressed_uuid4 (guids w) els
        /\ guids w' = (guids w + 3 * num_with_components els)%nat)
     (fun _ _ => True).
Proof.
  unfold for_each, num_with_components. revert w.
  induction els as [|e els IH]; intros w; simpl.
  - apply wp_ret. rewrite app_nil_r. split; [reflexivity | lia].
  - apply wp_bind. eapply wp_mono; [apply emit_element_outline | | auto].
    intros [] w1 [H1 G1]. cbn beta. eapply wp_mono; [apply IH | | auto].
    intros [] w2 [H2 G2]. cbn beta in *.
    rewrite H2, H1, <- app_assoc, G2, G1.
    destruct (has_components e); cbn [List.length]; split; (reflexivity || lia).
Qed.

Lemma create_header_outline w :
  wp (create_header accepts compressed_uuid4) w
     (fun _ w' =>
        outline (ifc_file w') = header_outline compressed_uuid4 (guids w) (clock w)
        /\ guids w' = S (guids w))
     (fun _ _ => True).
Proof.
  unfold create_header. apply wp_bind. unfold new_file at 1, wp at 1.
  apply wp_bind. eapply wp_mono; [apply create_owner_history_outline | | auto].
  intros [organization owner_history] w1 (H1 & G1 & C1).
  out_step. out_step. apply wp_bind. apply out_assign; [reflexivity|].
  intros f Hf. repeat out_step. unfold header_outline.
  split; [out_done | out_done].
Qed.

(** The written file, its reference attributes apart: the header, then
    what each element appends; one GUID is drawn for the project and
    three for every element with components. *)
Lemma create_outline output_path w :
  wp (create_ifc_library_from_bauteil_elements accepts compressed_uuid4 output_path) w
     (fun f w' =>
        outline f
        = header_outline compressed_uuid4 (guids w) (clock w)
          ++ elements_outline compressed_uuid4 (S (guids w)) (bauteil_elements w)
        /\ guids w'
           = (guids w + 1 + 3 * num_with_components (bauteil_elements w))%nat)
     (fun _ _ => rejected accepts).
Proof.
  apply (wp_mono _ _
           (fun f w' =>
              (outline f
               = header_outline compressed_uuid4 (guids w) (clock w)
                 ++ elements_outline compressed_uuid4 (S (guids w))
                      (bauteil_elements w)
               /\ guids w'
                  = (guids w + 1 + 3 * num_with_components (bauteil_elements w))%nat)
              /\ (f = ifc_file w'
                  /\ sketch f
                     = header_sketch ++ flat_map element_sketch (bauteil_elements w)
                  /\ disk w' = <[output_path := f]> (disk w)
                  /\ bauteil_elements w' = bauteil_elements w))
           _
           (fun e w' => True /\ (rejected accepts /\ frame w w')));
    [|intros f w' [H _]; exact H | intros e w' (_ & Hr & _); exact Hr].
  apply wp_and; [|apply create_ifc_library_spec].
  unfold create_ifc_library_from_bauteil_elements, build_library.
  apply wp_bind. apply wp_bind.
  eapply wp_mono;
    [apply wp_and; [apply create_header_outline | apply framed_create_header] | |auto].
  intros [owner_history library] w1 [[H1 G1] (Hb & _)]. cbn beta.
  apply wp_bind. unfold read_bauteil_elements at 1, wp at 1. rewrite Hb.
  eapply wp_mono; [apply emit_elements_outline | | auto].
  intros [] w2 [H2 G2]. cbn beta in *.
  apply wp_bind. unfold write at 1, wp at 1. unfold current_file, wp.
  cbn [ifc_file with_disk guids]. rewrite H2, H1, G2, G1. split; [reflexivity | lia].
Qed.

End CreatorOutline.

(** * Names, links and GlobalIds of the written library *)

Lemma assoc_plain key kvs :
  is_reference key = false -> Ifc.assoc key (plain kvs) = Ifc.assoc key kvs.
Proof.
  intros Hk. unfold plain.
  induction kvs as [|[k v] kvs IH]; [reflexivity|].
  cbn [List.filter fst Ifc.assoc].
  destruct (String.eqb_spec k key) as [->|Hne].
  - rewrite Hk. cbn [negb Ifc.assoc]. rewrite String.eqb_refl. reflexivity.
  - destruct (negb (is_reference k)); [|exact IH].
    cbn [Ifc.assoc]. destruct (String.eqb_spec k key); [contradiction | exact IH].
Qed.

Lemma attr_strip key e :
  is_reference key = false -> attr (strip e) key = attr e key.
Proof. intros Hk. unfold attr, strip. cbn [attributes]. apply assoc_plain, Hk. Qed.

Lemma column_outline type_name key f :
  is_reference key = false ->
  column type_name key (outline f) = column type_name key f.
Proof.
  intros Hk. unfold column, outline.
  induction f as [|e f IH]; [reflexivity|].
  cbn [map List.filter]. change (is_a (strip e)) with (is_a e).
  destruct (String.eqb (is_a e) type_name); cbn [map]; rewrite IH;
    [rewrite (attr_strip key e Hk)|]; reflexivity.
Qed.

Lemma column_app type_name key f g :
  column type_name key (f ++ g)
  = column type_name key f ++ column type_name key g.
Proof. unfold column. rewrite List.filter_app, map_app. reflexivity. Qed.

Lemma column_flat_map {A} type_name key (h : A -> list Ifc.entity) l :
  column type_name key (flat_map h l)
  = flat_map (fun x => column type_name key (h x)) l.
Proof.
  induction l as [|x l IH]; [reflexivity|].
  cbn [flat_map]. rewrite column_app, IH. reflexivity.
Qed.

Lemma column_cons type_name key e f :
  column type_name key (e :: f)
  = column type_name key [e] ++ column type_name key f.
Proof. apply (column_app type_name key [e] f). Qed.

Lemma column_elements compressed_uuid4 type_name key
    (h : BauteilElement -> list Ifc.value) :
  (forall guid e,
     column type_name key (element_outline compressed_uuid4 guid e) = h e) ->
  forall guid els,
    column type_name key (elements_outline compressed_uuid4 guid els)
    = flat_map h els.
Proof.
  intros Hh guid els. revert guid.
  induction els as [|e els IH]; intros guid; [reflexivity|].
  cbn [elements_outline flat_map]. rewrite column_app, Hh, IH. reflexivity.
Qed.

Lemma global_ids_outline f : global_ids (outline f) = global_ids f.
Proof.
  unfold global_ids, outline. induction f as [|e f IH]; [reflexivity|].
  cbn [map flat_map]. rewrite IH, (attr_strip "GlobalId" e) by reflexivity.
  reflexivity.
Qed.

Lemma global_ids_app f g : global_ids (f ++ g) = global_ids f ++ global_ids g.
Proof. apply flat_map_app. Qed.

Lemma global_ids_processes ps : global_ids (flat_map process_outline ps) = [].
Proof.
  induction ps as [|p ps IH]; [reflexivity|].
  cbn [flat_map]. rewrite global_ids_app, IH. unfold process_outline.
  destruct (p_uuid p) as [u|]; [|reflexivity].
  destruct (PyStr.is_empty u); reflexivity.
Qed.

Lemma global_ids_components l : global_ids (flat_map component_outline l) = [].
Proof.
  induction l as [|ic l IH]; [reflexivity|].
  cbn [flat_map]. rewrite global_ids_app, IH. unfold component_outline.
  change (global_ids (?e :: ?f)) with (global_ids [e] ++ global_ids f).
  rewrite global_ids_app, global_ids_processes. reflexivity.
Qed.

Lemma global_ids_element compressed_uuid4 guid e :
  global_ids (element_outline compressed_uuid4 guid e)
  = if has_components e
    then map compressed_uuid4 (seq guid 3)
    else [].
Proof.
  unfold element_outline, has_components.
  destruct (components e) as [|c cs]; [reflexivity|].
  change (global_ids (?e :: ?f)) with (global_ids [e] ++ global_ids f).
  rewrite global_ids_app, global_ids_components. reflexivity.
Qed.

Lemma global_ids_elements compressed_uuid4 guid els :
  global_ids (elements_outline compressed_uuid4 guid els)
  = map compressed_uuid4 (seq guid (3 * num_with_components els)).
Proof.
  unfold num_with_components. revert guid.
  induction els as [|e els IH]; intros guid; [reflexivity|].
  cbn [elements_outline List.filter].
  rewrite global_ids_app, global_ids_element, IH.
  destruct (has_components e); [|reflexivity].
  cbn [List.length].
  replace (3 * S (List.length (List.filter has_components els)))%nat
    with (3 + 3 * List.length (List.filter has_components els))%nat by lia.
  rewrite seq_app, map_app.
  replace (guid + 3)%nat with (S (S (S guid))) by lia. reflexivity.
Qed.


Lemma column_one type_name key t a :
  column type_name key [{| is_a := t; attributes := a |}]
  = if String.eqb t type_name then [Ifc.assoc key a] else [].
Proof.
  unfold column. cbn [List.filter is_a].
  destruct (String.eqb t type_name); reflexivity.
Qed.

Section CreatorColumns.

Variable accepts : Ifc.entity -> bool.
Variable compressed_uuid4 : nat -> string.

Local Notation "'create'" :=
  (create_ifc_library_from_bauteil_elements accepts compressed_uuid4).

(** X14. Every rooted instance gets a GUID of its own draw: the GlobalIds of
    the written file, in file order, are the GUIDs drawn during the call
    in the order they were drawn, one for the project and three for
    every element with components. *)
Theorem library_global_ids (output_path : string) (w : world) :
  wp (create output_path) w
     (fun f w' =>
        let drawn := (1 + 3 * num_with_components (bauteil_elements w))%nat in
        global_ids f = map compressed_uuid4 (seq (guids w) drawn)
        /\ guids w' = (guids w + drawn)%nat)
     (fun _ _ => rejected accepts).
Proof.
  eapply wp_mono; [apply create_outline | | auto].
  intros f w' [Ho Hg]. cbv zeta. split; [|lia].
  rewrite <- global_ids_outline, Ho, global_ids_app, global_ids_elements.
  reflexivity.
Qed.


(** X16. Every lifecycle process with a uuid is linked to its dataset: the
    property values of the written file are, process by process in the
    order of elements, components and processes, the uuid as identifier
    and the address of the dataset; a process without a uuid leaves
    nothing. *)
Theorem library_process_links (output_path : string) (w : world) :
  wp (create output_path) w
     (fun f _ =>
        column "IfcPropertySingleValue" "NominalValue" f
        = flat_map process_links
            (flat_map (fun c => get (c_lifecycle_processes c) [])
               (flat_map components (bauteil_elements w))))
     (fun _ _ => rejected accepts).
Proof.
  eapply wp_mono; [apply create_outline | | auto].
  intros f w' [Ho _]. cbn beta.
  rewrite <- (column_outline _ _ f) by reflexivity. rewrite Ho, column_app.
  rewrite (column_elements _ _ _
             (fun e => flat_map process_links
                         (flat_map (fun c => get (c_lifecycle_processes c) [])
                            (components e)))).
  - change (column "IfcPropertySingleValue" "NominalValue"
              (header_outline compressed_uuid4 (guids w) (clock w)))
      with (@nil Ifc.value).
    cbn [app]. generalize (bauteil_elements w). clear. intros els.
    induction els as [|e els IH]; [reflexivity|].
    cbn [flat_map]. rewrite IH, !flat_map_app. reflexivity.
  - intros guid e. unfold element_outline.
    destruct (components e) as [|c cs]; [reflexivity|].
    rewrite column_cons, column_app, column_flat_map.
    assert (Hc : forall ic,
               column "IfcPropertySingleValue" "NominalValue" (component_outline ic)
               = flat_map process_links (get (c_lifecycle_processes (snd ic)) [])).
    { intros ic. unfold component_outline.
      rewrite column_cons, column_app, column_flat_map, !column_one.
      simpl String.eqb. cbn [app]. rewrite app_nil_r.
      induction (get (c_lifecycle_processes (snd ic)) []) as [|p ps IHp];
        [reflexivity|].
      cbn [flat_map]. rewrite IHp. f_equal.
      unfold process_outline, process_links.
      destruct (p_uuid p) as [u|]; [|reflexivity].
      destruct (PyStr.is_empty u); reflexivity. }
    rewrite (flat_map_ext _ _ Hc).
    change (column "IfcPropertySingleValue" "NominalValue" [?e]) with (@nil Ifc.value).
    change (column "IfcPropertySingleValue" "NominalValue" [?e1; ?e2; ?e3])
      with (@nil Ifc.value).
    cbn [app]. rewrite app_nil_r.
    rewrite (flat_map_enumerate
               (fun c => flat_map process_links (get (c_lifecycle_processes c) []))).
    generalize (c :: cs). clear. intros cs.
    induction cs as [|c cs IH]; [reflexivity|].
    cbn [flat_map]. rewrite IH, flat_map_app. reflexivity.
Qed.

End CreatorColumns.

(** * Facts on the registration of the panel *)

Lemma monkey_patch_panel_fields panel_name a d :
  panel_draw a !! panel_name = Some d ->
  panel_draw (monkey_patch_panel panel_name panel_name a)
  = <[panel_name := NewDraw panel_name]> (panel_draw a)
  /\ _original_draw_functions (monkey_patch_panel panel_name panel_name a)
     = match _original_draw_functions a !! panel_name with
       | Some _ => _original_draw_functions a
       | None => <[panel_name := d]> (_original_draw_functions a)
       end
  /\ load_post (monkey_patch_panel panel_name panel_name a) = load_post a
  /\ classes (monkey_patch_panel panel_name panel_name a) = classes a
  /\ scene_properties (monkey_patch_panel panel_name panel_name a)
     = scene_properties a.
Proof.
  intros Hd. unfold monkey_patch_panel. rewrite Hd.
  cbn [panel_draw _original_draw_functions load_post classes scene_properties].
  auto.
Qed.

(** What the loop of [load_handler] does: nothing when no target is
    found, and otherwise it patches the first target that is. *)
Lemma patch_first_cases targets a :
  patch_first targets a = a
  \/ exists panel_name d,
       panel_draw a !! panel_name = Some d
       /\ patch_first targets a = monkey_patch_panel panel_name panel_name a.
Proof.
  induction targets as [|t targets IH]; cbn [patch_first]; [left; reflexivity|].
  destruct (panel_draw a !! t) as [d|] eqn:Ht; [|exact IH].
  right. exists t, d. split; [exact Ht | reflexivity].
Qed.

Lemma patch_first_load_post targets a :
  load_post (patch_first targets a) = load_post a.
Proof.
  destruct (patch_first_cases targets a) as [->|(t & d & Hd & ->)]; [reflexivity|].
  apply (monkey_patch_panel_fields t a d Hd).
Qed.

Lemma patch_first_classes targets a :
  classes (patch_first targets a) = classes a.
Proof.
  destruct (patch_first_cases targets a) as [->|(t & d & Hd & ->)]; [reflexivity|].
  apply (monkey_patch_panel_fields t a d Hd).
Qed.

Lemma patch_first_scene_properties targets a :
  scene_properties (patch_first targets a) = scene_properties a.
Proof.
  destruct (patch_first_cases targets a) as [->|(t & d & Hd & ->)]; [reflexivity|].
  apply (monkey_patch_panel_fields t a d Hd).
Qed.

Lemma addon_eq a1 a2 :
  panel_draw a1 = panel_draw a2 ->
  _original_draw_functions a1 = _original_draw_functions a2 ->
  load_post a1 = load_post a2 ->
  classes a1 = classes a2 ->
  scene_properties a1 = scene_properties a2 ->
  a1 = a2.
Proof. destruct a1, a2. cbn. intros; subst; reflexivity. Qed.

(** Patching a panel that is patched already changes nothing. *)
Lemma monkey_patch_panel_twice panel_name a :
  monkey_patch_panel panel_name panel_name
    (monkey_patch_panel panel_name panel_name a)
  = monkey_patch_panel panel_name panel_name a.
Proof.
  destruct (panel_draw a !! panel_name) as [d|] eqn:Hd.
  - destruct (monkey_patch_panel_fields panel_name a d Hd)
      as (Hp & Ho & Hl & Hc & Hs).
    assert (Hd' : panel_draw (monkey_patch_panel panel_name panel_name a)
                    !! panel_name = Some (NewDraw panel_name))
      by (rewrite Hp; apply lookup_insert_eq).
    destruct (monkey_patch_panel_fields panel_name _ _ Hd')
      as (Hp' & Ho' & Hl' & Hc' & Hs').
    apply addon_eq; try congruence.
    + rewrite Hp', Hp. apply insert_insert_eq.
    + rewrite Ho'.
      assert (Hin : is_Some (_original_draw_functions
                               (monkey_patch_panel panel_name panel_name a)
                               !! panel_name)).
      { rewrite Ho. destruct (_original_draw_functions a !! panel_name) eqn:Hx;
          [rewrite Hx; eauto | rewrite lookup_insert_eq; eauto]. }
      destruct Hin as [x ->]. reflexivity.
  - unfold monkey_patch_panel. rewrite Hd. rewrite Hd. reflexivity.
Qed.

Lemma patch_first_twice targets a :
  patch_first targets (patch_first targets a) = patch_first targets a.
Proof.
  induction targets as [|t targets IH]; [reflexivity|].
  cbn [patch_first]. destruct (panel_draw a !! t) as [d|] eqn:Hd.
  - destruct (monkey_patch_panel_fields t a d Hd) as (Hp & _).
    rewrite Hp, lookup_insert_eq. apply monkey_patch_panel_twice.
  - destruct (patch_first_cases targets a) as [Hsame|(t' & d' & Hd' & Hpatch)].
    + rewrite !Hsame, Hd. reflexivity.
    + assert (Hne : t' <> t) by (intros ->; congruence).
      destruct (monkey_patch_panel_fields t' a d' Hd') as (Hp & _).
      assert (Ht : panel_draw (patch_first targets a) !! t = None)
        by (rewrite Hpatch, Hp, lookup_insert_ne by exact Hne; exact Hd).
      rewrite Ht. exact IH.
Qed.

(** X23. Registering twice is registering once: the classes, the scene
    property and the handler are there once, and the panel that was
    patched keeps the original draw function that was stored for it the
    first time. *)
Theorem register_twice (a : addon) : register (register a) = register a.
Proof.
  unfold register, load_handler.
  set (a1 := {| panel_draw := panel_draw a;
                _original_draw_functions := _original_draw_functions a;
                load_post := _; classes := _; scene_properties := _ |}).
  assert (Hl : "load_handler" ∈ load_post a1).
  { subst a1. cbn [load_post]. case_bool_decide as Hin; [exact Hin|].
    apply elem_of_app. right. apply list_elem_of_singleton. reflexivity. }
  set (a2 := patch_first target_panel_classes a1).
  assert (E : {| panel_draw := panel_draw a2;
                 _original_draw_functions := _original_draw_functions a2;
                 load_post :=
                   if bool_decide ("load_handler" ∈ load_post a2) then load_post a2
                   else load_post a2 ++ ["load_handler"];
                 classes := classes a2 ∪ list_to_set registered_classes;
                 scene_properties :=
                   scene_properties a2 ∪ {["elca_attach_to_project"]} |} = a2).
  { apply addon_eq; cbn [panel_draw _original_draw_functions load_post classes
                         scene_properties]; try reflexivity.
    - subst a2. rewrite patch_first_load_post.
      rewrite bool_decide_eq_true_2 by exact Hl. reflexivity.
    - subst a2. rewrite patch_first_classes. subst a1. cbn [classes].
      rewrite <- (assoc_L (∪)), (idemp_L (∪)). reflexivity.
    - subst a2. rewrite patch_first_scene_properties. subst a1.
      cbn [scene_properties].
      rewrite <- (assoc_L (∪)), (idemp_L (∪)). reflexivity. }
  rewrite E. subst a2. apply patch_first_twice.
Qed.

Lemma restore_draw_functions_lookup originals panels panel_name :
  restore_draw_functions originals panels !! panel_name
  = match panels !! panel_name with
    | Some d => Some (default d (originals !! panel_name))
    | None => None
    end.
Proof.
  unfold restore_draw_functions. revert panel_name.
  apply (map_fold_weak_ind
           (fun r (m : gmap string draw_function) =>
              forall panel_name,
                r !! panel_name
                = match panels !! panel_name with
                  | Some d => Some (default d (m !! panel_name))
                  | None => None
                  end)).
  - intros panel_name. rewrite lookup_empty.
    destruct (panels !! panel_name); reflexivity.
  - intros i x m r Hi IH panel_name.
    destruct (decide (panel_name = i)) as [->|Hne].
    + rewrite lookup_insert_eq. specialize (IH i). rewrite Hi in IH.
      destruct (panels !! i) as [d|]; cbn [default] in IH; rewrite IH.
      * rewrite lookup_insert_eq. reflexivity.
      * exact IH.
    + rewrite (lookup_insert_ne m) by congruence. rewrite <- IH.
      destruct (r !! i); [rewrite lookup_insert_ne by congruence|]; reflexivity.
Qed.

Lemma remove_first_snoc x l :
  x ∉ l -> remove_first x (l ++ [x]) = l.
Proof.
  intros Hx. induction l as [|y l IH]; cbn [app remove_first].
  - rewrite String.eqb_refl. reflexivity.
  - destruct (String.eqb_spec y x) as [->|Hne].
    + contradiction Hx. left.
    + rewrite IH; [reflexivity|]. intros Hin. apply Hx. right. exact Hin.
Qed.

(** [holds a0 a]: no original draw function of the session [a0] is lost
    in [a]. The dictionary stores only draw functions the panels had in
    [a0], and a panel either has the draw function it had in [a0] or is
    patched with that one stored under its name. *)
Lemma restore_gives_back a0 a :
  (forall panel_name d,
     _original_draw_functions a !! panel_name = Some d ->
     panel_draw a0 !! panel_name = Some d) ->
  (forall panel_name,
     panel_draw a !! panel_name = panel_draw a0 !! panel_name
     \/ (panel_draw a !! panel_name = Some (NewDraw panel_name)
         /\ is_Some (panel_draw a0 !! panel_name)
         /\ _original_draw_functions a !! panel_name = panel_draw a0 !! panel_name)) ->
  restore_draw_functions (_original_draw_functions a) (panel_draw a) = panel_draw a0.
Proof.
  intros Ho Hp. apply map_eq. intros panel_name.
  rewrite restore_draw_functions_lookup.
  destruct (Hp panel_name) as [Hsame|(Hnew & [d Hd] & Horig)].
  - rewrite Hsame. destruct (panel_draw a0 !! panel_name) as [d|] eqn:Hd;
      [|reflexivity].
    destruct (_original_draw_functions a !! panel_name) as [d'|] eqn:Hd';
      [|reflexivity].
    cbn [default]. rewrite (Ho _ _ Hd') in Hd. exact Hd.
  - rewrite Hnew, Horig, Hd. reflexivity.
Qed.

Section Sessions.

(** The session before the add-on touched it. *)
Variable a0 : addon.
Hypothesis Hfresh : untouched a0.

Local Notation "'kept_originals' a" :=
  ((forall panel_name d,
      _original_draw_functions a !! panel_name = Some d ->
      panel_draw a0 !! panel_name = Some d)
   /\ (forall panel_name,
         panel_draw a !! panel_name = panel_draw a0 !! panel_name
         \/ (panel_draw a !! panel_name = Some (NewDraw panel_name)
             /\ is_Some (panel_draw a0 !! panel_name)
             /\ _original_draw_functions a !! panel_name
                = panel_draw a0 !! panel_name)))
  (at level 10, a at level 9).

Lemma kept_start : kept_originals a0.
Proof.
  split.
  - intros panel_name d. destruct Hfresh as [-> _]. rewrite lookup_empty.
    discriminate.
  - intros panel_name. left. reflexivity.
Qed.

Lemma kept_monkey_patch_panel panel_name a :
  kept_originals a ->
  kept_originals (monkey_patch_panel panel_name panel_name a).
Proof.
  intros [Ho Hp].
  destruct (panel_draw a !! panel_name) as [d|] eqn:Hd;
    [|unfold monkey_patch_panel; rewrite Hd; split; assumption].
  destruct (monkey_patch_panel_fields panel_name a d Hd) as (Ep & Eo & _).
  rewrite Ep, Eo. clear Ep Eo.
  assert (Hcase :
            (exists d0, _original_draw_functions a !! panel_name = Some d0
                        /\ panel_draw a0 !! panel_name = Some d0)
            \/ (_original_draw_functions a !! panel_name = None
                /\ panel_draw a0 !! panel_name = Some d)).
  { destruct (_original_draw_functions a !! panel_name) as [d0|] eqn:Hx.
    - left. exists d0. split; [reflexivity | apply Ho; exact Hx].
    - right. split; [reflexivity|].
      destruct (Hp panel_name) as [Hsame|(Hnew & [x Hx0] & Horig)].
      + rewrite <- Hsame. exact Hd.
      + rewrite Hx in Horig. rewrite <- Horig in Hx0. discriminate. }
  split.
  - intros name d1. destruct Hcase as [(d0 & Hx & H0)|[Hx H0]]; rewrite Hx.
    + apply Ho.
    + destruct (decide (name = panel_name)) as [->|Hne].
      * rewrite lookup_insert_eq. intros [= <-]. exact H0.
      * rewrite lookup_insert_ne by congruence. apply Ho.
  - intros name. destruct (decide (name = panel_name)) as [->|Hne].
    + right. rewrite lookup_insert_eq. split; [reflexivity|].
      destruct Hcase as [(d0 & Hx & H0)|[Hx H0]]; rewrite Hx.
      * split; [eauto|]. rewrite Hx, H0. reflexivity.
      * split; [eauto|]. rewrite lookup_insert_eq, H0. reflexivity.
    + rewrite lookup_insert_ne by congruence.
      destruct Hcase as [(d0 & Hx & H0)|[Hx H0]]; rewrite Hx.
      * apply Hp.
      * rewrite lookup_insert_ne by congruence. apply Hp.
Qed.

Lemma kept_load_handler a : kept_originals a -> kept_originals (load_handler a).
Proof.
  intros Hk. unfold load_handler.
  destruct (patch_first_cases target_panel_classes a) as [->|(t & d & _ & ->)];
    [exact Hk | apply kept_monkey_patch_panel; exact Hk].
Qed.

Lemma kept_register a : kept_originals a -> kept_originals (register a).
Proof. intros Hk. unfold register. apply kept_load_handler. exact Hk. Qed.

Lemma kept_unregister a : kept_originals a -> kept_originals (unregister a).
Proof.
  intros [Ho Hp]. unfold unregister. cbn [panel_draw _original_draw_functions].
  rewrite (restore_gives_back a0 a Ho Hp).
  split; [exact Ho | intros panel_name; left; reflexivity].
Qed.

Lemma kept_run events a : kept_originals a -> kept_originals (run events a).
Proof.
  unfold run. revert a. induction events as [|e events IH]; intros a Hk;
    [exact Hk|].
  cbn [foldl]. apply IH. destruct e; cbn [step].
  - apply kept_register, Hk.
  - apply kept_unregister, Hk.
  - destruct (bool_decide _); [apply kept_load_handler, Hk | exact Hk].
Qed.

(** X24. No original draw function is ever lost. From a session the
    add-on has not touched, after any sequence of registrations,
    unregistrations and file loads, the dictionary holds for a panel
    name only the draw function that panel had at the start, never a
    patched one; every panel has either its own draw function or the
    patch, and in that case its own one is in the dictionary; and
    unregistering gives every panel the draw function it had at the
    start. *)
Theorem original_draw_never_lost (events : list event) :
  let a := run events a0 in
  (forall panel_name d,
     _original_draw_functions a !! panel_name = Some d ->
     panel_draw a0 !! panel_name = Some d /\ exists host, d = HostDraw host)
  /\ (forall panel_name,
        panel_draw a !! panel_name = panel_draw a0 !! panel_name
        \/ (panel_draw a !! panel_name = Some (NewDraw panel_name)
            /\ _original_draw_functions a !! panel_name
               = panel_draw a0 !! panel_name))
  /\ panel_draw (unregister a) = panel_draw a0.
Proof.
  cbv zeta. destruct (kept_run events a0 kept_start) as [Ho Hp].
  split; [|split].
  - intros panel_name d Hd. split; [apply Ho; exact Hd|].
    destruct Hfresh as [_ Hhost].
    pose proof (Hhost panel_name d (Ho _ _ Hd)) as Hh. cbn beta in Hh.
    destruct d as [host|n]; [eauto | discriminate].
  - intros panel_name.
    destruct (Hp panel_name) as [Hsame|(Hnew & _ & Horig)]; [left | right]; auto.
  - unfold unregister. cbn [panel_draw]. apply restore_gives_back; assumption.
Qed.

(** X25. Registering and then unregistering, in a session the add-on
    has not touched and that has neither its handler, its classes nor its
    scene property: the panels have their draw functions back, and the
    handlers, the registered classes and the scene properties are as
    before; only the dictionary keeps what it stored. *)
Theorem register_then_unregister :
  "load_handler" ∉ load_post a0 ->
  classes a0 ## list_to_set registered_classes ->
  "elca_attach_to_project" ∉ scene_properties a0 ->
  let a := unregister (register a0) in
  panel_draw a = panel_draw a0
  /\ load_post a = load_post a0
  /\ classes a = classes a0
  /\ scene_properties a = scene_properties a0.
Proof.
  intros Hl Hc Hs. cbv zeta.
  destruct (kept_register a0 kept_start) as [Ho Hp].
  unfold unregister.
  cbn [panel_draw load_post classes scene_properties].
  split; [apply restore_gives_back; assumption|].
  unfold register, load_handler.
  rewrite patch_first_load_post, patch_first_classes, patch_first_scene_properties.
  cbn [load_post classes scene_properties].
  rewrite (bool_decide_eq_false_2 _ Hl).
  assert (Hin : "load_handler" ∈ load_post a0 ++ ["load_handler"])
    by (apply elem_of_app; right; apply list_elem_of_singleton; reflexivity).
  rewrite (bool_decide_eq_true_2 _ Hin).
  split; [apply remove_first_snoc; exact Hl|].
  split.
  - apply set_eq. intros x. rewrite elem_of_difference, elem_of_union.
    split; [intros [[H|H] Hn]; [exact H | contradiction]|].
    intros H. split; [left; exact H|]. intros Hx. exact (Hc x H Hx).
  - apply set_eq. intros x. rewrite elem_of_difference, elem_of_union.
    split; [intros [[H|H] Hn]; [exact H | contradiction]|].
    intros H. split; [left; exact H|]. intros Hx.
    apply elem_of_singleton in Hx. subst x. contradiction.
Qed.

End Sessions.

(** * Facts on the panel *)

Lemma is_empty_false (s : string) : PyStr.is_empty s = false <-> s <> EmptyString.
Proof. destruct s; cbn; split; congruence. Qed.

Section PanelFacts.

Variable path_name : string -> string.
Variable eval_layer_summary : string -> option (string * string).

Local Notation "'draw'" := (draw_elca_ui true path_name eval_layer_summary).

(** The buttons of the panel, from the three things the drawing looks
    at: whether an HTML path is stored, whether an XML path is stored,
    and whether the match flag is set. *)
Lemma buttons_draw_elca_ui (sc : gmap string string) :
  let html := negb (PyStr.is_empty (get (sc !! "elca_html_path") EmptyString)) in
  let xml := negb (PyStr.is_empty (get (sc !! "elca_xml_path") EmptyString)) in
  let matched := String.eqb (get (sc !! "elca_matched_data") "false") "true" in
  buttons (draw sc)
  = [("elca.load_results", negb html);
     ("elca.load_project", html && negb (xml && matched))]
    ++ (if html && xml && matched then [("elca.create_ifc_library", true)] else [])
    ++ (if html || xml then [("elca.reset_data", true)] else []).
Proof.
  cbv zeta. unfold draw_elca_ui, buttons. cbn [negb].
  destruct (PyStr.is_empty (get (sc !! "elca_html_path") EmptyString));
    destruct (PyStr.is_empty (get (sc !! "elca_xml_path") EmptyString));
    destruct (String.eqb (get (sc !! "elca_matched_data") "false") "true");
    cbn [negb andb orb];
    try destruct (PyStr.is_empty (get (sc !! "elca_layer_data") EmptyString));
    cbn [negb andb orb];
    try destruct (eval_layer_summary (get (sc !! "elca_layer_data") EmptyString))
      as [[element_count layer_count]|];
    reflexivity.
Qed.

(** X26. After a reset the panel is back at its first step, whatever was
    loaded before: the two hints, the button that loads the HTML results,
    the button that loads the XML project disabled; neither the library
    button nor the reset button is offered. *)
Theorem panel_after_reset (screen : option (list area)) (b : blender) :
  draw (scene (snd (fst (reset_data_execute screen b))))
  = [Label "eLCA Integration" (Some "FILE_REFRESH");
     Label "1. Load HTML results file" (Some "RADIOBUT_OFF");
     Label "2. Load XML project file" (Some "RADIOBUT_OFF");
     Button "elca.load_results" (Some "1. Load Results (HTML)") "IMPORT" true;
     Button "elca.load_project" (Some "2. Load Project (XML)") "IMPORT" false].
Proof.
  assert (Hgone : forall k, k ∈ elca_properties ->
            scene (snd (fst (reset_data_execute screen b))) !! k = None)
    by (intros k; apply reset_gone).
  generalize dependent (scene (snd (fst (reset_data_execute screen b)))).
  intros sc Hgone. unfold draw_elca_ui. cbn [negb].
  rewrite (Hgone "elca_html_path"), (Hgone "elca_xml_path")
    by (unfold elca_properties; repeat constructor).
  reflexivity.
Qed.

Section PanelAndOperators.

Variable extractor :
  gmap string string -> string -> string ->
  string + (list BauteilElement * LayerSummary).
Variable pickle_b64 : list BauteilElement -> option string.
Variable str_of_summary : LayerSummary -> string.
Variable accepts : Ifc.entity -> bool.
Variable compressed_uuid4 : nat -> string.
Variable unpickle_b64 : string -> string + list BauteilElement.
Variable with_suffix_ifc : string -> string + string.
Variable exn_message : exn -> string.
Variable attach_to_project : bool.
Variable bim_ifc_file : option string.

Local Notation "'load_project'" :=
  (load_project_execute true extractor pickle_b64 str_of_summary).
Local Notation "'create_library'" :=
  (create_ifc_library_execute true accepts compressed_uuid4 unpickle_b64
     with_suffix_ifc exn_message attach_to_project bim_ifc_file).


(** X28. The panel after an XML load that finished, with an XML path
    that is not empty: the button for the HTML results is disabled; when
    the summary counted a layer, the button for the XML project is
    disabled as well and the library button is offered; when it counted
    none, the XML project can be loaded again and no library button is
    offered; the reset button is there in both cases. *)
Theorem panel_after_load_project (files : gmap string string)
    (html_path xml_path : string) (elements : list BauteilElement)
    (summary : LayerSummary) (b : blender) :
  scene b !! "elca_html_path" = Some html_path ->
  html_path <> EmptyString ->
  is_Some (files !! html_path) ->
  xml_path <> EmptyString ->
  extractor files html_path xml_path = inr (elements, summary) ->
  buttons (draw (scene (snd (load_project files xml_path b))))
  = if (0 <? total_layers summary)%nat
    then [("elca.load_results", false); ("elca.load_project", false);
          ("elca.create_ifc_library", true); ("elca.reset_data", true)]
    else [("elca.load_results", false); ("elca.load_project", true);
          ("elca.reset_data", true)].
Proof.
  intros Hpath Hne Hex Hxne Hx.
  assert (Hscene :
            scene (snd (load_project files xml_path b)) !! "elca_html_path"
            = Some html_path
            /\ scene (snd (load_project files xml_path b)) !! "elca_xml_path"
               = Some xml_path
            /\ scene (snd (load_project files xml_path b)) !! "elca_matched_data"
               = Some (if (0 <? total_layers summary)%nat then "true" else "false")).
  { unfold load_project_execute. cbn [negb]. rewrite Hpath. cbn [get].
    apply is_empty_false in Hne. rewrite Hne. cbn [orb].
    rewrite bool_decide_eq_true_2 by exact Hex. cbn [negb]. rewrite Hx.
    destruct (0 <? total_layers summary)%nat, (pickle_b64 elements);
      cbn [fst snd scene report set_scene];
      repeat split;
      repeat (rewrite lookup_insert_ne by discriminate);
      rewrite ?lookup_insert_eq; auto. }
  destruct Hscene as (Hh & Hxml & Hm).
  rewrite buttons_draw_elca_ui. cbv zeta. rewrite Hh, Hxml, Hm. cbn [get].
  apply is_empty_false in Hne. apply is_empty_false in Hxne. rewrite Hne, Hxne.
  destruct (0 <? total_layers summary)%nat; reflexivity.
Qed.

End PanelAndOperators.

End PanelFacts.

(** X29. Every button of the panel that is drawn into the host's panel
    starts an operator that [register] registers; the fallback panel has
    four buttons, those of the material sets, whose operators [register]
    never registers. *)
Theorem fallback_panel_operators (dependencies_installed : bool)
    (path_name : string -> string)
    (eval_layer_summary : string -> option (string * string)) (a : addon) :
  (forall cls,
     cls ∈ ["ELCA_OT_ShowMaterialSets"; "ELCA_OT_RemoveMaterialSets";
            "ELCA_OT_ValidateMaterialSets"; "ELCA_OT_SyncMaterialSets"] ->
     cls ∉ classes a) ->
  (forall sc idname enabled,
     (idname, enabled)
       ∈ buttons (draw_elca_ui dependencies_installed path_name
                    eval_layer_summary sc) ->
     operator_registered (register a) idname = true)
  /\ (forall idname,
        idname ∈ ["elca.show_material_sets"; "elca.validate_material_sets";
                  "elca.sync_material_sets"; "elca.remove_material_sets"] ->
        (idname, true) ∈ buttons (fallback_draw true)
        /\ operator_registered (register a) idname = false).
Proof.
  intros Hnone.
  assert (Hc : classes (register a) = classes a ∪ list_to_set registered_classes)
    by (unfold register, load_handler; rewrite patch_first_classes; reflexivity).
  assert (Hreg : Forall (fun cls => bool_decide (cls ∈ classes (register a)) = true)
                   registered_classes).
  { apply Forall_forall. intros cls Hcls. apply bool_decide_eq_true_2. rewrite Hc.
    apply elem_of_union. right. apply elem_of_list_to_set. exact Hcls. }
  assert (Hunreg :
            Forall (fun cls => bool_decide (cls ∈ classes (register a)) = false)
              ["ELCA_OT_ShowMaterialSets"; "ELCA_OT_RemoveMaterialSets";
               "ELCA_OT_ValidateMaterialSets"; "ELCA_OT_SyncMaterialSets"]).
  { assert (Hdisj : Forall (fun cls => cls ∉ registered_classes)
                      ["ELCA_OT_ShowMaterialSets"; "ELCA_OT_RemoveMaterialSets";
                       "ELCA_OT_ValidateMaterialSets"; "ELCA_OT_SyncMaterialSets"])
      by (repeat constructor; apply (bool_decide_unpack _); vm_compute; exact I).
    rewrite Forall_forall in Hdisj. apply Forall_forall. intros cls Hcls.
    apply bool_decide_eq_false_2. rewrite Hc.
    rewrite elem_of_union, elem_of_list_to_set. intros [H|H].
    - exact (Hnone cls Hcls H).
    - exact (Hdisj cls Hcls H). }
  unfold registered_classes in Hreg.
  repeat match goal with
         | H : Forall _ (_ :: _) |- _ =>
             apply Forall_cons in H; destruct H as [? H]
         | H : Forall _ [] |- _ => clear H
         end.
  assert (Hcheck : forall idname,
            bool_decide
              (idname ∈ ["elca.install_dependencies"; "elca.load_results";
                         "elca.load_project"; "elca.create_ifc_library";
                         "elca.reset_data"]) = true ->
            operator_registered (register a) idname = true).
  { intros idname Hid. apply bool_decide_eq_true_1 in Hid. revert idname Hid.
    apply Forall_forall.
    repeat constructor; unfold operator_registered, operator_classes;
      cbn [existsb fst snd];
      repeat match goal with
             | H : bool_decide _ = _ |- _ => rewrite H; clear H
             end;
      reflexivity. }
  split.
  - intros sc idname enabled Hin. apply Hcheck.
    destruct dependencies_installed.
    + rewrite buttons_draw_elca_ui in Hin. cbv zeta in Hin.
      destruct (negb (PyStr.is_empty (get (sc !! "elca_html_path") EmptyString)));
        destruct (negb (PyStr.is_empty (get (sc !! "elca_xml_path") EmptyString)));
        destruct (String.eqb (get (sc !! "elca_matched_data") "false") "true");
        cbn [negb andb orb app] in Hin;
        rewrite ?elem_of_cons in Hin;
        repeat (destruct Hin as [Hin|Hin];
                [injection Hin as -> _; vm_compute; reflexivity|]);
        apply elem_of_nil in Hin; contradiction.
    + unfold draw_elca_ui, buttons in Hin. cbn in Hin.
      apply list_elem_of_singleton in Hin. injection Hin as -> _.
      vm_compute. reflexivity.
  - apply Forall_forall.
    repeat (apply Forall_cons_2;
            [split;
             [apply (bool_decide_unpack _); vm_compute; exact I
             |unfold operator_registered, operator_classes; cbn [existsb fst snd];
              repeat match goal with
                     | H : bool_decide _ = _ |- _ => rewrite H; clear H
                     end;
              reflexivity]|]).
    apply Forall_nil_2.
Qed.

(** * The theorems at sample inputs *)

Lemma load_results_then_load_project_witness :
  "report.html" <> EmptyString
  /\ is_Some (demo_files !! "report.html")
  /\ fst (load_results_execute true demo_html_extractor demo_files "report.html"
            {| scene := ∅; reports := [] |}) = FINISHED
  /\ fst (load_project_execute true demo_extractor demo_pickle (fun _ => "{}")
            demo_files "project.xml"
            (snd (load_results_execute true demo_html_extractor demo_files
                    "report.html" {| scene := ∅; reports := [] |})))
     = FINISHED.
Proof.
  assert (H1 : "report.html" <> EmptyString) by discriminate.
  assert (H2 : is_Some (demo_files !! "report.html"))
    by (exists "<html/>"; vm_compute; reflexivity).
  assert (H3 : fst (load_results_execute true demo_html_extractor demo_files
                      "report.html" {| scene := ∅; reports := [] |}) = FINISHED)
    by reflexivity.
  repeat (split; [assumption|]).
  apply (proj1 (load_results_then_load_project demo_extractor demo_html_extractor
                  demo_pickle (fun _ => "{}") demo_files
                  "report.html" "project.xml" {| scene := ∅; reports := [] |}
                  H1 H2 H3)).
  exists (demo_matched_elements, demo_summary). reflexivity.
Defined.

Lemma load_project_match_flag_witness :
  fst (load_project_execute true demo_extractor demo_pickle (fun _ => "{}")
         demo_files "project.xml" demo_blender) = FINISHED
  /\ exists elements summary,
       demo_extractor demo_files
         (get (scene demo_blender !! "elca_html_path") EmptyString) "project.xml"
       = inr (elements, summary)
       /\ scene (snd (load_project_execute true demo_extractor demo_pickle
                        (fun _ => "{}") demo_files "project.xml" demo_blender))
            !! "elca_matched_data"
          = Some (if (0 <? total_layers summary)%nat then "true" else "false").
Proof.
  assert (H1 : fst (load_project_execute true demo_extractor demo_pickle
                      (fun _ => "{}") demo_files "project.xml" demo_blender)
               = FINISHED)
    by (vm_compute; reflexivity).
  split; [exact H1|].
  destruct (load_project_match_flag demo_extractor demo_pickle (fun _ => "{}")
              demo_files "project.xml" demo_blender H1)
    as (elements & summary & Hx & Hm & _).
  exists elements, summary. split; [exact Hx | exact Hm].
Defined.


Lemma pickle_failure_blocks_library_witness :
  scene demo_blender !! "elca_html_path" = Some "report.html"
  /\ is_Some (demo_files !! "report.html")
  /\ demo_extractor demo_files "report.html" "project.xml"
     = inr (demo_matched_elements, demo_summary)
  /\ fst (load_project_execute true demo_extractor (fun _ => None)
            (fun _ => "{}") demo_files "project.xml" demo_blender)
     = FINISHED
  /\ fst (fst (create_ifc_library_execute true accept_all demo_guid
                 demo_unpickle demo_with_suffix demo_exn_message false None
                 (snd (load_project_execute true demo_extractor (fun _ => None)
                         (fun _ => "{}") demo_files "project.xml" demo_blender))
                 demo_world))
     = CANCELLED.
Proof.
  assert (H1 : scene demo_blender !! "elca_html_path" = Some "report.html")
    by (vm_compute; reflexivity).
  assert (H2 : "report.html" <> EmptyString) by discriminate.
  assert (H3 : is_Some (demo_files !! "report.html"))
    by (exists "<html/>"; vm_compute; reflexivity).
  assert (H4 : "project.xml" <> EmptyString) by discriminate.
  assert (H5 : demo_extractor demo_files "report.html" "project.xml"
               = inr (demo_matched_elements, demo_summary)) by reflexivity.
  assert (H6 : (fun _ : list BauteilElement => @None string) demo_matched_elements
               = None) by reflexivity.
  repeat (split; [assumption|]).
  destruct (pickle_failure_blocks_library demo_extractor (fun _ => None)
              (fun _ => "{}") accept_all demo_guid demo_unpickle demo_with_suffix
              demo_exn_message demo_files "report.html" "project.xml"
              demo_matched_elements demo_summary false None demo_blender
              demo_world H1 H2 H3 H4 H5 H6) as [Hl Hc].
  split; [exact Hl|]. cbv zeta in Hc. rewrite Hc. reflexivity.
Defined.

Lemma attach_outcome_not_reported_witness :
  "missing.ifc" <> EmptyString
  /\ fst (fst (create_ifc_library_execute true accept_all demo_guid
                 demo_unpickle demo_with_suffix demo_exn_message true
                 (Some "missing.ifc")
                 (snd (load_project_execute true demo_extractor demo_pickle
                         (fun _ => "{}") demo_files "project.xml" demo_blender))
                 demo_world))
     = FINISHED
  /\ last (reports
             (snd (fst (create_ifc_library_execute true accept_all demo_guid
                          demo_unpickle demo_with_suffix demo_exn_message true
                          (Some "missing.ifc")
                          (snd (load_project_execute true demo_extractor
                                  demo_pickle (fun _ => "{}") demo_files
                                  "project.xml" demo_blender))
                          demo_world))))
     = Some (INFO, "Attached library to project at missing.ifc").
Proof.
  assert (H1 : "missing.ifc" <> EmptyString) by discriminate.
  assert (H2 : fst (fst (create_ifc_library_execute true accept_all demo_guid
                           demo_unpickle demo_with_suffix demo_exn_message true
                           (Some "missing.ifc")
                           (snd (load_project_execute true demo_extractor
                                   demo_pickle (fun _ => "{}") demo_files
                                   "project.xml" demo_blender))
                           demo_world))
               = FINISHED)
    by (vm_compute; reflexivity).
  repeat (split; [assumption|]).
  exact (proj1 (attach_outcome_not_reported accept_all demo_guid demo_unpickle
                  demo_with_suffix demo_exn_message "missing.ifc" _ demo_world
                  H1 H2)).
Defined.

Lemma attach_missing_file_witness :
  (disk demo_attach_world !! "missing.ifc" = None
   \/ disk demo_attach_world !! "library.ifc" = None)
  /\ exists w',
       attach_library_to_project accept_all demo_guid "missing.ifc" "library.ifc"
         demo_attach_world
       = (Returns None, w')
       /\ disk w' = disk demo_attach_world.
Proof.
  assert (H : disk demo_attach_world !! "missing.ifc" = None
              \/ disk demo_attach_world !! "library.ifc" = None)
    by (left; vm_compute; reflexivity).
  split; [exact H|].
  exact (attach_missing_file accept_all demo_guid "missing.ifc" "library.ifc"
           demo_attach_world H).
Defined.

Lemma attach_nothing_to_attach_witness :
  disk demo_attach_world !! "library.ifc" = Some demo_library_file
  /\ disk demo_attach_world !! "project.ifc" = Some demo_project
  /\ (Ifc.count "IfcLibraryInformation" demo_project = 0%nat
      \/ Ifc.count "IfcProject" demo_library_file = 0%nat)
  /\ exists w',
       attach_library_to_project accept_all demo_guid "library.ifc" "project.ifc"
         demo_attach_world
       = (Returns (Some demo_library_file), w')
       /\ disk w' = disk demo_attach_world.
Proof.
  assert (H1 : disk demo_attach_world !! "library.ifc" = Some demo_library_file)
    by (vm_compute; reflexivity).
  assert (H2 : disk demo_attach_world !! "project.ifc" = Some demo_project)
    by (vm_compute; reflexivity).
  assert (H3 : Ifc.count "IfcLibraryInformation" demo_project = 0%nat
               \/ Ifc.count "IfcProject" demo_library_file = 0%nat)
    by (left; reflexivity).
  repeat (split; [assumption|]).
  exact (attach_nothing_to_attach accept_all demo_guid "library.ifc" "project.ifc"
           demo_attach_world demo_library_file demo_project H1 H2 H3).
Defined.

Lemma attach_keeps_project_instances_witness :
  disk demo_attach_world !! "project.ifc" = Some demo_project
  /\ wp (attach_library_to_project accept_all demo_guid "project.ifc" "library.ifc")
        demo_attach_world
        (fun r w' =>
           match r with
           | Some f =>
               demo_project `prefix_of` f
               /\ (disk w' = disk demo_attach_world
                   \/ disk w' = <["project.ifc" := f]> (disk demo_attach_world))
           | None => disk w' = disk demo_attach_world
           end)
        (fun _ _ => False).
Proof.
  assert (H1 : disk demo_attach_world !! "project.ifc" = Some demo_project)
    by (vm_compute; reflexivity).
  split; [exact H1|].
  exact (attach_keeps_project_instances accept_all demo_guid "project.ifc"
           "library.ifc" demo_attach_world demo_project H1).
Defined.

Lemma attach_adds_one_library_witness :
  disk demo_attach_world !! "project.ifc" = Some demo_project
  /\ disk demo_attach_world !! "library.ifc" = Some demo_library_file
  /\ Ifc.count "IfcLibraryInformation" demo_library_file <> 0%nat
  /\ Ifc.count "IfcProject" demo_project <> 0%nat
  /\ wp (attach_library_to_project accept_all demo_guid "project.ifc" "library.ifc")
        demo_attach_world
        (fun r w' =>
           match r with
           | Some f =>
               Ifc.count "IfcLibraryInformation" f
               = S (Ifc.count "IfcLibraryInformation" demo_project)
               /\ Ifc.count "IfcProject" f = Ifc.count "IfcProject" demo_project
               /\ Ifc.count "IfcOwnerHistory" f
                  = Nat.max 1 (Ifc.count "IfcOwnerHistory" demo_project)
               /\ disk w' = <["project.ifc" := f]> (disk demo_attach_world)
           | None => disk w' = disk demo_attach_world
           end)
        (fun _ _ => False).
Proof.
  assert (H1 : disk demo_attach_world !! "project.ifc" = Some demo_project)
    by (vm_compute; reflexivity).
  assert (H2 : disk demo_attach_world !! "library.ifc" = Some demo_library_file)
    by (vm_compute; reflexivity).
  assert (H3 : Ifc.count "IfcLibraryInformation" demo_library_file <> 0%nat)
    by (vm_compute; discriminate).
  assert (H4 : Ifc.count "IfcProject" demo_project <> 0%nat)
    by (vm_compute; discriminate).
  repeat (split; [assumption|]).
  exact (attach_adds_one_library accept_all demo_guid "project.ifc" "library.ifc"
           demo_attach_world demo_project demo_library_file H1 H2 H3 H4).
Defined.

Lemma attach_twice_duplicates_witness :
  "project.ifc" <> "library.ifc"
  /\ disk demo_attach_world !! "project.ifc" = Some demo_project
  /\ disk demo_attach_world !! "library.ifc" = Some demo_library_file
  /\ Ifc.count "IfcLibraryInformation" demo_library_file <> 0%nat
  /\ Ifc.count "IfcProject" demo_project <> 0%nat
  /\ wp (attach_library_to_project accept_all demo_guid "project.ifc" "library.ifc")
        demo_attach_world
        (fun r1 w1 =>
           wp (attach_library_to_project accept_all demo_guid "project.ifc"
                 "library.ifc") w1
              (fun r2 _ =>
                 match r1, r2 with
                 | Some f1, Some f2 =>
                     f1 `prefix_of` f2
                     /\ Ifc.count "IfcLibraryInformation" f2
                        = S (S (Ifc.count "IfcLibraryInformation" demo_project))
                 | _, _ => True
                 end)
              (fun _ _ => False))
        (fun _ _ => False).
Proof.
  assert (H0 : "project.ifc" <> "library.ifc") by discriminate.
  assert (H1 : disk demo_attach_world !! "project.ifc" = Some demo_project)
    by (vm_compute; reflexivity).
  assert (H2 : disk demo_attach_world !! "library.ifc" = Some demo_library_file)
    by (vm_compute; reflexivity).
  assert (H3 : Ifc.count "IfcLibraryInformation" demo_library_file <> 0%nat)
    by (vm_compute; discriminate).
  assert (H4 : Ifc.count "IfcProject" demo_project <> 0%nat)
    by (vm_compute; discriminate).
  repeat (split; [assumption|]).
  exact (attach_twice_duplicates accept_all demo_guid "project.ifc" "library.ifc"
           demo_attach_world demo_project demo_library_file H0 H1 H2 H3 H4).
Defined.

Lemma attach_creates_no_other_type_witness :
  disk demo_attach_world !! "project.ifc" = Some demo_project
  /\ ("IfcMaterialProperties" ∉ attached_types)
  /\ wp (attach_library_to_project accept_all demo_guid "project.ifc" "library.ifc")
        demo_attach_world
        (fun r _ =>
           match r with
           | Some f =>
               Ifc.count "IfcMaterialProperties" f
               = Ifc.count "IfcMaterialProperties" demo_project
           | None => True
           end)
        (fun _ _ => False).
Proof.
  assert (H1 : disk demo_attach_world !! "project.ifc" = Some demo_project)
    by (vm_compute; reflexivity).
  assert (H2 : "IfcMaterialProperties" ∉ attached_types)
    by (apply (bool_decide_unpack _); vm_compute; exact I).
  repeat (split; [assumption|]).
  exact (attach_creates_no_other_type accept_all demo_guid "project.ifc"
           "library.ifc" "IfcMaterialProperties" demo_attach_world demo_project
           H1 H2).
Defined.

Lemma original_draw_never_lost_witness :
  untouched demo_addon
  /\ panel_draw (unregister (run [Register; FileLoaded; Unregister; Register]
                               demo_addon))
     = panel_draw demo_addon.
Proof.
  assert (H : untouched demo_addon)
    by (apply (bool_decide_unpack _); vm_compute; exact I).
  split; [exact H|].
  exact (proj2 (proj2 (original_draw_never_lost demo_addon H
                         [Register; FileLoaded; Unregister; Register]))).
Defined.

Lemma register_then_unregister_witness :
  untouched demo_addon
  /\ ("load_handler" ∉ load_post demo_addon)
  /\ classes demo_addon ## list_to_set registered_classes
  /\ ("elca_attach_to_project" ∉ scene_properties demo_addon)
  /\ panel_draw (unregister (register demo_addon)) = panel_draw demo_addon
  /\ load_post (unregister (register demo_addon)) = load_post demo_addon.
Proof.
  assert (H0 : untouched demo_addon)
    by (apply (bool_decide_unpack _); vm_compute; exact I).
  assert (H1 : "load_handler" ∉ load_post demo_addon)
    by (apply (bool_decide_unpack _); vm_compute; exact I).
  assert (H2 : classes demo_addon ## list_to_set registered_classes)
    by (apply (bool_decide_unpack _); vm_compute; exact I).
  assert (H3 : "elca_attach_to_project" ∉ scene_properties demo_addon)
    by (apply (bool_decide_unpack _); vm_compute; exact I).
  repeat (split; [assumption|]).
  destruct (register_then_unregister demo_addon H0 H1 H2 H3) as (Hp & Hl & _).
  split; [exact Hp | exact Hl].
Defined.

Lemma panel_after_load_project_witness :
  scene demo_blender !! "elca_html_path" = Some "report.html"
  /\ is_Some (demo_files !! "report.html")
  /\ demo_extractor demo_files "report.html" "project.xml"
     = inr (demo_matched_elements, demo_summary)
  /\ buttons (draw_elca_ui true (fun p => p) (fun _ => None)
                (scene (snd (load_project_execute true demo_extractor demo_pickle
                               (fun _ => "{}") demo_files "project.xml"
                               demo_blender))))
     = [("elca.load_results", false); ("elca.load_project", false);
        ("elca.create_ifc_library", true); ("elca.reset_data", true)].
Proof.
  assert (H1 : scene demo_blender !! "elca_html_path" = Some "report.html")
    by (vm_compute; reflexivity).
  assert (H2 : "report.html" <> EmptyString) by discriminate.
  assert (H3 : is_Some (demo_files !! "report.html"))
    by (exists "<html/>"; vm_compute; reflexivity).
  assert (H4 : "project.xml" <> EmptyString) by discriminate.
  assert (H5 : demo_extractor demo_files "report.html" "project.xml"
               = inr (demo_matched_elements, demo_summary)) by reflexivity.
  repeat (split; [assumption|]).
  exact (panel_after_load_project (fun p => p) (fun _ => None) demo_extractor
           demo_pickle (fun _ => "{}") demo_files "report.html" "project.xml"
           demo_matched_elements demo_summary demo_blender H1 H2 H3 H4 H5).
Defined.

Lemma fallback_panel_operators_witness :
  (forall cls,
     cls ∈ ["ELCA_OT_ShowMaterialSets"; "ELCA_OT_RemoveMaterialSets";
            "ELCA_OT_ValidateMaterialSets"; "ELCA_OT_SyncMaterialSets"] ->
     cls ∉ classes demo_addon)
  /\ operator_registered (register demo_addon) "elca.show_material_sets" = false.
Proof.
  assert (H : forall cls,
             cls ∈ ["ELCA_OT_ShowMaterialSets"; "ELCA_OT_RemoveMaterialSets";
                    "ELCA_OT_ValidateMaterialSets"; "ELCA_OT_SyncMaterialSets"] ->
             cls ∉ classes demo_addon)
    by (intros cls _; apply not_elem_of_empty).
  split; [exact H|].
  apply (proj2 (fallback_panel_operators true (fun p => p) (fun _ => None)
                  demo_addon H)).
  left.
Defined.
